(** * disk_objectstore.backup_utils: a shallow embedding and its properties

    The module [src/disk_objectstore/backup_utils.py] drives incremental
    backups of a container with an external transfer tool (rsync), remote
    command execution (ssh) and the usual shell utilities.  This file embeds
    its functions as Rocq functions in a state-and-exception monad over an
    abstract operating system, and proves the properties stated about them.

    Conventions of the embedding:
    - a Python [str] is a [string]; a character stands for the code point with
      the same number (0..255), and comparison is by code point, as in Python;
    - a Python [int] is a [Z];
    - [pathlib.Path] is the record [Path] (POSIX flavour), with its parsing,
      joining, [relative_to] and [str] written out;
    - a [dict] keeps its insertion order: it is an association list;
    - a [dict] object lives in a heap, so that the registry of executables
      a manager holds is the object its caller passed in;
    - everything that leaves the process ([subprocess.run], [shutil.which],
      the clock, the random generator, sqlite, the filesystem) is an operation
      of the class [OS] on an abstract world; the commands run, the records
      given to the logger, the sqlite backup and the life of the temporary
      directory are appended to the event list of the state, in order.
      [subprocess.run] raises when the command cannot be launched at all
      (no such executable, no process to be had): the class [Launch] says
      when, and its instance [launches] is the system on which every command
      can be launched.  A statement that names no [Launch] is about that
      system. *)

From Stdlib Require Import String Ascii List ZArith Bool Lia Arith.
From Stdlib Require Import Sorting.Mergesort Sorting.Sorted Sorting.Permutation.
From Stdlib Require Import Orders.
Import ListNotations.

Local Open Scope string_scope.
Local Open Scope list_scope.

(** ** Python strings *)

Module PyStr.

(** [c in s] for a one-character [c]. *)
Fixpoint count (c : ascii) (s : string) : nat :=
  match s with
  | EmptyString => 0
  | String d r => (if Ascii.eqb d c then 1 else 0) + count c r
  end.

(** [s.split(sep)] for a one-character separator: the pieces between the
    occurrences of [sep], always [count sep s + 1] of them. *)
Fixpoint split (sep : ascii) (s : string) : list string :=
  match s with
  | EmptyString => [EmptyString]
  | String c r =>
      if Ascii.eqb c sep then EmptyString :: split sep r
      else match split sep r with
           | [] => [String c EmptyString]
           | h :: t => String c h :: t
           end
  end.

(** The line boundaries of [str.splitlines] among the code points below
    256: LF, VT, FF, CR, FS, GS, RS and NEL. *)
Definition is_line_boundary (c : ascii) : bool :=
  let n := nat_of_ascii c in
  orb (andb (10 <=? n)%nat (n <=? 13)%nat)
      (orb (andb (28 <=? n)%nat (n <=? 30)%nat) (n =? 133)%nat).

Definition CR : ascii := ascii_of_nat 13.
Definition LF : ascii := ascii_of_nat 10.

(** [s.splitlines()]: CR LF counts as one boundary, and a final boundary
    does not open an empty last line. *)
Fixpoint splitlines (s : string) : list string :=
  match s with
  | EmptyString => []
  | String c r =>
      if is_line_boundary c then
        match r with
        | String d r' =>
            if andb (Ascii.eqb c CR) (Ascii.eqb d LF)
            then EmptyString :: splitlines r'
            else EmptyString :: splitlines r
        | EmptyString => [EmptyString]
        end
      else match splitlines r with
           | [] => [String c EmptyString]
           | h :: t => String c h :: t
           end
  end.

(** [sep.join(l)] *)
Fixpoint join (sep : string) (l : list string) : string :=
  match l with
  | [] => EmptyString
  | [x] => x
  | x :: r => x ++ sep ++ join sep r
  end.

(** Truth value of a string, and of an optional string ([None] or [str]). *)
Definition truthy (s : string) : bool :=
  match s with EmptyString => false | _ => true end.

Definition opt_truthy (o : option string) : bool :=
  match o with None => false | Some s => truthy s end.

(** [s.lstrip(c)] for one character. *)
Fixpoint lstrip (c : ascii) (s : string) : string :=
  match s with
  | String d r => if Ascii.eqb d c then lstrip c r else s
  | EmptyString => EmptyString
  end.

End PyStr.

(** ** Python lists: slices and indices *)

Module PyList.

(** [l[:stop]] *)
Definition slice_to {A} (l : list A) (stop : Z) : list A :=
  let n := Z.of_nat (length l) in
  let k := if (stop <? 0)%Z then Z.max 0 (n + stop) else Z.min stop n in
  firstn (Z.to_nat k) l.

(** [l[i]]; [None] stands for [IndexError]. *)
Definition index {A} (l : list A) (i : Z) : option A :=
  let n := Z.of_nat (length l) in
  let j := if (i <? 0)%Z then (n + i)%Z else i in
  if (j <? 0)%Z then None else nth_error l (Z.to_nat j).

Definition truthy {A} (l : list A) : bool :=
  match l with [] => false | _ => true end.

End PyList.

(** [sorted] on strings: Python's sort is a stable merge sort under [<=] on
    code points; the comparison is [String.leb]. *)

Module StringOrder <: TotalLeBool.
Definition t := string.
Definition leb := String.leb.
Theorem leb_total : forall a1 a2, leb a1 a2 = true \/ leb a2 a1 = true.
Proof. exact String.leb_total. Qed.
End StringOrder.

Module StringSort := Sort StringOrder.

Definition sorted (l : list string) : list string := StringSort.sort l.

(** ** pathlib.PurePosixPath *)

Record Path : Type := mkPath {
  root : string;          (* "", "/" or "//" *)
  parts : list string     (* the components, none empty, none "." *)
}.

Module PyPath.

(** The root of a path string: exactly two leading slashes are kept, any
    other number of them is one. *)
Definition splitroot (s : string) : string * string :=
  match s with
  | String "/" _ =>
      let rest := PyStr.lstrip "/" s in
      if (String.length s - String.length rest =? 2)%nat
      then ("//", rest) else ("/", rest)
  | _ => ("", s)
  end.

Definition keep_part (x : string) : bool :=
  andb (PyStr.truthy x) (negb (String.eqb x ".")).

(** [Path(s)] *)
Definition of_string (s : string) : Path :=
  let '(r, rest) := splitroot s in
  mkPath r (filter keep_part (PyStr.split "/" rest)).

(** [str(p)] *)
Definition str (p : Path) : string :=
  match root p, parts p with
  | EmptyString, [] => "."
  | r, ps => r ++ PyStr.join "/" ps
  end.

Definition is_absolute (p : Path) : bool := PyStr.truthy (root p).

(** [p / q]: an absolute right operand replaces the left one. *)
Definition join (p q : Path) : Path :=
  if is_absolute q then q else mkPath (root p) (parts p ++ parts q).

(** The components of [p] after the prefix [q], if [q] is a prefix. *)
Fixpoint strip_prefix (q p : list string) : option (list string) :=
  match q, p with
  | [], _ => Some p
  | x :: q', y :: p' => if String.eqb x y then strip_prefix q' p' else None
  | _ :: _, [] => None
  end.

(** [p.relative_to(q)]; [None] stands for the [ValueError] it raises when
    [q] is not an ancestor of [p]. *)
Definition relative_to (p q : Path) : option Path :=
  if String.eqb (root p) (root q) then
    match strip_prefix (parts q) (parts p) with
    | Some rest => Some (mkPath "" rest)
    | None => None
    end
  else None.

End PyPath.

Abbreviation str := PyPath.str.
Infix "//" := PyPath.join (at level 40, left associativity).

(** ** dict, with insertion order *)

Module PyDict.

Definition t := list (string * string).

Fixpoint get (k : string) (d : t) : option string :=
  match d with
  | [] => None
  | (k', v) :: r => if String.eqb k' k then Some v else get k r
  end.

(** [k in d] *)
Definition mem (k : string) (d : t) : bool :=
  match get k d with Some _ => true | None => false end.

(** [d[k] = v]: a present key keeps its place, a new one goes last. *)
Fixpoint set (k v : string) (d : t) : t :=
  match d with
  | [] => [(k, v)]
  | (k', v') :: r =>
      if String.eqb k' k then (k', v) :: r else (k', v') :: set k v r
  end.

Definition truthy (d : t) : bool :=
  match d with [] => false | _ => true end.

End PyDict.

(** ** Exceptions, results and the state of a run *)

Inductive exn : Type :=
| ValueError (msg : string)
| BackupError (msg : string)
| AssertionError
| OtherError (what : string).   (* anything a collaborator raises *)

Inductive result (A : Type) : Type :=
| Ok (a : A)
| Raise (e : exn).

Arguments Ok {A} a.
Arguments Raise {A} e.

(** What [subprocess.run(..., capture_output=True, text=True, check=False)]
    returns. *)
Record CompletedProcess : Type := mkCP {
  returncode : Z;
  stdout : string;
  stderr : string
}.

Inductive Level : Type := DEBUG | INFO | WARNING.

(** A log record: a rendered message, or the debug trace of a command (the
    argument vector is kept as a list rather than rendered with [repr]). *)
Inductive LogMsg : Type :=
| Text (s : string)
| CommandTrace (argv : list string) (cp : CompletedProcess).

Inductive Event : Type :=
| EvRun (argv : list string) (cp : CompletedProcess)   (* subprocess.run *)
| EvLog (lvl : Level) (msg : LogMsg)                   (* self.logger.<lvl> *)
| EvSqliteBackup (src dst : string)                    (* Connection.backup *)
| EvTempDir (name : string)                            (* TemporaryDirectory() *)
| EvTempDirCleanup (name : string).                    (* its __exit__ *)

(** The operating system, as far as this module talks to it.  A sqlite
    connection is named by the file it was opened on; a sqlite call that
    fails answers with the message of its [sqlite3.Error]. *)
Class OS (W : Type) : Type := {
  subprocess_run : list string -> W -> CompletedProcess * W;
  which : string -> W -> option string;                  (* shutil.which *)
  utcnow_strftime : W -> string * W;    (* now(utc).strftime("%Y%m%d%H%M%S") *)
  random_choices : string -> nat -> W -> string * W;     (* "".join(random.choices(pop, k=k)) *)
  resolve : Path -> W -> Path;                           (* Path.resolve *)
  resolve_absolute : forall p w, PyPath.is_absolute (resolve p w) = true;
  is_file : Path -> W -> bool;                           (* Path.is_file *)
  mkdtemp : W -> string * W;
  rmtree : string -> W -> W;
  sqlite_connect : string -> W -> option string * W;
  sqlite_backup : string -> string -> W -> option string * W;
  sqlite_commit : string -> W -> option string * W;
  sqlite_rollback : string -> W -> W;
  sqlite_close : string -> W -> W;
  (* the text pathlib gives the ValueError of relative_to; it differs
     between Python versions *)
  not_in_subpath : Path -> Path -> string
}.

(** Whether [subprocess.run] can launch a command: [Some what] is the
    [OSError] it raises instead of returning ([FileNotFoundError],
    [PermissionError], a failed fork). *)
Class Launch (W : Type) : Type := {
  launch_error : list string -> W -> option string
}.

(** The state of a run: the world, the dict objects (so that the registry a
    manager holds is the very object its caller passed in), and the events so
    far, oldest first. *)
Record State (W : Type) : Type := mkState {
  world : W;
  heap : nat -> PyDict.t;
  next_ref : nat;
  events : list Event
}.

Arguments mkState {W}.
Arguments world {W}.
Arguments heap {W}.
Arguments next_ref {W}.
Arguments events {W}.

Definition M (W A : Type) : Type := State W -> result A * State W.

Definition ret {W A} (a : A) : M W A := fun s => (Ok a, s).

Definition raise {W A} (e : exn) : M W A := fun s => (Raise e, s).

Definition bind {W A B} (c : M W A) (k : A -> M W B) : M W B :=
  fun s => match c s with
           | (Ok a, s') => k a s'
           | (Raise e, s') => (Raise e, s')
           end.

(** [try: c finally: h] *)
Definition finally {W A} (c : M W A) (h : M W unit) : M W A :=
  fun s => match c s with
           | (Ok a, s') =>
               match h s' with
               | (Ok _, s'') => (Ok a, s'')
               | (Raise e, s'') => (Raise e, s'')
               end
           | (Raise e, s') =>
               match h s' with
               | (Ok _, s'') => (Raise e, s'')
               | (Raise e', s'') => (Raise e', s'')
               end
           end.

Declare Scope py_scope.
Delimit Scope py_scope with py.

Notation "x <- c ;; k" := (bind c (fun x => k))
  (at level 100, c at next level, right associativity) : py_scope.
Notation "' p <- c ;; k" := (bind c (fun x => let 'p := x in k))
  (at level 100, p pattern, c at next level, right associativity) : py_scope.
Notation "c ;; k" := (bind c (fun _ => k))
  (at level 100, right associativity) : py_scope.

Local Open Scope py_scope.

(** [for x in l: body x] *)
Fixpoint for_each {W A} (l : list A) (body : A -> M W unit) : M W unit :=
  match l with
  | [] => ret tt
  | x :: r => body x ;; for_each r body
  end.

Definition lift_option {W A} (o : option A) (e : exn) : M W A :=
  match o with Some a => ret a | None => raise e end.

(** ** The module *)

(** [split_remote_and_path]: pure, it only parses. *)
Definition split_remote_and_path (dest : string)
  : result (option string * Path) :=
  let split_dest := PyStr.split ":" dest in
  match split_dest with
  | [_] => Ok (None, PyPath.of_string dest)
  | [r; p] => Ok (Some r, PyPath.of_string p)
  | _ => Raise (ValueError "Invalid destination format: <remote>:<path>")
  end.

Record BackupManager : Type := mkManager {
  dest : string;
  keep : Z;
  remote : option string;
  path : Path;
  exes : nat          (* reference to the dict in the heap *)
}.

(** The container being backed up ([disk_objectstore.container.Container]):
    only its four path accessors are used. *)
Record Container : Type := mkContainer {
  get_folder : Path;
  _get_loose_folder : Path;
  _get_pack_folder : Path;
  _get_pack_index_path : Path
}.

Section BackupUtils.

Context {W : Type} {os : OS W} {la : Launch W}.

Abbreviation M := (M W).

(** *** Primitive effects *)

Definition set_world (w : W) (s : State W) : State W :=
  mkState w (heap s) (next_ref s) (events s).

Definition add_event (e : Event) (s : State W) : State W :=
  mkState (world s) (heap s) (next_ref s) (events s ++ [e]).

Definition emit (e : Event) : M unit := fun s => (Ok tt, add_event e s).

(** A call that answers and may change the world. *)
Definition syscall {A} (f : W -> A * W) : M A :=
  fun s => (Ok (fst (f (world s))), set_world (snd (f (world s))) s).

(** A call that only looks at the world. *)
Definition observe {A} (f : W -> A) : M A := fun s => (Ok (f (world s)), s).

(** A call that may raise. *)
Definition syscall_exn (f : W -> option string * W) : M unit :=
  fun s => match fst (f (world s)) with
           | None => (Ok tt, set_world (snd (f (world s))) s)
           | Some msg => (Raise (OtherError msg), set_world (snd (f (world s))) s)
           end.

Definition log (lvl : Level) (msg : LogMsg) : M unit := emit (EvLog lvl msg).

(** [subprocess.run(argv, capture_output=True, text=True, check=False)]:
    with [check=False] the exit status never raises, a command that cannot
    be launched does. *)
Definition run (argv : list string) : M CompletedProcess :=
  failure <- observe (launch_error argv) ;;
  match failure with
  | Some what => raise (OtherError what)
  | None =>
      res <- syscall (subprocess_run argv) ;;
      emit (EvRun argv res) ;;
      ret res
  end.

(** Dict objects. *)
Definition new_dict : M nat :=
  fun s => (Ok (next_ref s),
            mkState (world s)
                    (fun r => if (r =? next_ref s)%nat then [] else heap s r)
                    (S (next_ref s)) (events s)).

Definition deref (r : nat) : M PyDict.t := fun s => (Ok (heap s r), s).

Definition dict_setitem (r : nat) (k v : string) : M unit :=
  fun s => (Ok tt,
            mkState (world s)
                    (fun r' => if (r' =? r)%nat then PyDict.set k v (heap s r)
                               else heap s r')
                    (next_ref s) (events s)).

(** *** Module-level helpers *)

Definition is_exe_found (exe : string) : M bool :=
  observe (fun w => match which exe w with Some _ => true | None => false end).

(** *** BackupManager *)

Definition run_cmd (self : BackupManager) (args : list string)
  : M (bool * string) :=
  let all_args :=
    match remote self with
    | Some r => if PyStr.truthy r then ["ssh"; r] ++ args else args
    | None => args
    end in
  res <- run all_args ;;
  log DEBUG (CommandTrace all_args res) ;;
  let success := (returncode res =? 0)%Z in
  ret (success, stdout res).

Definition check_if_remote_accessible (self : BackupManager) : M unit :=
  let r := match remote self with Some r => r | None => "None" end in
  log INFO (Text ("Checking if '" ++ r ++ "' is accessible...")) ;;
  ' (success, _) <- run_cmd self ["exit"] ;;
  (if negb success
   then raise (BackupError ("Remote '" ++ r ++ "' is not accessible!"))
   else ret tt) ;;
  log INFO (Text ("Success! '" ++ r ++ "' is accessible!")).

Definition check_path_exists (self : BackupManager) (p : Path) : M bool :=
  let cmd := ["["; "-e"; str p; "]"] in
  ' (success, _) <- run_cmd self cmd ;;
  ret success.

Definition __init__ (dest : string) (keep : Z) (exes : option nat)
  : M BackupManager :=
  match split_remote_and_path dest with
  | Raise e => raise e
  | Ok (remote, path) =>
      exes_ref <- match exes with
                  | None => new_dict
                  | Some r => ret r
                  end ;;
      let self := mkManager dest keep remote path exes_ref in
      (* make sure rsync gets added so it gets validated *)
      d <- deref exes_ref ;;
      (if negb (PyDict.mem "rsync" d)
       then dict_setitem exes_ref "rsync" "rsync"
       else ret tt) ;;
      (* Validate the backup config inputs *)
      (if (keep <? 0)%Z
       then raise (ValueError
              "Input validation failed: keep variable can't be negative!")
       else ret tt) ;;
      (if PyStr.opt_truthy remote
       then check_if_remote_accessible self
       else ret tt) ;;
      d <- deref exes_ref ;;
      (if PyDict.truthy d
       then for_each d (fun '(_, p) =>
              found <- is_exe_found p ;;
              if negb found
              then raise (ValueError ("Input validation failed: " ++ p
                                        ++ " not accessible."))
              else ret tt)
       else ret tt) ;;
      exists_ <- check_path_exists self path ;;
      (if negb exists_
       then
         ' (success, _) <- run_cmd self ["mkdir"; str path] ;;
         if negb success
         then raise (ValueError
                ("Input validation failed: Couldn't access/create '"
                   ++ str path ++ "'!"))
         else ret tt
       else ret tt) ;;
      ret self
  end.

Definition call_rsync (self : BackupManager) (src dest : Path)
    (link_dest : option Path)
    (src_trailing_slash dest_trailing_slash : bool)
    (extra_args : option (list string)) : M unit :=
  d <- deref (exes self) ;;
  (if negb (PyDict.mem "rsync" d) then raise AssertionError else ret tt) ;;
  rsync <- lift_option (PyDict.get "rsync" d) (OtherError "KeyError") ;;
  let all_args := [rsync; "-azh"; "-vv"; "--no-whole-file"] in
  let all_args :=
    match extra_args with
    | Some (x :: r) => all_args ++ x :: r
    | _ => all_args
    end in
  all_args <- match link_dest with
              | Some ld =>
                  ld <- (if negb (PyStr.opt_truthy (remote self))
                         (* for local paths, use resolve() to get absolute path *)
                         then observe (resolve ld)
                         else ret ld) ;;
                  ret (all_args ++ [("--link-dest=" ++ str ld)%string])
              | None => ret all_args
              end ;;
  let all_args :=
    if src_trailing_slash
    then all_args ++ [(str src ++ "/")%string]
    else all_args ++ [str src] in
  let dest_str := str dest in
  let dest_str := if dest_trailing_slash then (dest_str ++ "/")%string else dest_str in
  let all_args :=
    match remote self with
    | Some r => if PyStr.truthy r then all_args ++ [(r ++ ":" ++ dest_str)%string]
                else all_args ++ [dest_str]
    | None => all_args ++ [dest_str]
    end in
  res <- run all_args ;;
  log DEBUG (CommandTrace all_args res) ;;
  if negb (returncode res =? 0)%Z
  then raise (BackupError ("rsync failed for: " ++ str src ++ " to "
                             ++ str dest))
  else ret tt.

Definition get_existing_backup_folders (self : BackupManager)
  : M (list string) :=
  ' (success, stdout) <-
    run_cmd self ["find"; str (path self); "-maxdepth"; "1"; "-type"; "d";
                  "-name"; "backup_*_*"; "-print"] ;;
  (if negb success
   then raise (BackupError "Existing backups determination failed.")
   else ret tt) ;;
  ret (PyStr.splitlines stdout).

Definition get_last_backup_folder (self : BackupManager) : M (option Path) :=
  existing_backups <- get_existing_backup_folders self ;;
  if PyList.truthy existing_backups
  then
    last <- lift_option (PyList.index (sorted existing_backups) (-1))
                        (OtherError "IndexError") ;;
    ret (Some (PyPath.of_string last))
  else ret None.

Definition delete_old_backups (self : BackupManager) : M unit :=
  existing <- get_existing_backup_folders self ;;
  let sorted_folders := sorted existing in
  let to_delete := PyList.slice_to sorted_folders (- (keep self + 1)) in
  for_each to_delete (fun folder =>
    ' (success, _) <- run_cmd self ["rm"; "-rf"; folder] ;;
    if success
    then log INFO (Text ("Deleted old backup: " ++ folder))
    else log WARNING (Text ("Warning: couldn't delete old backup: "
                              ++ folder))).

Definition backup_auto_folders (self : BackupManager)
    (backup_func : Path -> option Path -> M unit) : M unit :=
  let live_folder := path self // PyPath.of_string "live-backup" in
  last_folder <- get_last_backup_folder self ;;
  match last_folder with
  | Some lf =>
      log INFO (Text ("Last backup is '" ++ str lf
                        ++ "', using it for rsync --link-dest."))
  | None =>
      log INFO (Text "Couldn't find a previous backup to increment from.")
  end ;;
  backup_func live_folder last_folder ;;
  (* move live-backup -> backup_<timestamp>_<randstr> *)
  timestamp <- syscall utcnow_strftime ;;
  randstr <- syscall (random_choices
                        "abcdefghijklmnopqrstuvwxyz0123456789" 4) ;;
  let folder_name := ("backup_" ++ timestamp ++ "_" ++ randstr)%string in
  let target := path self // PyPath.of_string folder_name in
  ' (success, _) <- run_cmd self ["mv"; str live_folder; str target] ;;
  (if negb success
   then raise (BackupError ("Failed to move '" ++ str live_folder
                              ++ "' to '" ++ str target ++ "'"))
   else ret tt) ;;
  log INFO (Text ("Backup moved from '" ++ str live_folder ++ "' to '"
                    ++ str target ++ "'.")) ;;
  let symlink_name := "last-backup" in
  ' (success, _) <-
    run_cmd self ["ln"; "-sfn"; folder_name;
                  str (path self // PyPath.of_string symlink_name)] ;;
  (if negb success
   then log WARNING (Text ("Couldn't create symlink '" ++ symlink_name
            ++ "'. Perhaps the filesystem doesn't support it."))
   else log INFO (Text ("Added symlink '" ++ symlink_name ++ "' to '"
                          ++ folder_name ++ "'."))) ;;
  delete_old_backups self.

(** *** Backing up a container *)

(** [with conn: body]: commit when the body returns, roll back and re-raise
    when it raises. *)
Definition with_connection {A} (conn : string) (body : M A) : M A :=
  fun s => match body s with
           | (Ok a, s') => (syscall_exn (sqlite_commit conn) ;; ret a) s'
           | (Raise e, s') =>
               (Raise e, set_world (sqlite_rollback conn (world s')) s')
           end.

Definition _sqlite_backup (src dst : Path) : M unit :=
  let src_connect := str src in
  let dst_connect := str dst in
  syscall_exn (sqlite_connect src_connect) ;;
  syscall_exn (sqlite_connect dst_connect) ;;
  with_connection dst_connect
    (emit (EvSqliteBackup src_connect dst_connect) ;;
     syscall_exn (sqlite_backup src_connect dst_connect)) ;;
  syscall (fun w => (tt, sqlite_close dst_connect w)) ;;
  syscall (fun w => (tt, sqlite_close src_connect w)).

(** [with tempfile.TemporaryDirectory() as name: body name] *)
Definition with_temporary_directory {A} (body : string -> M A) : M A :=
  name <- syscall mkdtemp ;;
  emit (EvTempDir name) ;;
  finally (body name)
          (syscall (fun w => (tt, rmtree name w)) ;;
           emit (EvTempDirCleanup name)).

Definition relative_to (p q : Path) : M Path :=
  lift_option (PyPath.relative_to p q) (ValueError (not_in_subpath p q)).

Definition backup_container (manager : BackupManager) (container : Container)
    (path : Path) (prev_backup : option Path) : M unit :=
  let container_root_path := get_folder container in
  let loose_path := _get_loose_folder container in
  let packs_path := _get_pack_folder container in
  let sqlite_path := _get_pack_index_path container in
  (* step 1: back up loose files *)
  loose_path_rel <- relative_to loose_path container_root_path ;;
  let prev_backup_loose :=
    match prev_backup with
    | Some pb => Some (pb // loose_path_rel)
    | None => None
    end in
  call_rsync manager loose_path path prev_backup_loose false false None ;;
  log INFO (Text ("Transferred " ++ str loose_path ++ " to " ++ str path)) ;;
  (* step 2: back up sqlite db *)
  with_temporary_directory (fun temp_dir_name =>
    let sqlite_temp_loc :=
      PyPath.of_string temp_dir_name // PyPath.of_string "packs.idx" in
    _sqlite_backup sqlite_path sqlite_temp_loc ;;
    is_f <- observe (is_file sqlite_temp_loc) ;;
    (if is_f
     then log INFO (Text ("Dumped the SQLite database to "
                            ++ str sqlite_temp_loc))
     else raise (BackupError ("'" ++ str sqlite_temp_loc
                                ++ "' failed to be created."))) ;;
    (* step 3: transfer the SQLITE database file *)
    call_rsync manager sqlite_temp_loc path prev_backup false false None ;;
    log INFO (Text ("Transferred SQLite database to " ++ str path))) ;;
  (* step 4: transfer the packed files *)
  packs_path_rel <- relative_to packs_path container_root_path ;;
  call_rsync manager packs_path path prev_backup false false None ;;
  log INFO (Text ("Transferred " ++ str packs_path ++ " to " ++ str path)) ;;
  (* step 5: transfer anything else in the container folder *)
  call_rsync manager container_root_path path prev_backup true false
    (Some ["--exclude"; str loose_path_rel;
           "--exclude"; "packs.idx";
           "--exclude"; str packs_path_rel]).

End BackupUtils.

(** The system on which every command can be launched. *)
#[export] Instance launches (W : Type) : Launch W :=
  {| launch_error := fun _ _ => None |}.

(** ** A scripted operating system

    A world for running the module on concrete inputs: the commands are
    answered from a script (exit code 0 and no output once the script is
    used up), the executables in [fake_missing] are not on the PATH, and
    relative paths resolve below [/cwd]. *)

Record FakeWorld : Type := mkFake {
  fake_replies : list CompletedProcess;
  fake_missing : list string
}.

Module Fake.

Definition run (argv : list string) (w : FakeWorld)
  : CompletedProcess * FakeWorld :=
  match fake_replies w with
  | [] => (mkCP 0 "" "", w)
  | r :: rest => (r, mkFake rest (fake_missing w))
  end.

Definition which (exe : string) (w : FakeWorld) : option string :=
  if existsb (String.eqb exe) (fake_missing w) then None
  else Some ("/usr/bin/" ++ exe)%string.

Definition resolve (p : Path) (w : FakeWorld) : Path :=
  if PyPath.is_absolute p then p else mkPath "/" ("cwd" :: parts p).

Lemma resolve_absolute p w : PyPath.is_absolute (resolve p w) = true.
Proof.
  unfold resolve. destruct (PyPath.is_absolute p) eqn:E; [exact E | reflexivity].
Qed.

End Fake.

#[export] Instance FakeOS : OS FakeWorld := {|
  subprocess_run := Fake.run;
  which := Fake.which;
  utcnow_strftime := fun w => ("20240229120000", w);
  random_choices := fun pop k w => (String.substring 0 k pop, w);
  resolve := Fake.resolve;
  resolve_absolute := Fake.resolve_absolute;
  is_file := fun _ _ => true;
  mkdtemp := fun w => ("/tmp/tmpab12cd", w);
  rmtree := fun _ w => w;
  sqlite_connect := fun _ w => (None, w);
  sqlite_backup := fun _ _ w => (None, w);
  sqlite_commit := fun _ w => (None, w);
  sqlite_rollback := fun _ w => w;
  sqlite_close := fun _ w => w;
  not_in_subpath := fun p q =>
    ("'" ++ str p ++ "' is not in the subpath of '" ++ str q ++ "'")%string
|}.

(** An operating system where every command and every sqlite call
    succeeds, and where no file is ever found. *)
Module Bare.

Definition resolve (p : Path) (w : unit) : Path :=
  if PyPath.is_absolute p then p else mkPath "/" ("cwd" :: parts p).

Lemma resolve_is_absolute p w : PyPath.is_absolute (resolve p w) = true.
Proof.
  unfold resolve. destruct (PyPath.is_absolute p) eqn:E; [exact E | reflexivity].
Qed.

End Bare.

(** It is passed by hand where it is used: it is no instance. *)
Definition BareOS : OS unit := {|
  subprocess_run := fun _ w => (mkCP 0 "" "", w);
  which := fun exe _ => Some exe;
  utcnow_strftime := fun w => ("20240229120000", w);
  random_choices := fun pop k w => (String.substring 0 k pop, w);
  resolve := Bare.resolve;
  resolve_absolute := Bare.resolve_is_absolute;
  is_file := fun _ _ => false;
  mkdtemp := fun w => ("/tmp/tmpab12cd", w);
  rmtree := fun _ w => w;
  sqlite_connect := fun _ w => (None, w);
  sqlite_backup := fun _ _ w => (None, w);
  sqlite_commit := fun _ w => (None, w);
  sqlite_rollback := fun _ w => w;
  sqlite_close := fun _ w => w;
  not_in_subpath := fun p q =>
    ("'" ++ str p ++ "' is not in the subpath of '" ++ str q ++ "'")%string
|}.

(** An operating system whose world is the journal of the calls made to
    it, oldest first; every command and every sqlite call succeeds.  It is
    no instance either. *)
Definition journal (entry : string) (w : list string) : list string :=
  w ++ [entry].

Definition JournalOS : OS (list string) := {|
  subprocess_run := fun argv w =>
    (mkCP 0 "" "", journal (String.concat " " argv) w);
  which := fun exe _ => Some exe;
  utcnow_strftime := fun w => ("20240229120000", w);
  random_choices := fun pop k w => (String.substring 0 k pop, w);
  resolve := fun p _ => Bare.resolve p tt;
  resolve_absolute := fun p _ => Bare.resolve_is_absolute p tt;
  is_file := fun _ _ => true;
  mkdtemp := fun w => ("/tmp/tmpab12cd", journal "mkdtemp" w);
  rmtree := fun name w => journal ("rmtree " ++ name) w;
  sqlite_connect := fun file w => (None, journal ("connect " ++ file) w);
  sqlite_backup := fun src dst w =>
    (None, journal ("backup " ++ src ++ " " ++ dst) w);
  sqlite_commit := fun file w => (None, journal ("commit " ++ file) w);
  sqlite_rollback := fun file w => journal ("rollback " ++ file) w;
  sqlite_close := fun file w => journal ("close " ++ file) w;
  not_in_subpath := fun p q =>
    ("'" ++ str p ++ "' is not in the subpath of '" ++ str q ++ "'")%string
|}.

(** A system on which [ln] cannot be launched: there is no such
    executable. *)
Definition ln_missing : Launch FakeWorld :=
  {| launch_error := fun argv _ =>
       match argv with
       | "ln" :: _ => Some "FileNotFoundError: 'ln'"
       | _ => None
       end |}.

(** The state a run starts from: no dict allocated, nothing logged. *)
Definition initial_state {W} (w : W) : State W :=
  mkState w (fun _ => []) 0 [].

(** The argument vectors of the commands run, in order. *)
Definition commands (evs : list Event) : list (list string) :=
  flat_map (fun e => match e with EvRun argv _ => [argv] | _ => [] end) evs.
(** ** The vocabulary of the statements

    The definitions the lemmas and theorems below are stated with: the
    command lines the manager runs, the states between the phases of a
    cycle, what a valid construction needs, the invariant on the registry
    and the steps of a container backup. *)

Definition invalid_destination : exn :=
  ValueError "Invalid destination format: <remote>:<path>".

Definition str_le (a b : string) : Prop := String.leb a b = true.

Definition five_folders : list string :=
  ["backup_00000000000001_aa"; "backup_00000000000002_bb";
   "backup_00000000000003_cc"; "backup_00000000000004_dd";
   "backup_00000000000005_ee"].

(** The steps that move data: a transfer (one run of rsync, with its command
    line) and the snapshot of the sqlite index. *)
Inductive Step : Type :=
| Transfer (argv : list string)
| Snapshot (src dst : string).

Definition steps (evs : list Event) : list Step :=
  flat_map (fun e => match e with
                     | EvRun argv _ => [Transfer argv]
                     | EvSqliteBackup src dst => [Snapshot src dst]
                     | _ => []
                     end) evs.

(** What a run has done outside the process, in order: its events other
    than the log records. *)
Definition actions (evs : list Event) : list Event :=
  filter (fun e => match e with EvLog _ _ => false | _ => true end) evs.

(** A name that [splitlines] keeps whole: it has no line boundary in it. *)
Fixpoint one_line (s : string) : bool :=
  match s with
  | EmptyString => true
  | String c r => andb (negb (PyStr.is_line_boundary c)) (one_line r)
  end.

(** The name of a backup folder below [dir]: [backup_<timestamp>_<random>]. *)
Definition folder_name (dir ts rand : string) : string :=
  dir ++ "backup_" ++ ts ++ "_" ++ rand.

(** The life of temporary directories, as the events show it. *)
Inductive TempDirEvent : Type :=
| Created (name : string)
| Removed (name : string).

Definition tempdir_events (evs : list Event) : list TempDirEvent :=
  flat_map (fun e => match e with
                     | EvTempDir name => [Created name]
                     | EvTempDirCleanup name => [Removed name]
                     | _ => []
                     end) evs.

(** A computation that neither creates nor removes a temporary directory. *)
Definition tidy {W A} (c : M W A) : Prop :=
  forall s r s', c s = (r, s') ->
                 tempdir_events (events s') = tempdir_events (events s).

Section Vocabulary.

Context {W : Type} {os : OS W}.

(** The command line [run_cmd] executes for [args]: through ssh when a
    (non-empty) remote host is set. *)
Definition remote_argv (remote : option string) (args : list string)
  : list string :=
  match remote with
  | Some r => if PyStr.truthy r then ["ssh"; r] ++ args else args
  | None => args
  end.

Definition cmd_argv (self : BackupManager) (args : list string)
  : list string :=
  remote_argv (remote self) args.

Definition cmd_reply (self : BackupManager) (args : list string)
    (s : State W) : CompletedProcess :=
  fst (subprocess_run (cmd_argv self args) (world s)).

Definition after_cmd (self : BackupManager) (args : list string)
    (s : State W) : State W :=
  mkState (snd (subprocess_run (cmd_argv self args) (world s)))
          (heap s) (next_ref s)
          (events s ++ [EvRun (cmd_argv self args) (cmd_reply self args s);
                        EvLog DEBUG (CommandTrace (cmd_argv self args)
                                       (cmd_reply self args s))]).

Definition find_args (self : BackupManager) : list string :=
  ["find"; str (path self); "-maxdepth"; "1"; "-type"; "d";
   "-name"; "backup_*_*"; "-print"].

(** The body of the loop of [delete_old_backups]. *)
Definition delete_step (self : BackupManager) (folder : string)
  : M W unit :=
  ' (success, _) <- run_cmd self ["rm"; "-rf"; folder] ;;
  if success
  then log INFO (Text ("Deleted old backup: " ++ folder))
  else log WARNING (Text ("Warning: couldn't delete old backup: "
                            ++ folder)).

Definition live_folder (self : BackupManager) : Path :=
  path self // PyPath.of_string "live-backup".

(** The state once the previous backup has been announced in the log. *)
Definition announced (last_folder : option Path) (s : State W) : State W :=
  add_event
    (EvLog INFO
       (Text match last_folder with
             | Some lf => "Last backup is '" ++ str lf
                            ++ "', using it for rsync --link-dest."
             | None => "Couldn't find a previous backup to increment from."
             end)) s.

Definition alphabet : string := "abcdefghijklmnopqrstuvwxyz0123456789".

(** The name drawn for the new folder in world [w], and the state once the
    clock and the random generator have been asked. *)
Definition new_folder_name (w : W) : string :=
  "backup_" ++ fst (utcnow_strftime w) ++ "_"
    ++ fst (random_choices alphabet 4 (snd (utcnow_strftime w))).

Definition named (s : State W) : State W :=
  set_world (snd (random_choices alphabet 4
                    (snd (utcnow_strftime (world s))))) s.

Definition mv_args (self : BackupManager) (folder_name : string)
  : list string :=
  ["mv"; str (live_folder self);
   str (path self // PyPath.of_string folder_name)].

Definition ln_args (self : BackupManager) (folder_name : string)
  : list string :=
  ["ln"; "-sfn"; folder_name;
   str (path self // PyPath.of_string "last-backup")].

(** The state after a successful move, with its log line. *)
Definition promoted (self : BackupManager) (s : State W) : State W :=
  let fn := new_folder_name (world s) in
  add_event
    (EvLog INFO
       (Text ("Backup moved from '" ++ str (live_folder self) ++ "' to '"
                ++ str (path self // PyPath.of_string fn) ++ "'.")))
    (after_cmd self (mv_args self fn) (named s)).

(** The registry the constructor validates: the dict it was given, or a
    new one, with rsync added when it is not there. *)
Definition registry (exes : option nat) (s : State W) : PyDict.t :=
  let d := match exes with Some r => heap s r | None => [] end in
  if PyDict.mem "rsync" d then d else PyDict.set "rsync" "rsync" d.

Definition registry_ref (exes : option nat) (s : State W) : nat :=
  match exes with Some r => r | None => next_ref s end.

(** The world once the remote host, if there is one, has been tried. *)
Definition world_after_remote_check (remote : option string) (w : W) : W :=
  if PyStr.opt_truthy remote
  then snd (subprocess_run (remote_argv remote ["exit"]) w)
  else w.

(** A reachable destination: the remote host, if any, runs [exit], and
    the path exists or can be created. *)
Definition reachable (remote : option string) (path : Path) (w : W) : Prop :=
  (PyStr.opt_truthy remote = true ->
   returncode (fst (subprocess_run (remote_argv remote ["exit"]) w)) = 0%Z)
  /\ let w1 := world_after_remote_check remote w in
     let test := remote_argv remote ["["; "-e"; str path; "]"] in
     (returncode (fst (subprocess_run test w1)) = 0%Z
      \/ returncode
           (fst (subprocess_run (remote_argv remote ["mkdir"; str path])
                   (snd (subprocess_run test w1)))) = 0%Z).

Definition executables_found (d : PyDict.t) (w : W) : Prop :=
  forall k p, In (k, p) d -> which p w <> None.

(** The loop over the registry in [__init__]. *)
Definition check_exe (item : string * string) : M W unit :=
  let '(_, p) := item in
  found <- is_exe_found p ;;
  if negb found
  then raise (ValueError ("Input validation failed: " ++ p
                            ++ " not accessible."))
  else ret tt.

(** What is left of [__init__] once the registry is in place. *)
Definition validate (self : BackupManager) : M W BackupManager :=
  (if (keep self <? 0)%Z
   then raise (ValueError
          "Input validation failed: keep variable can't be negative!")
   else ret tt) ;;
  (if PyStr.opt_truthy (remote self)
   then check_if_remote_accessible self
   else ret tt) ;;
  d <- deref (exes self) ;;
  (if PyDict.truthy d then for_each d check_exe else ret tt) ;;
  exists_ <- check_path_exists self (path self) ;;
  (if negb exists_
   then
     ' (success, _) <- run_cmd self ["mkdir"; str (path self)] ;;
     if negb success
     then raise (ValueError
            ("Input validation failed: Couldn't access/create '"
               ++ str (path self) ++ "'!"))
     else ret tt
   else ret tt) ;;
  ret self.

Definition has_rsync (self : BackupManager) (s : State W) : Prop :=
  PyDict.mem "rsync" (heap s (exes self)) = true.

(** A computation that never fails an assertion and leaves the dicts
    alone, from any state; and one that does so from the states in which
    the registry of [self] names rsync. *)
Definition quiet {A} (c : M W A) : Prop :=
  forall s, fst (c s) <> Raise AssertionError /\ heap (snd (c s)) = heap s.

Definition safe {A} (self : BackupManager) (c : M W A) : Prop :=
  forall s, has_rsync self s ->
            fst (c s) <> Raise AssertionError
            /\ heap (snd (c s)) = heap s.

(** The link reference as it goes on the command line: resolved in the
    world [w] when the manager has no remote host, as given otherwise. *)
Definition link_reference (self : BackupManager) (link_dest : option Path)
    (w : W) : option Path :=
  match link_dest with
  | Some ld => Some (if PyStr.opt_truthy (remote self) then ld
                     else resolve ld w)
  | None => None
  end.

(** The target of a transfer: [host:path] for a remote destination. *)
Definition rsync_target (self : BackupManager) (dest_str : string)
  : string :=
  match remote self with
  | Some r => if PyStr.truthy r then r ++ ":" ++ dest_str else dest_str
  | None => dest_str
  end.

(** The command line of a transfer, given the rsync executable and the
    link reference that goes on it. *)
Definition rsync_argv (self : BackupManager) (rsync : string)
    (src dest : Path) (link : option Path)
    (src_trailing_slash dest_trailing_slash : bool)
    (extra_args : option (list string)) : list string :=
  [rsync; "-azh"; "-vv"; "--no-whole-file"]
    ++ match extra_args with Some l => l | None => [] end
    ++ match link with
       | Some l => [("--link-dest=" ++ str l)%string]
       | None => []
       end
    ++ [if src_trailing_slash then (str src ++ "/")%string else str src]
    ++ [rsync_target self
          (if dest_trailing_slash then (str dest ++ "/")%string
           else str dest)].

(** The state after [n] backup cycles of a container, whatever their
    outcomes. *)
Fixpoint after_cycles (self : BackupManager) (c : Container) (n : nat)
    (s : State W) : State W :=
  match n with
  | 0 => s
  | S n' =>
      after_cycles self c n'
        (snd (backup_auto_folders self (backup_container self c) s))
  end.

(** A computation that adds no step and leaves the dicts alone. *)
Definition stepless {A} (c : M W A) : Prop :=
  forall s r s', c s = (r, s') ->
                 steps (events s') = steps (events s) /\ heap s' = heap s.

(** The state in which the executables are checked: after the check of the
    remote host, when there is one. *)
Definition remote_checked (self : BackupManager) (s : State W) : State W :=
  if PyStr.opt_truthy (remote self)
  then
    let r := match remote self with Some r => r | None => "None" end in
    let s1 := add_event
                (EvLog INFO (Text ("Checking if '" ++ r
                                     ++ "' is accessible..."))) s in
    add_event (EvLog INFO (Text ("Success! '" ++ r ++ "' is accessible!")))
              (after_cmd self ["exit"] s1)
  else s.

(** The state once the temporary directory of a [with] block is there. *)
Definition tempdir_opened (s : State W) : State W :=
  add_event (EvTempDir (fst (mkdtemp (world s))))
            (set_world (snd (mkdtemp (world s))) s).

End Vocabulary.

Section StepsOfABackup.

Context {W : Type} {os : OS W}.

Variables (self : BackupManager) (rsync : string) (c : Container)
          (path : Path) (prev : option Path).

(** A transfer of [src] into [path] with link reference [ld] (resolved in
    the world of the moment when the manager is local), the contents of
    [src] rather than [src] itself when [contents] is set, and the extra
    arguments [extra]. *)
Definition transfer_of (src : Path) (ld : option Path) (contents : bool)
    (extra : option (list string)) (st : Step) : Prop :=
  exists w, st = Transfer (rsync_argv self rsync src path
                             (link_reference self ld w)
                             contents false extra).

(** The file the index is dumped to, in the temporary directory [tmp]. *)
Definition temp_index (tmp : string) : Path :=
  PyPath.of_string tmp // PyPath.of_string "packs.idx".

(** The world after the sqlite calls of a dump of [src] into [dst] that
    all succeed, in the order they are made: the two connections are
    opened, the backup is made and committed, the two connections are
    closed, the destination first. *)
Definition dumped (src dst : string) (w : W) : W :=
  let w1 := snd (sqlite_connect src w) in
  let w2 := snd (sqlite_connect dst w1) in
  let w3 := snd (sqlite_backup src dst w2) in
  let w4 := snd (sqlite_commit dst w3) in
  sqlite_close src (sqlite_close dst w4).

(** The calls of a container backup that returns, from the world [w0], with
    [lrel] and [prel] the loose and the pack folder relative to the root:
    its events other than log records, and the world it leaves.  Each call
    is made in the world the one before has left. *)
Definition calls_of_a_backup (lrel prel : Path) (w0 : W)
  : list Event * W :=
  let idx := str (_get_pack_index_path c) in
  let a1 := rsync_argv self rsync (_get_loose_folder c) path
              (link_reference self (option_map (fun pb => pb // lrel) prev)
                 w0)
              false false None in
  let w1 := snd (subprocess_run a1 w0) in
  let tmp := fst (mkdtemp w1) in
  let w2 := dumped idx (str (temp_index tmp)) (snd (mkdtemp w1)) in
  let a3 := rsync_argv self rsync (temp_index tmp) path
              (link_reference self prev w2) false false None in
  let w3 := rmtree tmp (snd (subprocess_run a3 w2)) in
  let a4 := rsync_argv self rsync (_get_pack_folder c) path
              (link_reference self prev w3) false false None in
  let w4 := snd (subprocess_run a4 w3) in
  let a5 := rsync_argv self rsync (get_folder c) path
              (link_reference self prev w4) true false
              (Some ["--exclude"; str lrel; "--exclude"; "packs.idx";
                     "--exclude"; str prel]) in
  ([EvRun a1 (fst (subprocess_run a1 w0));
    EvTempDir tmp;
    EvSqliteBackup idx (str (temp_index tmp));
    EvRun a3 (fst (subprocess_run a3 w2));
    EvTempDirCleanup tmp;
    EvRun a4 (fst (subprocess_run a4 w3));
    EvRun a5 (fst (subprocess_run a5 w4))],
   snd (subprocess_run a5 w4)).

(** What the [i]-th step of a container backup has to be. *)
Definition step_ok (tmp : string) (i : nat) (st : Step) : Prop :=
  match i with
  | 0 =>
      exists lrel,
        PyPath.relative_to (_get_loose_folder c) (get_folder c) = Some lrel
        /\ transfer_of (_get_loose_folder c)
             (option_map (fun pb => pb // lrel) prev) false None st
  | 1 => st = Snapshot (str (_get_pack_index_path c)) (str (temp_index tmp))
  | 2 => transfer_of (temp_index tmp) prev false None st
  | 3 => transfer_of (_get_pack_folder c) prev false None st
  | 4 =>
      exists lrel prel,
        PyPath.relative_to (_get_loose_folder c) (get_folder c) = Some lrel
        /\ PyPath.relative_to (_get_pack_folder c) (get_folder c)
           = Some prel
        /\ transfer_of (get_folder c) prev true
             (Some ["--exclude"; str lrel; "--exclude"; "packs.idx";
                    "--exclude"; str prel]) st
  | _ => False
  end.

(** The body of the [with] block of [backup_container]. *)
Definition dump_and_transfer_index (temp_dir_name : string) : M W unit :=
  let sqlite_temp_loc :=
    PyPath.of_string temp_dir_name // PyPath.of_string "packs.idx" in
  _sqlite_backup (_get_pack_index_path c) sqlite_temp_loc ;;
  is_f <- observe (is_file sqlite_temp_loc) ;;
  (if is_f
   then log INFO (Text ("Dumped the SQLite database to "
                          ++ str sqlite_temp_loc))
   else raise (BackupError ("'" ++ str sqlite_temp_loc
                              ++ "' failed to be created."))) ;;
  call_rsync self sqlite_temp_loc path prev false false None ;;
  log INFO (Text ("Transferred SQLite database to " ++ str path)).

End StepsOfABackup.

(** ** Concrete inputs, for the scripted operating system *)

(** A local manager on [/srv/backups], and the output of [find] for a list
    of folders (one per line). *)
Definition local_manager (k : Z) : BackupManager :=
  mkManager "/srv/backups" k None (mkPath "/" ["srv"; "backups"]) 0.

Definition listing (l : list string) : string :=
  String.concat "" (map (fun f => f ++ String PyStr.LF "")%string l).

Definition five_shuffled : list string :=
  ["backup_00000000000004_dd"; "backup_00000000000001_aa";
   "backup_00000000000005_ee"; "backup_00000000000003_cc";
   "backup_00000000000002_bb"].

Definition world_with_five : FakeWorld :=
  mkFake [mkCP 0 (listing five_shuffled) ""] [].

(** A state in which the registry of [local_manager] (dict 0) holds rsync,
    and a container laid out the usual way. *)
Definition fake_state (w : FakeWorld) : State FakeWorld :=
  mkState w (fun r => if (r =? 0)%nat then [("rsync", "rsync")] else []) 1 [].

Definition a_container : Container :=
  mkContainer (PyPath.of_string "/data/container")
              (PyPath.of_string "/data/container/loose")
              (PyPath.of_string "/data/container/packs")
              (PyPath.of_string "/data/container/packs.idx").

Definition exit_ok : CompletedProcess := mkCP 0 "" "".

Definition exit_failed : CompletedProcess := mkCP 1 "" "error".

(** [find] succeeds and finds nothing, then the first rsync fails. *)
Definition world_rsync_fails : FakeWorld := mkFake [exit_ok; exit_failed] [].


(** The producer succeeds (five commands after [find]), then [mv] fails. *)
Definition world_mv_fails : FakeWorld :=
  mkFake [exit_ok; exit_ok; exit_ok; exit_ok; exit_ok; exit_failed] [].

(** A container whose pack folder lies outside its root. *)
Definition a_split_container : Container :=
  mkContainer (PyPath.of_string "/data/container")
              (PyPath.of_string "/data/container/loose")
              (PyPath.of_string "/mnt/packs")
              (PyPath.of_string "/data/container/packs.idx").

Example split_two : PyStr.split ":" "host:/srv/b" = ["host"; "/srv/b"].
Proof. reflexivity. Qed.

Example splitlines_ex :
  PyStr.splitlines (String "a" (String PyStr.LF (String PyStr.CR
     (String PyStr.LF (String "b" (String PyStr.LF EmptyString))))))
  = ["a"; ""; "b"].
Proof. reflexivity. Qed.

Example path_norm : str (PyPath.of_string "/a//b/./c/") = "/a/b/c".
Proof. reflexivity. Qed.

Example path_dot : str (PyPath.of_string "") = ".".
Proof. reflexivity. Qed.

Example sorted_ex : sorted ["b"; "a"; "ab"] = ["a"; "ab"; "b"].
Proof. reflexivity. Qed.

Example slice_ex : PyList.slice_to [1; 2; 3; 4; 5]%nat (-2) = [1; 2; 3]%nat.
Proof. reflexivity. Qed.

Example init_local_run :
  let r := __init__ "/srv/backups" 1 None (initial_state (mkFake [] [])) in
  fst r = Ok (mkManager "/srv/backups" 1 None (mkPath "/" ["srv"; "backups"]) 0)
  /\ commands (events (snd r)) = [["["; "-e"; "/srv/backups"; "]"]]
  /\ heap (snd r) 0 = [("rsync", "rsync")].
Proof. repeat split. Qed.

Example init_remote_run :
  let r := __init__ "host:backups" 0 None
             (initial_state (mkFake [mkCP 0 "" ""; mkCP 1 "" ""] [])) in
  commands (events (snd r))
  = [["ssh"; "host"; "exit"]; ["ssh"; "host"; "["; "-e"; "backups"; "]"];
     ["ssh"; "host"; "mkdir"; "backups"]].
Proof. reflexivity. Qed.

(** ** Parsing the destination *)

Section Split.

Variable sep : ascii.

Lemma split_nonempty s : PyStr.split sep s <> [].
Proof.
  destruct s as [|c r]; simpl; [discriminate|].
  destruct (Ascii.eqb c sep); [discriminate|].
  destruct (PyStr.split sep r); discriminate.
Qed.

Lemma split_length s :
  length (PyStr.split sep s) = S (PyStr.count sep s).
Proof.
  induction s as [|c r IH]; simpl; [reflexivity|].
  destruct (Ascii.eqb c sep); simpl.
  - now rewrite IH.
  - destruct (PyStr.split sep r) eqn:E; simpl in *; [discriminate | exact IH].
Qed.

Lemma split_no_sep s : PyStr.count sep s = 0 -> PyStr.split sep s = [s].
Proof.
  induction s as [|c r IH]; simpl; [reflexivity|].
  destruct (Ascii.eqb c sep); simpl; [discriminate|].
  intros H. now rewrite (IH H).
Qed.

Lemma split_app h t :
  PyStr.count sep h = 0 ->
  PyStr.split sep (h ++ String sep t) = h :: PyStr.split sep t.
Proof.
  induction h as [|c r IH]; simpl.
  - now rewrite Ascii.eqb_refl.
  - destruct (Ascii.eqb c sep); simpl; [discriminate|].
    intros H. now rewrite (IH H).
Qed.

(** The pieces contain no separator. *)
Lemma split_pieces s :
  Forall (fun x => PyStr.count sep x = 0) (PyStr.split sep s).
Proof.
  induction s as [|c r IH]; simpl.
  - constructor; [reflexivity | constructor].
  - destruct (Ascii.eqb c sep) eqn:E.
    + constructor; [reflexivity | exact IH].
    + destruct (PyStr.split sep r) as [|h t]; simpl.
      * constructor; [simpl; now rewrite E | constructor].
      * inversion IH; subst. constructor; [simpl; now rewrite E | assumption].
Qed.

Lemma split_two_inv s h t :
  PyStr.split sep s = [h; t] -> s = (h ++ String sep t)%string.
Proof.
  revert h t. induction s as [|c r IH]; simpl; intros h t H; [discriminate|].
  destruct (Ascii.eqb c sep) eqn:E.
  - apply Ascii.eqb_eq in E. subst c.
    injection H as <- Hr.
    pose proof (split_length r) as L. rewrite Hr in L. simpl in L.
    assert (C : PyStr.count sep r = 0) by lia.
    rewrite (split_no_sep r C) in Hr. now injection Hr as ->.
  - destruct (PyStr.split sep r) as [|h' t'] eqn:Er; [discriminate|].
    injection H as <- ->. simpl. f_equal. now apply IH.
Qed.

End Split.

Lemma count_app c a b :
  PyStr.count c (a ++ b) = PyStr.count c a + PyStr.count c b.
Proof.
  induction a as [|d r IH]; simpl; [reflexivity|]. rewrite IH. lia.
Qed.

(** C4. A destination without a colon parses to no host and the whole string
    as path; one with exactly one colon parses to the part before it as host
    and the part after it as path; one with two or more colons raises the
    [ValueError] for an invalid destination. *)
Theorem split_remote_and_path_cases :
  (forall d, PyStr.count ":" d = 0 ->
     split_remote_and_path d = Ok (None, PyPath.of_string d)) /\
  (forall d, PyStr.count ":" d = 1 ->
     exists h t, d = (h ++ ":" ++ t)%string
       /\ PyStr.count ":" h = 0 /\ PyStr.count ":" t = 0
       /\ split_remote_and_path d = Ok (Some h, PyPath.of_string t)) /\
  (forall d, 2 <= PyStr.count ":" d ->
     split_remote_and_path d = Raise invalid_destination).
Proof.
  repeat split.
  - intros d H. unfold split_remote_and_path. now rewrite split_no_sep.
  - intros d H. unfold split_remote_and_path.
    pose proof (split_length ":" d) as L. rewrite H in L.
    pose proof (split_pieces ":" d) as P.
    destruct (PyStr.split ":" d) as [|h [|t [|x r]]] eqn:E; try discriminate.
    exists h, t. apply split_two_inv in E.
    inversion P as [|? ? Hh P']; subst. inversion P' as [|? ? Ht _]; subst.
    now repeat split.
  - intros d H. unfold split_remote_and_path.
    pose proof (split_length ":" d) as L.
    destruct (PyStr.split ":" d) as [|h [|t [|x r]]]; simpl in L;
      try reflexivity; lia.
Qed.

Lemma split_remote_and_path_cases_witness :
  split_remote_and_path "/srv/backups"
    = Ok (None, PyPath.of_string "/srv/backups")
  /\ (exists h t, "host:/srv/backups" = (h ++ ":" ++ t)%string
        /\ PyStr.count ":" h = 0 /\ PyStr.count ":" t = 0
        /\ split_remote_and_path "host:/srv/backups"
           = Ok (Some h, PyPath.of_string t))
  /\ split_remote_and_path "a:b:c" = Raise invalid_destination.
Proof.
  destruct split_remote_and_path_cases as (H0 & H1 & H2).
  split; [| split].
  - apply H0. reflexivity.
  - apply H1. reflexivity.
  - apply H2. simpl. lia.
Defined.

(** C5, as the code has it: a colon at the start of the destination gives a
    host that is present and empty. *)
Lemma split_remote_and_path_empty_host :
  ~ (forall d r p, split_remote_and_path d = Ok (r, p) ->
       r = None \/ exists h, r = Some h /\ h <> ""%string).
Proof.
  intros H.
  destruct (H ":backups" (Some ""%string) (PyPath.of_string "backups")
              eq_refl) as [E | (h & E & N)].
  - discriminate E.
  - injection E as <-. now apply N.
Qed.

(** C5, amended. Whenever the parser accepts a destination, the host is
    absent, or it is the colon-free text before the single colon, which is
    empty exactly when the destination starts with the colon; the path is
    present in both cases (it is the parsed text after the colon, or the
    whole destination). *)
Theorem split_remote_and_path_accepted d r p :
  split_remote_and_path d = Ok (r, p) ->
  (r = None /\ p = PyPath.of_string d /\ PyStr.count ":" d = 0) \/
  (exists h t, r = Some h /\ p = PyPath.of_string t
     /\ d = (h ++ ":" ++ t)%string
     /\ PyStr.count ":" h = 0 /\ PyStr.count ":" t = 0
     /\ (h = ""%string <-> exists t', d = String ":" t')).
Proof.
  unfold split_remote_and_path. intros H.
  pose proof (split_length ":" d) as L.
  pose proof (split_pieces ":" d) as P.
  destruct (PyStr.split ":" d) as [|h [|t [|x l]]] eqn:E; try discriminate.
  - injection H as <- <-. left. simpl in L. repeat split; lia.
  - injection H as <- <-. right. exists h, t.
    apply split_two_inv in E.
    inversion P as [|? ? Hh P']; subst. inversion P' as [|? ? Ht _]; subst.
    repeat split; try assumption.
    + intros ->. now exists t.
    + intros (t' & Ht'). destruct h as [|c h']; [reflexivity|].
      simpl in Ht'. injection Ht' as -> _. simpl in Hh. discriminate.
Qed.

Lemma split_remote_and_path_accepted_witness :
  (Some "host"%string = None
     /\ PyPath.of_string "/srv/b" = PyPath.of_string "host:/srv/b"
     /\ PyStr.count ":" "host:/srv/b" = 0) \/
  (exists h t, Some "host"%string = Some h
     /\ PyPath.of_string "/srv/b" = PyPath.of_string t
     /\ "host:/srv/b"%string = (h ++ ":" ++ t)%string
     /\ PyStr.count ":" h = 0 /\ PyStr.count ":" t = 0
     /\ (h = ""%string <-> exists t', "host:/srv/b"%string = String ":" t')).
Proof.
  apply (split_remote_and_path_accepted "host:/srv/b" (Some "host"%string)
           (PyPath.of_string "/srv/b")).
  reflexivity.
Defined.

(** ** Sorting folder names *)

Lemma compare_le_trans s1 s2 s3 :
  String.compare s1 s2 <> Gt -> String.compare s2 s3 <> Gt ->
  String.compare s1 s3 <> Gt.
Proof.
  revert s2 s3.
  induction s1 as [|a s1 IH]; intros [|b s2] [|c s3]; simpl; try congruence.
  unfold Ascii.compare.
  destruct (N.compare_spec (N_of_ascii a) (N_of_ascii b)) as [E1|L1|G1];
    destruct (N.compare_spec (N_of_ascii b) (N_of_ascii c)) as [E2|L2|G2];
    destruct (N.compare_spec (N_of_ascii a) (N_of_ascii c)) as [E3|L3|G3];
    try congruence; try lia.
  apply IH.
Qed.

Lemma str_le_trans a b c : str_le a b -> str_le b c -> str_le a c.
Proof.
  unfold str_le, String.leb. intros H1 H2.
  pose proof (compare_le_trans a b c) as T.
  destruct (String.compare a b); destruct (String.compare b c);
    destruct (String.compare a c); try reflexivity; try discriminate;
    exfalso; apply T; congruence.
Qed.

Lemma str_le_refl a : str_le a a.
Proof. destruct (String.leb_total a a); assumption. Qed.

Lemma str_le_antisym a b : str_le a b -> str_le b a -> a = b.
Proof. apply String.leb_antisym. Qed.

Lemma compare_common_prefix p a b :
  String.compare (p ++ a) (p ++ b) = String.compare a b.
Proof.
  induction p as [|c p IH]; simpl; [reflexivity|].
  unfold Ascii.compare. now rewrite N.compare_refl.
Qed.

Lemma str_le_common_prefix p a b : str_le (p ++ a) (p ++ b) <-> str_le a b.
Proof. unfold str_le, String.leb. now rewrite compare_common_prefix. Qed.

Section SortedLists.

Implicit Types l : list string.

Lemma sorted_perm l : Permutation l (sorted l).
Proof. apply StringSort.Permuted_sort. Qed.

Lemma sorted_strongly l : StronglySorted str_le (sorted l).
Proof.
  apply StringSort.StronglySorted_sort.
  intros a b c. apply str_le_trans.
Qed.

Lemma sorted_length l : length (sorted l) = length l.
Proof. symmetry. apply Permutation_length, sorted_perm. Qed.

Lemma sorted_in l x : In x (sorted l) <-> In x l.
Proof.
  split; apply Permutation_in;
    [apply Permutation_sym |]; apply sorted_perm.
Qed.

(** A list has one sorted arrangement only. *)
Lemma strongly_sorted_unique l1 :
  forall l2, StronglySorted str_le l1 -> StronglySorted str_le l2 ->
             Permutation l1 l2 -> l1 = l2.
Proof.
  induction l1 as [|a l1 IH]; intros l2 S1 S2 P.
  - now apply Permutation_nil in P.
  - destruct l2 as [|b l2];
      [apply Permutation_sym, Permutation_nil in P; discriminate|].
    apply StronglySorted_inv in S1 as [S1 F1].
    apply StronglySorted_inv in S2 as [S2 F2].
    rewrite Forall_forall in F1, F2.
    assert (a = b) as <-.
    { assert (Ia : In a (b :: l2))
        by (eapply Permutation_in; [exact P | now left]).
      assert (Ib : In b (a :: l1))
        by (eapply Permutation_in;
            [apply Permutation_sym; exact P | now left]).
      destruct Ia as [-> | Ia]; [reflexivity|].
      destruct Ib as [-> | Ib]; [reflexivity|].
      apply str_le_antisym; auto. }
    f_equal. apply IH; auto. now apply Permutation_cons_inv in P.
Qed.

Lemma sorted_of_perm l1 l2 : Permutation l1 l2 -> sorted l1 = sorted l2.
Proof.
  intros P. apply strongly_sorted_unique; try apply sorted_strongly.
  eapply Permutation_trans; [apply Permutation_sym, sorted_perm|].
  eapply Permutation_trans; [exact P | apply sorted_perm].
Qed.

Lemma sorted_map_prefix p l :
  sorted (map (String.append p) l) = map (String.append p) (sorted l).
Proof.
  apply strongly_sorted_unique.
  - apply sorted_strongly.
  - pose proof (sorted_strongly l) as S.
    induction S as [|a r S IH F]; simpl; constructor; auto.
    rewrite Forall_forall in *. intros x Hx.
    apply in_map_iff in Hx as (y & <- & Hy).
    apply str_le_common_prefix. auto.
  - eapply Permutation_trans; [apply Permutation_sym, sorted_perm|].
    apply Permutation_map, sorted_perm.
Qed.

(** The last element of a sorted list bounds all of them. *)
Lemma strongly_sorted_last l d :
  StronglySorted str_le l -> forall x, In x l -> str_le x (last l d).
Proof.
  induction 1 as [|a r S IH F]; intros x Hx; [destruct Hx|].
  rewrite Forall_forall in F.
  destruct r as [|b r'].
  - destruct Hx as [<- | []]. apply str_le_refl.
  - change (last (a :: b :: r') d) with (last (b :: r') d).
    destruct Hx as [<- | Hx]; [| now apply IH].
    apply str_le_trans with b; [apply F; now left | apply IH; now left].
Qed.

End SortedLists.

Lemma index_last {A} (l : list A) (d : A) :
  l <> [] -> PyList.index l (-1) = Some (last l d).
Proof.
  intros N. unfold PyList.index.
  change (-1 <? 0)%Z with true. cbv iota.
  destruct l as [|a r] using rev_ind; [congruence|].
  rewrite last_last, length_app. simpl length.
  replace (Z.of_nat (length r + 1) + -1)%Z with (Z.of_nat (length r)) by lia.
  destruct (Z.ltb_spec (Z.of_nat (length r)) 0); [lia|].
  rewrite Nat2Z.id, nth_error_app2 by lia.
  now rewrite Nat.sub_diag.
Qed.

Lemma last_in {A} (l : list A) (d : A) : l <> [] -> In (last l d) l.
Proof.
  destruct l as [|a r] using rev_ind; [congruence|].
  intros _. rewrite last_last. apply in_or_app. right. now left.
Qed.

(** [l[:-(k+1)]] for [k >= 0] drops the last [k+1] elements. *)
Lemma slice_to_keep {A} (l : list A) (k : Z) :
  (0 <= k)%Z ->
  PyList.slice_to l (- (k + 1)) = firstn (length l - (Z.to_nat k + 1)) l.
Proof.
  intros H. unfold PyList.slice_to.
  destruct (Z.ltb_spec (- (k + 1)) 0); [|lia].
  f_equal. lia.
Qed.

Lemma firstn_not_last (l : list string) n d :
  NoDup l -> n < length l -> ~ In (last l d) (firstn n l).
Proof.
  intros ND Hn Hin.
  rewrite <- (firstn_skipn n l) in ND.
  assert (Hs : skipn n l <> []).
  { intros E. apply (f_equal (@length _)) in E.
    rewrite length_skipn in E. simpl in E. lia. }
  assert (Hl : last l d = last (skipn n l) d).
  { rewrite <- (firstn_skipn n l) at 1.
    generalize (firstn n l). intros pre.
    induction pre as [|x pre IH]; [reflexivity|].
    simpl. destruct (pre ++ skipn n l) eqn:E; [|exact IH].
    apply app_eq_nil in E. tauto. }
  rewrite Hl in Hin.
  apply (NoDup_app_remove_l) in ND as ND'.
  clear ND'.
  revert ND Hin. generalize (last_in (skipn n l) d Hs).
  generalize (last (skipn n l) d) (skipn n l) (firstn n l).
  intros x suf pre Hx ND Hp.
  induction pre as [|y pre IH]; [destruct Hp|].
  simpl in ND. inversion ND as [|? ? Hy ND']; subst.
  destruct Hp as [-> | Hp]; [| now apply IH].
  apply Hy. apply in_or_app. now right.
Qed.

(** ** Commands of the manager *)

Lemma commands_app a b : commands (a ++ b) = commands a ++ commands b.
Proof. apply flat_map_app. Qed.

Section Manager.

Context {W : Type} {os : OS W}.

Lemma run_cmd_spec self args (s : State W) :
  run_cmd self args s
  = (Ok ((returncode (cmd_reply self args s) =? 0)%Z,
         stdout (cmd_reply self args s)),
     after_cmd self args s).
Proof.
  unfold run_cmd, after_cmd, cmd_reply, cmd_argv, remote_argv.
  unfold bind, run, log, emit, syscall, ret, add_event, set_world; simpl.
  now rewrite <- app_assoc.
Qed.

Lemma get_existing_backup_folders_spec self (s : State W) :
  get_existing_backup_folders self s
  = (if (returncode (cmd_reply self (find_args self) s) =? 0)%Z
     then Ok (PyStr.splitlines (stdout (cmd_reply self (find_args self) s)))
     else Raise (BackupError "Existing backups determination failed."),
     after_cmd self (find_args self) s).
Proof.
  unfold get_existing_backup_folders, bind.
  fold (find_args self). rewrite run_cmd_spec.
  now destruct (returncode _ =? 0)%Z.
Qed.

Lemma delete_old_backups_unfold self :
  delete_old_backups self
  = (existing <- get_existing_backup_folders self ;;
     for_each (PyList.slice_to (sorted existing) (- (keep self + 1)))
              (delete_step self)).
Proof. reflexivity. Qed.

Lemma delete_step_spec self folder (s : State W) :
  exists s',
    delete_step self folder s = (Ok tt, s')
    /\ commands (events s')
       = commands (events s) ++ [cmd_argv self ["rm"; "-rf"; folder]]
    /\ heap s' = heap s.
Proof.
  unfold delete_step, bind. rewrite run_cmd_spec.
  destruct (returncode _ =? 0)%Z; eexists; (split; [reflexivity|]);
    unfold add_event, after_cmd; simpl; split; try reflexivity;
    rewrite !commands_app; simpl; now rewrite app_nil_r.
Qed.

(** The loop never raises, and runs one [rm -rf] per folder, in order. *)
Lemma delete_loop_spec self l :
  forall s : State W, exists s',
    for_each l (delete_step self) s = (Ok tt, s')
    /\ commands (events s')
       = commands (events s)
           ++ map (fun f => cmd_argv self ["rm"; "-rf"; f]) l
    /\ heap s' = heap s.
Proof.
  induction l as [|f l IH]; intros s.
  - exists s. simpl. now rewrite app_nil_r.
  - destruct (delete_step_spec self f s) as (s1 & E1 & C1 & H1).
    destruct (IH s1) as (s2 & E2 & C2 & H2).
    exists s2. simpl. unfold bind. rewrite E1, E2. repeat split.
    + rewrite C2, C1, <- app_assoc. reflexivity.
    + congruence.
Qed.

End Manager.

Lemma append_cancel_l (p a b : string) :
  String.append p a = String.append p b -> a = b.
Proof.
  induction p as [|c p IH]; simpl; [auto|].
  intros H. injection H as H. auto.
Qed.

(** C2, amended. With [keep >= 0] and the folders [l] found at the
    destination, [delete_old_backups] runs [rm -rf] on exactly the first
    [length l - (keep + 1)] folders of [sorted l], in that order, and on
    nothing else.  The greatest folder is not among them, and there are none
    when [l] has at most [keep + 1] folders.  With [keep = 1] and the five
    folders [backup_00000000000001_aa] .. [backup_00000000000005_ee] (listed
    in any order, below any directory), they are the three oldest: the two
    newest stay, and [backup_00000000000005_ee] is never deleted. *)
Theorem delete_old_backups_prefix
    {W} {os : OS W} (self : BackupManager) (s s1 : State W) (l : list string) :
  (0 <= keep self)%Z ->
  get_existing_backup_folders self s = (Ok l, s1) ->
  let deleted := firstn (length l - (Z.to_nat (keep self) + 1)) (sorted l) in
  exists s2,
    delete_old_backups self s = (Ok tt, s2)
    /\ commands (events s2)
       = commands (events s1)
           ++ map (fun f => cmd_argv self ["rm"; "-rf"; f]) deleted
    /\ (NoDup l -> l <> [] -> ~ In (last (sorted l) "") deleted)
    /\ (length l <= Z.to_nat (keep self) + 1 -> deleted = [])
    /\ (forall dir, keep self = 1%Z ->
          Permutation l (map (String.append dir) five_folders) ->
          deleted = map (String.append dir)
                      ["backup_00000000000001_aa"; "backup_00000000000002_bb";
                       "backup_00000000000003_cc"]
          /\ ~ In (dir ++ "backup_00000000000005_ee")%string deleted).
Proof.
  intros K E deleted.
  destruct (delete_loop_spec self deleted s1) as (s2 & E2 & C2 & _).
  exists s2. split; [| split; [exact C2 | split; [| split]]].
  - rewrite delete_old_backups_unfold. unfold bind. rewrite E.
    rewrite slice_to_keep by exact K. rewrite sorted_length. exact E2.
  - intros ND NE. unfold deleted.
    destruct l as [|x l']; [congruence|].
    apply firstn_not_last.
    + eapply Permutation_NoDup; [apply sorted_perm | exact ND].
    + rewrite sorted_length. simpl length. lia.
  - intros L. unfold deleted.
    replace (length l - (Z.to_nat (keep self) + 1)) with 0 by lia.
    reflexivity.
  - intros dir K1 P.
    assert (D : deleted = map (String.append dir)
                  ["backup_00000000000001_aa"; "backup_00000000000002_bb";
                   "backup_00000000000003_cc"]).
    { unfold deleted. rewrite (sorted_of_perm _ _ P), sorted_map_prefix.
      rewrite (Permutation_length P), length_map, K1. reflexivity. }
    split; [exact D|]. rewrite D. simpl.
    intros [H | [H | [H | []]]]; apply append_cancel_l in H; discriminate H.
Qed.

Lemma delete_old_backups_prefix_witness :
  (0 <= keep (local_manager 1))%Z
  /\ exists s2,
       delete_old_backups (local_manager 1) (initial_state world_with_five)
       = (Ok tt, s2)
       /\ commands (events s2)
          = [find_args (local_manager 1);
             ["rm"; "-rf"; "backup_00000000000001_aa"];
             ["rm"; "-rf"; "backup_00000000000002_bb"];
             ["rm"; "-rf"; "backup_00000000000003_cc"]].
Proof.
  split; [simpl; lia|].
  destruct (delete_old_backups_prefix (local_manager 1)
              (initial_state world_with_five)
              (snd (get_existing_backup_folders (local_manager 1)
                      (initial_state world_with_five)))
              five_shuffled) as (s2 & E & C & _).
  - simpl. lia.
  - reflexivity.
  - exists s2. split; [exact E | exact C].
Defined.

(** C2, as the code has it: with [keep = 1] and the five folders, three
    folders are deleted, not two. *)
Lemma delete_old_backups_five_not_two :
  ~ (forall (self : BackupManager) (s s1 : State FakeWorld) (l : list string),
       keep self = 1%Z ->
       get_existing_backup_folders self s = (Ok l, s1) ->
       Permutation l five_folders ->
       exists s2,
         delete_old_backups self s = (Ok tt, s2)
         /\ commands (events s2)
            = commands (events s1)
                ++ map (fun f => cmd_argv self ["rm"; "-rf"; f])
                     ["backup_00000000000001_aa";
                      "backup_00000000000002_bb"]).
Proof.
  intros H.
  destruct (H (local_manager 1) (initial_state world_with_five)
              (snd (get_existing_backup_folders (local_manager 1)
                      (initial_state world_with_five)))
              five_shuffled) as (s2 & E & C).
  - reflexivity.
  - reflexivity.
  - change five_folders with (sorted five_shuffled). apply sorted_perm.
  - vm_compute in E. injection E as <-. vm_compute in C. discriminate C.
Qed.

(** ** The latest backup *)

(** C9. Whenever the folders at the destination can be listed, as [l],
    [get_last_backup_folder] returns from the same state as the listing:
    [None] when [l] is empty and only then, and otherwise the path of a
    folder of [l] that every folder of [l] is below or equal to in the order
    of strings. *)
Theorem get_last_backup_folder_max
    {W} {os : OS W} (self : BackupManager) (s s1 : State W) (l : list string) :
  get_existing_backup_folders self s = (Ok l, s1) ->
  exists r,
    get_last_backup_folder self s = (Ok r, s1)
    /\ (r = None <-> l = [])
    /\ (l <> [] ->
        exists m, r = Some (PyPath.of_string m)
                  /\ In m l /\ forall x, In x l -> str_le x m).
Proof.
  intros E. unfold get_last_backup_folder, bind. rewrite E.
  destruct l as [|a l'].
  - exists None. simpl. repeat split; congruence.
  - set (l := a :: l').
    assert (N : sorted l <> []).
    { intros H. apply (f_equal (@length _)) in H.
      rewrite sorted_length in H. discriminate H. }
    exists (Some (PyPath.of_string (last (sorted l) ""))).
    simpl PyList.truthy. cbv iota.
    rewrite (index_last (sorted l) "" N). simpl.
    split; [reflexivity|]. split; [split; discriminate|].
    intros _. exists (last (sorted l) ""). split; [reflexivity|]. split.
    + apply (proj1 (sorted_in l _)), last_in, N.
    + intros x Hx. apply strongly_sorted_last;
        [apply sorted_strongly | now apply (proj2 (sorted_in l x))].
Qed.

Lemma get_last_backup_folder_max_witness :
  exists r,
    get_last_backup_folder (local_manager 1) (initial_state world_with_five)
    = (Ok r, snd (get_existing_backup_folders (local_manager 1)
                    (initial_state world_with_five)))
    /\ (r = None <-> five_shuffled = [])
    /\ (five_shuffled <> [] ->
        exists m, r = Some (PyPath.of_string m)
                  /\ In m five_shuffled
                  /\ forall x, In x five_shuffled -> str_le x m).
Proof.
  apply (get_last_backup_folder_max (local_manager 1)
           (initial_state world_with_five)).
  reflexivity.
Defined.

Example get_last_backup_folder_five :
  fst (get_last_backup_folder (local_manager 1)
         (initial_state world_with_five))
  = Ok (Some (mkPath "" ["backup_00000000000005_ee"])).
Proof. reflexivity. Qed.

(** ** One backup cycle *)

Section Cycle.

Context {W : Type} {os : OS W}.

(** The cycle up to the producer. *)
Lemma backup_auto_folders_produce self bf (s s1 : State W) last :
  get_last_backup_folder self s = (Ok last, s1) ->
  backup_auto_folders self bf s
  = match bf (live_folder self) last (announced last s1) with
    | (Raise e, s2) => (Raise e, s2)
    | (Ok _, s2) =>
        let fn := new_folder_name (world s2) in
        if (returncode (cmd_reply self (mv_args self fn) (named s2)) =? 0)%Z
        then
          let s3 := promoted self s2 in
          let s4 := after_cmd self (ln_args self fn) s3 in
          delete_old_backups self
            (add_event
               (if (returncode (cmd_reply self (ln_args self fn) s3) =? 0)%Z
                then EvLog INFO
                       (Text ("Added symlink 'last-backup' to '" ++ fn
                                ++ "'."))
                else EvLog WARNING
                       (Text ("Couldn't create symlink 'last-backup'. "
                                ++ "Perhaps the filesystem doesn't support it.")))
               s4)
        else
          (Raise (BackupError
                    ("Failed to move '" ++ str (live_folder self)
                       ++ "' to '"
                       ++ str (path self // PyPath.of_string fn) ++ "'")),
           after_cmd self (mv_args self fn) (named s2))
    end.
Proof.
  intros E. unfold backup_auto_folders. unfold bind at 1. rewrite E.
  unfold bind at 1.
  assert (A : (match last with
               | Some lf =>
                   log INFO (Text ("Last backup is '" ++ str lf
                      ++ "', using it for rsync --link-dest."))
               | None =>
                   log INFO (Text
                      "Couldn't find a previous backup to increment from.")
               end) s1 = (Ok tt, announced last s1))
    by (destruct last; reflexivity).
  rewrite A. unfold bind at 1. fold (live_folder self).
  destruct (bf (live_folder self) last (announced last s1)) as [[[]|e] s2];
    [|reflexivity].
  unfold bind at 1. unfold syscall at 1. unfold bind at 1.
  unfold syscall at 1. unfold bind at 1.
  cbv zeta. rewrite run_cmd_spec.
  cbv [new_folder_name named mv_args ln_args promoted after_cmd cmd_reply
       set_world add_event alphabet world heap next_ref events].
  destruct (returncode _ =? 0)%Z; simpl negb; cbv iota; [|reflexivity].
  unfold bind at 1. unfold ret at 1. unfold bind at 1.
  unfold log at 1, emit at 1. unfold bind at 1.
  rewrite run_cmd_spec.
  cbv [after_cmd cmd_reply set_world add_event
       world heap next_ref events].
  destruct (returncode _ =? 0)%Z; simpl negb; cbv iota;
    unfold bind at 1; unfold log at 1, emit at 1; reflexivity.
Qed.

End Cycle.

Section CycleFacts.

Context {W : Type} {os : OS W}.

(** Looking for the last backup runs [find] and nothing else. *)
Lemma get_last_backup_folder_state self (s s1 : State W) r :
  get_last_backup_folder self s = (r, s1) ->
  s1 = after_cmd self (find_args self) s.
Proof.
  unfold get_last_backup_folder, bind.
  rewrite get_existing_backup_folders_spec.
  destruct (returncode _ =? 0)%Z; [|now intros [= _ <-]].
  destruct (PyList.truthy _); [|now intros [= _ <-]].
  unfold lift_option.
  destruct (PyList.index _ _); now intros [= _ <-].
Qed.

Lemma commands_after_cmd self args (s : State W) :
  commands (events (after_cmd self args s))
  = commands (events s) ++ [cmd_argv self args].
Proof. unfold after_cmd. simpl. now rewrite commands_app. Qed.

Lemma commands_add_log lvl msg (s : State W) :
  commands (events (add_event (EvLog lvl msg) s)) = commands (events s).
Proof.
  unfold add_event. simpl. rewrite commands_app. simpl. apply app_nil_r.
Qed.

(** Pruning starts by listing the folders, whatever happens next. *)
Lemma delete_old_backups_commands self (s : State W) :
  exists rest,
    commands (events (snd (delete_old_backups self s)))
    = commands (events s) ++ cmd_argv self (find_args self) :: rest.
Proof.
  rewrite delete_old_backups_unfold. unfold bind.
  rewrite get_existing_backup_folders_spec.
  destruct (returncode _ =? 0)%Z.
  - match goal with
    | |- context [for_each ?l ?f ?st] =>
        destruct (delete_loop_spec self l st) as (s' & E & C & _)
    end.
    rewrite E. simpl. rewrite C, commands_after_cmd, <- app_assoc.
    eexists. reflexivity.
  - exists []. simpl. apply commands_after_cmd.
Qed.

End CycleFacts.

(** *** Commands that cannot be launched *)

Section Launching.

Context {W : Type} {os : OS W} {la : Launch W}.



End Launching.

Section LaunchingCycle.

Context {W : Type} {os : OS W} {la : Launch W}.






End LaunchingCycle.

(** C3. When the producer raises [e], the cycle raises [e] and ends in the
    very state in which the producer raised: the manager runs nothing after
    it, so no move to a [backup_*] name is attempted.  Before the producer,
    the manager has run one command, the [find] that lists the folders.
    Hence whatever can be observed of the world (such as the set of backup
    folders), if listing the folders and the producer leave it as it is, the
    cycle leaves it as it is. *)
Theorem producer_failure_aborts_cycle
    {W} {os : OS W} (self : BackupManager)
    (backup_func : Path -> option Path -> M W unit)
    (s s1 s2 : State W) (last : option Path) (e : exn) :
  get_last_backup_folder self s = (Ok last, s1) ->
  backup_func (live_folder self) last (announced last s1) = (Raise e, s2) ->
  backup_auto_folders self backup_func s = (Raise e, s2)
  /\ commands (events (announced last s1))
     = commands (events s) ++ [cmd_argv self (find_args self)]
  /\ world (announced last s1)
     = snd (subprocess_run (cmd_argv self (find_args self)) (world s))
  /\ (forall (X : Type) (folders : W -> X),
        folders (snd (subprocess_run (cmd_argv self (find_args self))
                        (world s))) = folders (world s) ->
        folders (world s2) = folders (world (announced last s1)) ->
        folders (world s2) = folders (world s)).
Proof.
  intros E P.
  pose proof (get_last_backup_folder_state self s s1 _ E) as ->.
  split; [| split; [| split]].
  - rewrite (backup_auto_folders_produce self backup_func s _ last E).
    now rewrite P.
  - unfold announced. now rewrite commands_add_log, commands_after_cmd.
  - reflexivity.
  - intros X folders Hfind Hprod. rewrite Hprod. exact Hfind.
Qed.



(** The run itself: the cycle raises after [mv], the last command. *)
Example link_update_launch_failure_run :
  let r := backup_auto_folders (la:=ln_missing) (local_manager 1)
             (backup_container (la:=ln_missing) (local_manager 1) a_container)
             (fake_state (mkFake [] [])) in
  fst r = Raise (OtherError "FileNotFoundError: 'ln'")
  /\ map (fun argv => hd "" argv) (commands (events (snd r)))
     = ["find"; "rsync"; "rsync"; "rsync"; "rsync"; "mv"].
Proof. vm_compute. split; reflexivity. Qed.

Lemma producer_failure_aborts_cycle_witness :
  fst (backup_auto_folders (local_manager 1)
         (backup_container (local_manager 1) a_container)
         (fake_state world_rsync_fails))
  = Raise (BackupError
      "rsync failed for: /data/container/loose to /srv/backups/live-backup")
  /\ commands (events (snd (backup_auto_folders (local_manager 1)
         (backup_container (local_manager 1) a_container)
         (fake_state world_rsync_fails))))
     = [find_args (local_manager 1);
        ["rsync"; "-azh"; "-vv"; "--no-whole-file"; "/data/container/loose";
         "/srv/backups/live-backup"]].
Proof.
  pose proof (producer_failure_aborts_cycle (local_manager 1)
                (backup_container (local_manager 1) a_container)
                (fake_state world_rsync_fails)
                (snd (get_last_backup_folder (local_manager 1)
                        (fake_state world_rsync_fails)))
                (snd (backup_container (local_manager 1) a_container
                        (live_folder (local_manager 1)) None
                        (announced None
                           (snd (get_last_backup_folder (local_manager 1)
                                   (fake_state world_rsync_fails))))))
                None
                (BackupError
      "rsync failed for: /data/container/loose to /srv/backups/live-backup")
                eq_refl eq_refl) as (H & _).
  rewrite H. split; reflexivity.
Defined.


(** ** Construction of a manager *)

Section Construction.

Context {W : Type} {os : OS W}.

Lemma check_exes_found d (s : State W) :
  executables_found d (world s) ->
  for_each d check_exe s = (Ok tt, s).
Proof.
  induction d as [|[k p] d IH]; intros F; [reflexivity|].
  simpl. unfold bind at 1. unfold check_exe, bind, is_exe_found, observe.
  destruct (which p (world s)) eqn:Ew.
  - simpl. apply IH. intros k' p' Hin. apply (F k' p'). now right.
  - exfalso. apply (F k p); [now left | exact Ew].
Qed.

Lemma split_remote_and_path_raises dest e :
  split_remote_and_path dest = Raise e -> e = invalid_destination.
Proof.
  unfold split_remote_and_path, invalid_destination.
  destruct (PyStr.split ":" dest) as [|h [|t [|x r]]]; congruence.
Qed.

(** [__init__] puts the registry in place without touching the world or
    the log, and then validates. *)
Lemma init_registry dest keep exes remote path (s : State W) :
  split_remote_and_path dest = Ok (remote, path) ->
  exists s0,
    world s0 = world s /\ events s0 = events s
    /\ heap s0 (registry_ref exes s) = registry exes s
    /\ __init__ dest keep exes s
       = validate (mkManager dest keep remote path (registry_ref exes s)) s0.
Proof.
  intros E. unfold __init__. rewrite E.
  destruct exes as [r|]; unfold registry, registry_ref.
  - unfold bind at 1. unfold ret at 1. unfold bind at 1. unfold deref at 1.
    unfold bind at 1.
    destruct (PyDict.mem "rsync" (heap s r)) eqn:Em; simpl negb; cbv iota.
    + exists s. repeat split. 
    + eexists. split; [|split; [|split]]; [| | | reflexivity];
        simpl; try reflexivity. now rewrite Nat.eqb_refl.
  - unfold bind at 1. unfold new_dict at 1. unfold bind at 1.
    unfold deref at 1. cbn [heap next_ref]. rewrite Nat.eqb_refl.
    unfold bind at 1. simpl negb. cbv iota.
    eexists. split; [|split; [|split]]; [| | | reflexivity];
      simpl; try reflexivity. now rewrite Nat.eqb_refl.
Qed.

End Construction.

Section Validation.

Context {W : Type} {os : OS W}.

Lemma remote_check_ok (self : BackupManager) (s : State W) :
  (PyStr.opt_truthy (remote self) = true ->
   returncode (fst (subprocess_run (remote_argv (remote self) ["exit"])
                      (world s))) = 0%Z) ->
  exists s1,
    (if PyStr.opt_truthy (remote self)
     then check_if_remote_accessible self
     else ret tt) s = (Ok tt, s1)
    /\ world s1 = world_after_remote_check (remote self) (world s)
    /\ heap s1 = heap s.
Proof.
  intros H. unfold world_after_remote_check.
  destruct (PyStr.opt_truthy (remote self)); [|now exists s].
  specialize (H eq_refl).
  unfold check_if_remote_accessible.
  unfold bind at 1. unfold log at 1, emit at 1.
  unfold bind at 1. rewrite run_cmd_spec.
  unfold cmd_reply, cmd_argv. cbn [add_event world].
  rewrite H. simpl negb. cbv iota.
  unfold bind at 1. unfold ret at 1. unfold log, emit.
  eexists. split; [reflexivity|]. split; reflexivity.
Qed.

Lemma path_check_ok (self : BackupManager) (s : State W) :
  let test := cmd_argv self ["["; "-e"; str (path self); "]"] in
  (returncode (fst (subprocess_run test (world s))) = 0%Z
   \/ returncode
        (fst (subprocess_run (cmd_argv self ["mkdir"; str (path self)])
                (snd (subprocess_run test (world s))))) = 0%Z) ->
  exists s1,
    (exists_ <- check_path_exists self (path self) ;;
     (if negb exists_
      then
        ' (success, _) <- run_cmd self ["mkdir"; str (path self)] ;;
        if negb success
        then raise (ValueError
               ("Input validation failed: Couldn't access/create '"
                  ++ str (path self) ++ "'!"))
        else ret tt
      else ret tt) ;;
     ret self) s = (Ok self, s1).
Proof.
  intros test H.
  unfold check_path_exists, bind, ret. rewrite run_cmd_spec.
  destruct (Z.eqb_spec (returncode (cmd_reply self
              ["["; "-e"; str (path self); "]"] s)) 0) as [E0 | N0].
  - cbn [negb]. cbv beta iota. eexists. reflexivity.
  - cbn [negb]. cbv beta iota. rewrite run_cmd_spec.
    destruct H as [H | H]; [exfalso; apply N0; exact H|].
    unfold cmd_reply, after_cmd. cbn [world].
    fold test. rewrite H. simpl. eexists. reflexivity.
Qed.

Lemma validate_ok (self : BackupManager) (s : State W) :
  (0 <= keep self)%Z ->
  reachable (remote self) (path self) (world s) ->
  executables_found (heap s (exes self))
    (world_after_remote_check (remote self) (world s)) ->
  exists s', validate self s = (Ok self, s').
Proof.
  intros K [Hr Hp] Hx. unfold validate.
  unfold bind at 1.
  destruct (Z.ltb_spec (keep self) 0) as [L | _]; [lia|].
  unfold ret at 1. unfold bind at 1.
  destruct (remote_check_ok self s Hr) as (s1 & -> & W1 & H1).
  unfold bind at 1. unfold deref at 1. unfold bind at 1.
  rewrite H1.
  assert (Hl : (if PyDict.truthy (heap s (exes self))
                then for_each (heap s (exes self)) check_exe
                else ret tt) s1 = (Ok tt, s1)).
  { destruct (PyDict.truthy _); [|reflexivity].
    apply check_exes_found. now rewrite W1. }
  rewrite Hl.
  apply path_check_ok. cbv zeta in Hp. rewrite W1. exact Hp.
Qed.

End Validation.

(** C6, as the code has it: a non-negative [keep] and a reachable
    destination are not enough when rsync is not on the PATH. *)
Lemma init_fails_without_rsync :
  ~ (forall (dest : string) (keep : Z) (exes : option nat)
            (s : State FakeWorld) (remote : option string) (path : Path),
       (0 <= keep)%Z ->
       split_remote_and_path dest = Ok (remote, path) ->
       reachable remote path (world s) ->
       exists m s', __init__ dest keep exes s = (Ok m, s')).
Proof.
  intros H.
  destruct (H "/srv/backups" 0%Z None (initial_state (mkFake [] ["rsync"]))
              None (PyPath.of_string "/srv/backups"))
    as (m & s' & E).
  - lia.
  - reflexivity.
  - split; [discriminate | left; reflexivity].
  - vm_compute in E. discriminate E.
Qed.

(** C6, amended. With [keep < 0], [__init__] raises a [ValueError] and
    leaves the world and the log as they were: no command has been run.
    With [keep >= 0], a destination that parses and is reachable (the remote
    host, if any, runs [exit]; the path exists or [mkdir] creates it), and
    every executable of the registry found on the PATH, [__init__] returns
    the manager. *)
Theorem init_validation
    {W} {os : OS W} (dest : string) (keep : Z) (exes : option nat)
    (s : State W) :
  ((keep < 0)%Z ->
   exists msg s',
     __init__ dest keep exes s = (Raise (ValueError msg), s')
     /\ world s' = world s /\ events s' = events s)
  /\ ((0 <= keep)%Z ->
      forall remote path,
        split_remote_and_path dest = Ok (remote, path) ->
        reachable remote path (world s) ->
        executables_found (registry exes s)
          (world_after_remote_check remote (world s)) ->
        exists s',
          __init__ dest keep exes s
          = (Ok (mkManager dest keep remote path (registry_ref exes s)), s')).
Proof.
  split.
  - intros K.
    destruct (split_remote_and_path dest) as [[remote path]|e] eqn:E.
    + destruct (init_registry dest keep exes remote path s E)
        as (s0 & W0 & E0 & _ & ->).
      unfold validate, bind. simpl.
      destruct (Z.ltb_spec keep 0) as [_ | G]; [|lia].
      eexists. exists s0. repeat split; assumption.
    + unfold __init__. rewrite E.
      rewrite (split_remote_and_path_raises dest e E).
      eexists. exists s. repeat split.
  - intros K remote path E R X.
    destruct (init_registry dest keep exes remote path s E)
      as (s0 & W0 & E0 & H0 & ->).
    apply validate_ok; simpl.
    + exact K.
    + now rewrite W0.
    + now rewrite W0, H0.
Qed.

Lemma init_validation_witness :
  (exists msg s',
     __init__ "/srv/backups" (-1) None (initial_state (mkFake [] []))
     = (Raise (ValueError msg), s')
     /\ world s' = mkFake [] [] /\ events s' = [])
  /\ (exists s',
        __init__ "host:backups" 2 None
          (initial_state (mkFake [exit_ok; exit_failed; exit_ok] []))
        = (Ok (mkManager "host:backups" 2 (Some "host")
                 (PyPath.of_string "backups") 0), s')).
Proof.
  split.
  - apply (proj1 (init_validation "/srv/backups" (-1) None
                    (initial_state (mkFake [] [])))).
    lia.
  - apply (proj2 (init_validation "host:backups" 2 None
                    (initial_state (mkFake [exit_ok; exit_failed; exit_ok]
                                      [])))
             ltac:(lia) (Some "host"%string) (PyPath.of_string "backups")).
    + reflexivity.
    + split; [reflexivity | right; reflexivity].
    + intros k p [E | []]. injection E as _ <-. discriminate.
Defined.

Lemma raise_not_assertion {A B} (e : exn) :
  @Raise A e <> Raise AssertionError -> @Raise B e <> Raise AssertionError.
Proof. intros N H. apply N. now injection H as ->. Qed.

(** ** The registry always names rsync *)

Section Registry.

Context {W : Type} {os : OS W}.

Lemma quiet_ret {A} (a : A) : quiet (W:=W) (ret a).
Proof. intros s. split; [discriminate | reflexivity]. Qed.

Lemma quiet_raise {A} (e : exn) :
  e <> AssertionError -> quiet (W:=W) (@raise W A e).
Proof. intros N s. split; [simpl; congruence | reflexivity]. Qed.

Lemma quiet_bind {A B} (c : M W A) (k : A -> M W B) :
  quiet (W:=W) c -> (forall a, quiet (W:=W) (k a)) ->
  quiet (W:=W) (bind c k).
Proof.
  intros Hc Hk s. unfold bind. specialize (Hc s).
  destruct (c s) as [[a|e] s1]; simpl in Hc.
  - destruct (Hk a s1) as [N H]. destruct Hc as [_ H0].
    split; [exact N | now rewrite H].
  - destruct Hc as [N H].
    split; [exact (raise_not_assertion e N) | exact H].
Qed.

Lemma quiet_emit e : quiet (W:=W) (emit e).
Proof. intros s. split; [discriminate | reflexivity]. Qed.

Lemma quiet_log lvl msg : quiet (W:=W) (log lvl msg).
Proof. apply quiet_emit. Qed.

Lemma quiet_syscall {A} (f : W -> A * W) : quiet (W:=W) (syscall f).
Proof. intros s. split; [discriminate | reflexivity]. Qed.

Lemma quiet_observe {A} (f : W -> A) : quiet (W:=W) (observe f).
Proof. intros s. split; [discriminate | reflexivity]. Qed.

Lemma quiet_syscall_exn f : quiet (W:=W) (syscall_exn f).
Proof.
  intros s. unfold syscall_exn.
  destruct (fst (f (world s))); split; try discriminate; reflexivity.
Qed.

Lemma quiet_deref r : quiet (W:=W) (deref r).
Proof. intros s. split; [discriminate | reflexivity]. Qed.

Lemma quiet_lift_option {A} (o : option A) e :
  e <> AssertionError -> quiet (W:=W) (@lift_option W A o e).
Proof.
  intros N. destruct o; [apply quiet_ret | now apply quiet_raise].
Qed.

Lemma quiet_finally {A} (c : M W A) h :
  quiet (W:=W) c -> quiet (W:=W) h -> quiet (W:=W) (finally c h).
Proof.
  intros Hc Hh s. unfold finally. specialize (Hc s).
  destruct (c s) as [[a|e] s1]; simpl in Hc; destruct Hc as [N H];
    specialize (Hh s1); destruct (h s1) as [[u|e'] s2]; simpl in *;
    destruct Hh as [N' H']; split; try discriminate; try congruence.
Qed.

Lemma quiet_for_each {A} (l : list A) (body : A -> M W unit) :
  (forall x, quiet (W:=W) (body x)) -> quiet (W:=W) (for_each l body).
Proof.
  intros Hb. induction l as [|x l IH]; simpl.
  - apply quiet_ret.
  - apply quiet_bind; [apply Hb | intros _; exact IH].
Qed.

Lemma quiet_with_connection {A} conn (body : M W A) :
  quiet (W:=W) body -> quiet (W:=W) (with_connection conn body).
Proof.
  intros Hb s. unfold with_connection. specialize (Hb s).
  destruct (body s) as [[a|e] s1]; simpl in Hb; destruct Hb as [N H].
  - destruct (quiet_bind (syscall_exn (sqlite_commit conn))
                (fun _ => ret a) (quiet_syscall_exn _)
                (fun _ => quiet_ret a) s1) as [N' H'].
    split; [exact N' | now rewrite H'].
  - split; [exact N | exact H].
Qed.

Lemma safe_of_quiet {A} self (c : M W A) : quiet (W:=W) c -> safe self c.
Proof. intros H s _. apply H. Qed.

Lemma safe_bind {A B} self (c : M W A) (k : A -> M W B) :
  safe self c -> (forall a, safe self (k a)) -> safe self (bind c k).
Proof.
  intros Hc Hk s R. unfold bind. specialize (Hc s R).
  destruct (c s) as [[a|e] s1]; simpl in Hc; destruct Hc as [N H].
  - assert (R1 : has_rsync self s1) by (unfold has_rsync; now rewrite H).
    destruct (Hk a s1 R1) as [N' H']. split; [exact N' | now rewrite H'].
  - split; [exact (raise_not_assertion e N) | exact H].
Qed.

Lemma safe_finally {A} self (c : M W A) h :
  safe self c -> quiet (W:=W) h -> safe self (finally c h).
Proof.
  intros Hc Hh s R. unfold finally. specialize (Hc s R).
  destruct (c s) as [[a|e] s1]; simpl in Hc; destruct Hc as [N H];
    specialize (Hh s1); destruct (h s1) as [[u|e'] s2]; simpl in *;
    destruct Hh as [N' H']; split; try discriminate; try congruence.
Qed.

End Registry.

Create HintDb quiet.

#[export] Hint Resolve quiet_ret quiet_emit quiet_log quiet_syscall
  quiet_observe quiet_syscall_exn quiet_deref : quiet.

(** Decompose a goal [quiet c] or [safe self c] along the structure of [c]. *)
Ltac quiet_step :=
  match goal with
  | |- quiet (bind _ _) => apply quiet_bind; [| intros ?]
  | |- quiet (raise _) => apply quiet_raise; discriminate
  | |- quiet (lift_option _ _) => apply quiet_lift_option; discriminate
  | |- quiet (finally _ _) => apply quiet_finally
  | |- quiet (for_each _ _) => apply quiet_for_each; intros ?
  | |- quiet (with_connection _ _) => apply quiet_with_connection
  | |- quiet (if ?b then _ else _) => destruct b
  | |- quiet (match ?x with _ => _ end) => destruct x
  | |- quiet _ => solve [auto with quiet]
  | |- safe _ (bind _ _) => apply safe_bind; [| intros ?]
  | |- safe _ (raise _) => apply safe_of_quiet, quiet_raise; discriminate
  | |- safe _ (finally _ _) => apply safe_finally
  | |- safe _ (if ?b then _ else _) => destruct b
  | |- safe _ (match ?x with _ => _ end) => destruct x
  | |- safe _ _ => solve [apply safe_of_quiet; auto with quiet]
  end.

Ltac quiet_tac := repeat quiet_step.

(** ** The rsync command line *)

Section Rsync.

Context {W : Type} {os : OS W}.

(** [call_rsync], one step: the lookup of rsync, the command, its trace in
    the log, and the error when the command fails. *)
Lemma call_rsync_spec self src dest link_dest sts dts extra (s : State W) :
  call_rsync self src dest link_dest sts dts extra s
  = match PyDict.get "rsync" (heap s (exes self)) with
    | None => (Raise AssertionError, s)
    | Some rsync =>
        let argv := rsync_argv self rsync src dest
                      (link_reference self link_dest (world s))
                      sts dts extra in
        let res := fst (subprocess_run argv (world s)) in
        (if (returncode res =? 0)%Z then Ok tt
         else Raise (BackupError ("rsync failed for: " ++ str src ++ " to "
                                    ++ str dest)),
         mkState (snd (subprocess_run argv (world s))) (heap s) (next_ref s)
                 (events s ++ [EvRun argv res;
                               EvLog DEBUG (CommandTrace argv res)]))
    end.
Proof.
  unfold call_rsync, bind, deref, PyDict.mem.
  destruct (PyDict.get "rsync" (heap s (exes self))) as [rsync|];
    [|reflexivity].
  cbn [negb]. cbv beta iota.
  unfold rsync_argv, rsync_target, link_reference, PyStr.opt_truthy.
  destruct link_dest as [ld|]; destruct extra as [[|x l]|];
    destruct (remote self) as [r|]; try destruct (PyStr.truthy r);
    destruct sts; destruct dts;
    cbn [negb lift_option ret observe bind run launch_error launches
         syscall emit log raise
         add_event set_world world heap next_ref events fst snd app];
    rewrite <- ?app_assoc;
    cbn [app];
    match goal with
    | |- context [(returncode ?r =? 0)%Z] =>
        destruct (returncode r =? 0)%Z
    end;
    cbn [negb]; unfold raise, ret, add_event;
    cbn [world heap next_ref events];
    rewrite <- ?app_assoc; reflexivity.
Qed.

End Rsync.

Section RegistryOfTheModule.

Context {W : Type} {os : OS W}.

Lemma quiet_run argv : quiet (W:=W) (run argv).
Proof. unfold run. quiet_tac. Qed.

Lemma quiet_run_cmd self args : quiet (W:=W) (run_cmd self args).
Proof.
  unfold run_cmd. apply quiet_bind; [apply quiet_run|]. intros res.
  quiet_tac.
Qed.

Lemma quiet_get_existing_backup_folders self :
  quiet (W:=W) (get_existing_backup_folders self).
Proof.
  unfold get_existing_backup_folders.
  apply quiet_bind; [apply quiet_run_cmd|]. intros [success out]. quiet_tac.
Qed.

Lemma quiet_get_last_backup_folder self :
  quiet (W:=W) (get_last_backup_folder self).
Proof.
  unfold get_last_backup_folder.
  apply quiet_bind; [apply quiet_get_existing_backup_folders|].
  intros l. quiet_tac.
Qed.

Lemma quiet_delete_old_backups self :
  quiet (W:=W) (delete_old_backups self).
Proof.
  rewrite delete_old_backups_unfold.
  apply quiet_bind; [apply quiet_get_existing_backup_folders|].
  intros l. apply quiet_for_each. intros f. unfold delete_step.
  apply quiet_bind; [apply quiet_run_cmd|]. intros [success out]. quiet_tac.
Qed.

Lemma quiet_sqlite_backup src dst : quiet (W:=W) (_sqlite_backup src dst).
Proof. unfold _sqlite_backup. quiet_tac. Qed.

Lemma quiet_relative_to p q : quiet (W:=W) (relative_to (W:=W) p q).
Proof. unfold relative_to. quiet_tac. Qed.

Lemma quiet_validate self : quiet (W:=W) (validate self).
Proof.
  unfold validate.
  apply quiet_bind; [quiet_tac|]. intros _.
  apply quiet_bind.
  { destruct (PyStr.opt_truthy (remote self)); [|quiet_tac].
    unfold check_if_remote_accessible.
    apply quiet_bind; [quiet_tac|]. intros _.
    apply quiet_bind; [apply quiet_run_cmd|]. intros [success out].
    quiet_tac. }
  intros _. apply quiet_bind; [quiet_tac|]. intros d.
  apply quiet_bind.
  { destruct (PyDict.truthy d); [|quiet_tac].
    apply quiet_for_each. intros [k p]. unfold check_exe, is_exe_found.
    quiet_tac. }
  intros _. apply quiet_bind.
  { unfold check_path_exists.
    apply quiet_bind; [apply quiet_run_cmd|]. intros [success out].
    quiet_tac. }
  intros ex. apply quiet_bind; [|intros _; quiet_tac].
  destruct (negb ex); [|quiet_tac].
  apply quiet_bind; [apply quiet_run_cmd|]. intros [success out]. quiet_tac.
Qed.

(** With rsync in the registry, the assertion of [call_rsync] holds. *)
Lemma safe_call_rsync self src dst ld sts dts extra :
  safe self (call_rsync self src dst ld sts dts extra).
Proof.
  intros s R. rewrite call_rsync_spec.
  unfold has_rsync, PyDict.mem in R.
  destruct (PyDict.get "rsync" (heap s (exes self))); [|discriminate R].
  cbv zeta. destruct (returncode _ =? 0)%Z;
    split; try discriminate; reflexivity.
Qed.

Lemma safe_backup_container self c p prev :
  safe self (backup_container self c p prev).
Proof.
  unfold backup_container.
  apply safe_bind; [apply safe_of_quiet, quiet_relative_to|]. intros lrel.
  apply safe_bind; [apply safe_call_rsync|]. intros _.
  apply safe_bind; [quiet_tac|]. intros _.
  apply safe_bind.
  { unfold with_temporary_directory.
    apply safe_bind; [quiet_tac|]. intros name.
    apply safe_bind; [quiet_tac|]. intros _.
    apply safe_finally; [|quiet_tac].
    apply safe_bind; [apply safe_of_quiet, quiet_sqlite_backup|]. intros _.
    apply safe_bind; [quiet_tac|]. intros isf.
    apply safe_bind; [quiet_tac|]. intros _.
    apply safe_bind; [apply safe_call_rsync|]. intros _. quiet_tac. }
  intros _.
  apply safe_bind; [apply safe_of_quiet, quiet_relative_to|]. intros prel.
  apply safe_bind; [apply safe_call_rsync|]. intros _.
  apply safe_bind; [quiet_tac|]. intros _.
  apply safe_call_rsync.
Qed.

Lemma safe_backup_auto_folders self bf :
  (forall p l, safe self (bf p l)) -> safe self (backup_auto_folders self bf).
Proof.
  intros Hbf. unfold backup_auto_folders.
  apply safe_bind; [apply safe_of_quiet, quiet_get_last_backup_folder|].
  intros last.
  apply safe_bind; [quiet_tac|]. intros _.
  apply safe_bind; [apply Hbf|]. intros _.
  apply safe_bind; [quiet_tac|]. intros ts.
  apply safe_bind; [quiet_tac|]. intros rs.
  apply safe_bind; [apply safe_of_quiet, quiet_run_cmd|].
  intros [success out].
  apply safe_bind; [quiet_tac|]. intros _.
  apply safe_bind; [quiet_tac|]. intros _.
  apply safe_bind; [apply safe_of_quiet, quiet_run_cmd|].
  intros [success' out'].
  apply safe_bind; [quiet_tac|]. intros _.
  apply safe_of_quiet, quiet_delete_old_backups.
Qed.

Lemma bind_ok_inv {A B} (c : M W A) (k : A -> M W B) s b s' :
  bind c k s = (Ok b, s') ->
  exists a s1, c s = (Ok a, s1) /\ k a s1 = (Ok b, s').
Proof.
  unfold bind. destruct (c s) as [[a|e] s1]; [|discriminate].
  intros H. now exists a, s1.
Qed.

Lemma validate_returns_self self (s s' : State W) m :
  validate self s = (Ok m, s') -> m = self.
Proof.
  unfold validate. intros H.
  repeat (apply bind_ok_inv in H; destruct H as (? & ? & _ & H)).
  now injection H as <- _.
Qed.

Lemma mem_set k v d : PyDict.mem k (PyDict.set k v d) = true.
Proof.
  unfold PyDict.mem.
  induction d as [|[k' v'] d IH]; simpl.
  - now rewrite String.eqb_refl.
  - destruct (String.eqb k' k) eqn:E; simpl; rewrite E; [reflexivity|].
    exact IH.
Qed.

Lemma registry_has_rsync exes (s : State W) :
  PyDict.mem "rsync" (registry exes s) = true.
Proof.
  unfold registry. cbv zeta.
  destruct (PyDict.mem "rsync"
              match exes with Some r => heap s r | None => [] end) eqn:E;
    [exact E | apply mem_set].
Qed.

End RegistryOfTheModule.

(** C10. A manager that [__init__] returned has rsync in its registry.  So
    the assertion of [call_rsync] holds on it; and it goes on holding through
    any number of backup cycles of a container, none of which fails an
    assertion, since no function of the module removes a key of the
    registry. *)
Theorem rsync_always_registered
    {W} {os : OS W} (dest : string) (keep : Z) (exes : option nat)
    (s s' : State W) (m : BackupManager) :
  __init__ dest keep exes s = (Ok m, s') ->
  has_rsync m s'
  /\ (forall src dst ld sts dts extra,
        fst (call_rsync m src dst ld sts dts extra s') <> Raise AssertionError)
  /\ (forall c n,
        has_rsync m (after_cycles m c n s')
        /\ fst (backup_auto_folders m (backup_container m c)
                  (after_cycles m c n s')) <> Raise AssertionError).
Proof.
  intros E.
  assert (R : has_rsync m s').
  { destruct (split_remote_and_path dest) as [[remote path]|e] eqn:Es.
    - destruct (init_registry dest keep exes remote path s Es)
        as (s0 & _ & _ & H0 & Ev).
      rewrite Ev in E.
      pose proof (quiet_validate
                    (mkManager dest keep remote path (registry_ref exes s)) s0)
        as [_ Hh].
      rewrite E in Hh. simpl in Hh.
      apply validate_returns_self in E. subst m.
      unfold has_rsync. simpl. rewrite Hh, H0.
      apply registry_has_rsync.
    - unfold __init__ in E. rewrite Es in E. discriminate E. }
  clear E. split; [exact R|]. split.
  - intros. now apply safe_call_rsync.
  - intros c n. revert s' R. induction n as [|n IH]; intros s' R.
    + split; [exact R|].
      apply (safe_backup_auto_folders m (backup_container m c));
        [intros; apply safe_backup_container | exact R].
    + simpl. apply IH.
      destruct (safe_backup_auto_folders m (backup_container m c)
                  (fun p l => safe_backup_container m c p l) s' R) as [_ Hh].
      unfold has_rsync. rewrite Hh. exact R.
Qed.

Lemma rsync_always_registered_witness :
  let r := __init__ "/srv/backups" 1 None (initial_state (mkFake [] [])) in
  has_rsync (local_manager 1) (snd r)
  /\ fst (call_rsync (local_manager 1) (PyPath.of_string "/data")
            (PyPath.of_string "/srv/backups/live-backup") None false false
            None (snd r))
     <> Raise AssertionError.
Proof.
  destruct (rsync_always_registered "/srv/backups" 1 None
              (initial_state (mkFake [] []))
              (snd (__init__ "/srv/backups" 1 None
                      (initial_state (mkFake [] []))))
              (local_manager 1)) as (H1 & H2 & _).
  - vm_compute; reflexivity.
  - split; [exact H1 | apply H2].
Defined.

(** C7. In a transfer with a link reference [ld], with rsync registered:
    when the manager has no remote host ([None], or the empty host, which
    the module treats alike), the command line carries
    [--link-dest=] followed by the resolved [ld], an absolute path; when it
    has a remote host, it carries [--link-dest=] followed by [ld] as
    given. *)
Theorem link_dest_resolved_iff_local
    {W} {os : OS W} (self : BackupManager) (src dest ld : Path)
    (sts dts : bool) (extra : option (list string)) (s : State W)
    (rsync : string) :
  PyDict.get "rsync" (heap s (exes self)) = Some rsync ->
  let s' := snd (call_rsync self src dest (Some ld) sts dts extra s) in
  (PyStr.opt_truthy (remote self) = false ->
   let argv := rsync_argv self rsync src dest
                 (Some (resolve ld (world s))) sts dts extra in
   commands (events s') = commands (events s) ++ [argv]
   /\ In ("--link-dest=" ++ str (resolve ld (world s)))%string argv
   /\ PyPath.is_absolute (resolve ld (world s)) = true)
  /\ (PyStr.opt_truthy (remote self) = true ->
      let argv := rsync_argv self rsync src dest (Some ld) sts dts extra in
      commands (events s') = commands (events s) ++ [argv]
      /\ In ("--link-dest=" ++ str ld)%string argv).
Proof.
  intros G s'. subst s'. rewrite call_rsync_spec, G. cbv zeta.
  cbn [snd events]. rewrite commands_app. cbn [commands flat_map app].
  unfold link_reference.
  split; intros R; rewrite R; (split; [reflexivity|]).
  - split; [|apply resolve_absolute].
    unfold rsync_argv. apply in_or_app. right. apply in_or_app. right.
    now left.
  - unfold rsync_argv. apply in_or_app. right. apply in_or_app. right.
    now left.
Qed.

Lemma link_dest_resolved_iff_local_witness :
  commands (events (snd (call_rsync (local_manager 1)
     (PyPath.of_string "/data/container/packs")
     (PyPath.of_string "/srv/backups/live-backup")
     (Some (PyPath.of_string "backups/backup_20240101000000_ab12"))
     false false None (fake_state (mkFake [] [])))))
  = [["rsync"; "-azh"; "-vv"; "--no-whole-file";
      "--link-dest=/cwd/backups/backup_20240101000000_ab12";
      "/data/container/packs"; "/srv/backups/live-backup"]]
  /\ commands (events (snd (call_rsync
     (mkManager "host:backups" 1 (Some "host") (PyPath.of_string "backups") 0)
     (PyPath.of_string "/data/container/packs")
     (PyPath.of_string "backups/live-backup")
     (Some (PyPath.of_string "backups/backup_20240101000000_ab12"))
     false false None (fake_state (mkFake [] [])))))
  = [["rsync"; "-azh"; "-vv"; "--no-whole-file";
      "--link-dest=backups/backup_20240101000000_ab12";
      "/data/container/packs"; "host:backups/live-backup"]].
Proof.
  split.
  - destruct (proj1 (link_dest_resolved_iff_local (local_manager 1)
             (PyPath.of_string "/data/container/packs")
             (PyPath.of_string "/srv/backups/live-backup")
             (PyPath.of_string "backups/backup_20240101000000_ab12")
             false false None (fake_state (mkFake [] [])) "rsync" eq_refl)
             eq_refl) as (H & _ & _).
    rewrite H. reflexivity.
  - destruct (proj2 (link_dest_resolved_iff_local
             (mkManager "host:backups" 1 (Some "host")
                (PyPath.of_string "backups") 0)
             (PyPath.of_string "/data/container/packs")
             (PyPath.of_string "backups/live-backup")
             (PyPath.of_string "backups/backup_20240101000000_ab12")
             false false None (fake_state (mkFake [] [])) "rsync" eq_refl)
             eq_refl) as (H & _).
    rewrite H. reflexivity.
Defined.

(** ** The order of the transfers of a container backup *)

Lemma steps_app a b : steps (a ++ b) = steps a ++ steps b.
Proof. apply flat_map_app. Qed.

Section OrderFacts.

Context {W : Type} {os : OS W}.

Lemma bind_inv {A B} (c : M W A) (k : A -> M W B) s r s' :
  bind c k s = (r, s') ->
  (exists a s1, c s = (Ok a, s1) /\ k a s1 = (r, s'))
  \/ (exists e, c s = (Raise e, s') /\ r = Raise e).
Proof.
  unfold bind. destruct (c s) as [[a|e] s1]; intros H.
  - left. now exists a, s1.
  - right. exists e. now injection H as <- <-.
Qed.

Lemma stepless_ret {A} (a : A) : stepless (W:=W) (ret a).
Proof. intros s r s' [= _ <-]. now split. Qed.

Lemma stepless_raise {A} e : stepless (W:=W) (@raise W A e).
Proof. intros s r s' [= _ <-]. now split. Qed.

Lemma stepless_log lvl msg : stepless (W:=W) (log lvl msg).
Proof.
  intros s r s' [= _ <-]. unfold add_event. cbn [events heap].
  rewrite steps_app. cbn. now rewrite app_nil_r.
Qed.

Lemma stepless_syscall {A} (f : W -> A * W) : stepless (W:=W) (syscall f).
Proof. intros s r s' [= _ <-]. now split. Qed.

Lemma stepless_observe {A} (f : W -> A) : stepless (W:=W) (observe f).
Proof. intros s r s' [= _ <-]. now split. Qed.

Lemma stepless_syscall_exn f : stepless (W:=W) (syscall_exn f).
Proof.
  intros s r s'. unfold syscall_exn.
  destruct (fst (f (world s))); intros [= _ <-]; now split.
Qed.

Lemma stepless_bind {A B} (c : M W A) (k : A -> M W B) :
  stepless (W:=W) c -> (forall a, stepless (W:=W) (k a)) ->
  stepless (W:=W) (bind c k).
Proof.
  intros Hc Hk s r s' H.
  apply bind_inv in H as [(a & s1 & H1 & H2) | (e & H1 & _)].
  - destruct (Hc _ _ _ H1) as [E1 F1]. destruct (Hk a _ _ _ H2) as [E2 F2].
    split; congruence.
  - exact (Hc _ _ _ H1).
Qed.

Lemma stepless_relative_to p q : stepless (W:=W) (relative_to (W:=W) p q).
Proof.
  unfold relative_to, lift_option.
  destruct (PyPath.relative_to p q); [apply stepless_ret | apply stepless_raise].
Qed.

Variables (self : BackupManager) (rsync : string).

(** With rsync registered, a call of [call_rsync] is one transfer, whether
    it succeeds or not. *)
Lemma call_rsync_steps path src ld sts extra (s s' : State W) r :
  PyDict.get "rsync" (heap s (exes self)) = Some rsync ->
  call_rsync self src path ld sts false extra s = (r, s') ->
  heap s' = heap s
  /\ exists st, transfer_of self rsync path src ld sts extra st
                /\ steps (events s') = steps (events s) ++ [st].
Proof.
  intros G. rewrite call_rsync_spec, G. cbv zeta. intros [= _ <-].
  split; [reflexivity|]. eexists. split; [exists (world s); reflexivity|].
  cbn [events]. rewrite steps_app. reflexivity.
Qed.

(** The dump of the index: one snapshot when it returns, at most one when
    it raises. *)
Lemma sqlite_backup_steps src dst (s s' : State W) r :
  _sqlite_backup src dst s = (r, s') ->
  heap s' = heap s
  /\ exists done,
       steps (events s') = steps (events s) ++ done
       /\ (done = [Snapshot (str src) (str dst)]
           \/ (done = [] /\ r <> Ok tt)).
Proof.
  unfold _sqlite_backup, with_connection, bind, syscall_exn, syscall, emit,
    ret, add_event, set_world.
  cbn [world heap next_ref events fst snd].
  repeat match goal with
         | |- context [match fst (?f ?w) with _ => _ end] =>
             destruct (fst (f w))
         end;
    intros [= <- <-]; cbn [heap events]; (split; [reflexivity|]);
    rewrite ?steps_app; cbn [steps flat_map app];
    first [ exists []; split; [now rewrite app_nil_r|];
            right; split; [reflexivity | discriminate]
          | eexists; split; [reflexivity|]; left; reflexivity ].
Qed.

(** The temporary directory adds no step of its own, and its removal does
    not change the outcome of the body. *)
Lemma with_temporary_directory_inv {A} (body : string -> M W A)
    (s s' : State W) r :
  with_temporary_directory body s = (r, s') ->
  exists s1 s2,
    body (fst (mkdtemp (world s))) s1 = (r, s2)
    /\ steps (events s1) = steps (events s) /\ heap s1 = heap s
    /\ steps (events s') = steps (events s2) /\ heap s' = heap s2.
Proof.
  unfold with_temporary_directory, bind, syscall, emit, finally, ret,
    add_event, set_world.
  cbn [world heap next_ref events fst snd].
  match goal with
  | |- context [body ?n ?st] => destruct (body n st) as [[a|e] s2] eqn:Eb
  end; intros [= <- <-]; eexists; exists s2; (split; [exact Eb|]);
    cbn [heap events]; rewrite !steps_app; cbn [steps flat_map];
    rewrite !app_nil_r; repeat split.
Qed.

End OrderFacts.

(** Put the equations on the steps of the successive states together. *)
Ltac chain_steps :=
  repeat match goal with
         | E : steps (events _) = _ |- _ => rewrite E; clear E
         end;
  rewrite <- ?app_assoc, ?app_nil_r; reflexivity.

(** Check each position of a list of at most five steps. *)
Ltac check_steps :=
  let Hn := fresh "Hn" in
  intros [|[|[|[|[|[|?]]]]]] ? Hn; cbn in Hn; try discriminate Hn;
  injection Hn as <-; cbn [step_ok]; eauto 8.

Ltac leaf w done :=
  exists w, done; cbv zeta;
  split; [chain_steps | split; [check_steps | intros; try discriminate]].

Section ContainerOrder.

Context {W : Type} {os : OS W}.

Variables (self : BackupManager) (c : Container) (path : Path)
          (prev : option Path) (rsync : string).

(** It is the snapshot, then the transfer of the dumped file. *)
Lemma dump_and_transfer_index_steps tmp (s s' : State W) r :
  PyDict.get "rsync" (heap s (exes self)) = Some rsync ->
  dump_and_transfer_index self c path prev tmp s = (r, s') ->
  heap s' = heap s
  /\ exists done,
       steps (events s') = steps (events s) ++ done
       /\ (done = []
           \/ done = [Snapshot (str (_get_pack_index_path c))
                        (str (temp_index tmp))]
           \/ exists st, transfer_of self rsync path (temp_index tmp) prev
                           false None st
                         /\ done = [Snapshot (str (_get_pack_index_path c))
                                      (str (temp_index tmp)); st])
       /\ (r = Ok tt -> length done = 2).
Proof.
  intros G H. unfold dump_and_transfer_index in H. cbv zeta in H.
  fold (temp_index tmp) in H.
  apply bind_inv in H as [(v1 & b1 & B1 & H) | (e & B1 & ->)].
  - apply sqlite_backup_steps in B1 as (G1 & d1 & D1 & [-> | [_ N]]);
      [|destruct v1; now contradiction N].
    apply bind_inv in H as [(isf & b2 & B2 & H) | (e & B2 & _)];
      [|discriminate B2].
    destruct (stepless_observe _ _ _ _ B2) as [D2 G2].
    apply bind_inv in H as [(v3 & b3 & B3 & H) | (e & B3 & ->)].
    + assert (D3 : steps (events b3) = steps (events b2)
                   /\ heap b3 = heap b2)
        by (destruct isf; [apply (stepless_log _ _ _ _ _ B3)
                          | apply (stepless_raise _ _ _ _ B3)]).
      destruct D3 as [D3 G3].
      apply bind_inv in H as [(v4 & b4 & B4 & H) | (e & B4 & ->)].
      * apply (call_rsync_steps self rsync) in B4
          as (G4 & st3 & T3 & D4); [|congruence].
        destruct (stepless_log _ _ _ _ _ H) as [D5 G5].
        split; [congruence|].
        exists [Snapshot (str (_get_pack_index_path c))
                  (str (temp_index tmp)); st3].
        split; [chain_steps|].
        split; [right; right; exists st3; now split | reflexivity].
      * apply (call_rsync_steps self rsync) in B4
          as (G4 & st3 & T3 & D4); [|congruence].
        split; [congruence|].
        exists [Snapshot (str (_get_pack_index_path c))
                  (str (temp_index tmp)); st3].
        split; [chain_steps|].
        split; [right; right; exists st3; now split | reflexivity].
    + assert (D3 : steps (events s') = steps (events b2)
                   /\ heap s' = heap b2)
        by (destruct isf; [apply (stepless_log _ _ _ _ _ B3)
                          | apply (stepless_raise _ _ _ _ B3)]).
      destruct D3 as [D3 G3].
      split; [congruence|].
      exists [Snapshot (str (_get_pack_index_path c))
                (str (temp_index tmp))].
      split; [chain_steps|].
      split; [right; left; reflexivity | discriminate].
  - apply sqlite_backup_steps in B1 as (G1 & d1 & D1 & [-> | [-> _]]).
    + split; [exact G1|]. eexists. split; [exact D1|].
      split; [right; left; reflexivity | discriminate].
    + split; [exact G1|]. exists []. split; [exact D1|].
      split; [left; reflexivity | discriminate].
Qed.

Lemma backup_container_steps (s s' : State W) r :
  PyDict.get "rsync" (heap s (exes self)) = Some rsync ->
  backup_container self c path prev s = (r, s') ->
  exists w done,
    let tmp := fst (mkdtemp w) in
    steps (events s') = steps (events s) ++ done
    /\ (forall i st, nth_error done i = Some st ->
                     step_ok self rsync c path prev tmp i st)
    /\ (r = Ok tt -> length done = 5).
Proof.
  intros G H. unfold backup_container in H. cbv zeta in H.
  (* the loose folder, relative to the root *)
  apply bind_inv in H as [(lrel & s0 & H0 & H) | (e & H0 & ->)].
  2:{ destruct (stepless_relative_to _ _ _ _ _ H0) as [E0 _].
      leaf (world s) (@nil Step). }
  destruct (stepless_relative_to _ _ _ _ _ H0) as [E0 F0].
  unfold relative_to, lift_option in H0.
  destruct (PyPath.relative_to (_get_loose_folder c) (get_folder c))
    as [lrel'|] eqn:Elrel; [|discriminate H0].
  injection H0 as -> _.
  replace (match prev with
           | Some pb => Some (pb // lrel)
           | None => None
           end) with (option_map (fun pb => pb // lrel) prev) in H
    by (now destruct prev).
  (* step 1: the loose files *)
  apply bind_inv in H as [(u1 & s1 & H1 & H) | (e & H1 & ->)];
    apply (call_rsync_steps self rsync) in H1
      as (F1 & st1 & T1 & E1); try congruence.
  2:{ leaf (world s) [st1]. }
  apply bind_inv in H as [(u2 & s2 & H2 & H) | (e & H2 & _)];
    [|discriminate H2].
  destruct (stepless_log _ _ _ _ _ H2) as [E2 F2].
  (* steps 2 and 3: the index, through a temporary directory *)
  set (tmp := fst (mkdtemp (world s2))).
  apply bind_inv in H as [(u3 & s3 & H3 & H) | (e & H3 & ->)];
    apply with_temporary_directory_inv in H3
      as (t1 & t2 & Hb & Et1 & Ft1 & Et2 & Ft2);
    fold tmp in Hb;
    change (dump_and_transfer_index self c path prev tmp t1 = (Ok u3, t2)) in Hb
    || change (dump_and_transfer_index self c path prev tmp t1 = (Raise e, t2)) in Hb;
    apply dump_and_transfer_index_steps in Hb
      as (Fb & db & Eb & Cb & Lb); try congruence.
  2:{ destruct Cb as [-> | [-> | (st3 & T3 & ->)]].
      - leaf (world s2) [st1].
      - leaf (world s2) [st1; Snapshot (str (_get_pack_index_path c))
                         (str (temp_index tmp))].
      - leaf (world s2) [st1; Snapshot (str (_get_pack_index_path c))
                         (str (temp_index tmp)); st3]. }
  destruct u3. specialize (Lb eq_refl).
  destruct Cb as [-> | [-> | (st3 & T3 & ->)]]; try discriminate Lb.
  clear Lb.
  (* step 4: the packs *)
  apply bind_inv in H as [(prel & s4 & H4 & H) | (e & H4 & ->)].
  2:{ destruct (stepless_relative_to _ _ _ _ _ H4) as [E4 _].
      leaf (world s2) [st1; Snapshot (str (_get_pack_index_path c))
                       (str (temp_index tmp)); st3]. }
  destruct (stepless_relative_to _ _ _ _ _ H4) as [E4 F4].
  unfold relative_to, lift_option in H4.
  destruct (PyPath.relative_to (_get_pack_folder c) (get_folder c))
    as [prel'|] eqn:Eprel; [|discriminate H4].
  injection H4 as -> _.
  apply bind_inv in H as [(u5 & s5 & H5 & H) | (e & H5 & ->)];
    apply (call_rsync_steps self rsync) in H5
      as (F5 & st4 & T4 & E5); try congruence.
  2:{ leaf (world s2) [st1; Snapshot (str (_get_pack_index_path c))
                       (str (temp_index tmp)); st3; st4]. }
  apply bind_inv in H as [(u6 & s6 & H6 & H) | (e & H6 & _)];
    [|discriminate H6].
  destruct (stepless_log _ _ _ _ _ H6) as [E6 F6].
  (* step 5: the rest of the container folder *)
  apply (call_rsync_steps self rsync) in H
    as (F7 & st5 & T5 & E7); [|congruence].
  exists (world s2),
    [st1; Snapshot (str (_get_pack_index_path c)) (str (temp_index tmp));
     st3; st4; st5].
  cbv zeta. split; [chain_steps | split; [check_steps | reflexivity]].
Qed.

End ContainerOrder.

(** *** The calls of a backup that returns *)

Lemma actions_app a b : actions (a ++ b) = actions a ++ actions b.
Proof. apply filter_app. Qed.

Section ContainerCalls.

Context {W : Type} {os : OS W}.

Variables (self : BackupManager) (c : Container) (path : Path)
          (prev : option Path) (rsync : string).

(** A transfer that returns: the command has run, with exit status 0. *)
Lemma call_rsync_returns src dest ld sts dts extra (s s' : State W) u :
  PyDict.get "rsync" (heap s (exes self)) = Some rsync ->
  call_rsync self src dest ld sts dts extra s = (Ok u, s') ->
  let argv := rsync_argv self rsync src dest
                (link_reference self ld (world s)) sts dts extra in
  let res := fst (subprocess_run argv (world s)) in
  returncode res = 0%Z
  /\ s' = mkState (snd (subprocess_run argv (world s))) (heap s) (next_ref s)
            (events s ++ [EvRun argv res;
                          EvLog DEBUG (CommandTrace argv res)]).
Proof.
  intros G. rewrite call_rsync_spec, G. cbv zeta.
  destruct (Z.eqb_spec (returncode (fst (subprocess_run
     (rsync_argv self rsync src dest (link_reference self ld (world s))
        sts dts extra) (world s)))) 0) as [Z0|NZ]; [|discriminate].
  intros [= _ <-]. now split.
Qed.

(** A dump that returns: the sqlite calls have been made, in order, and
    each has succeeded. *)
Lemma sqlite_backup_returns src dst (s s' : State W) u :
  _sqlite_backup src dst s = (Ok u, s') ->
  s' = mkState (dumped (str src) (str dst) (world s)) (heap s) (next_ref s)
         (events s ++ [EvSqliteBackup (str src) (str dst)]).
Proof.
  unfold _sqlite_backup, with_connection, bind, syscall_exn, syscall, emit,
    ret, add_event, set_world, dumped.
  cbn [world heap next_ref events fst snd].
  repeat match goal with
         | |- context [match fst (?f ?w) with _ => _ end] =>
             destruct (fst (f w))
         end;
    intros [= _ <-]; reflexivity.
Qed.

Lemma with_temporary_directory_returns {A} (body : string -> M W A)
    (s s' : State W) a :
  with_temporary_directory body s = (Ok a, s') ->
  let tmp := fst (mkdtemp (world s)) in
  exists s2,
    body tmp (tempdir_opened s) = (Ok a, s2)
    /\ s' = add_event (EvTempDirCleanup tmp)
              (set_world (rmtree tmp (world s2)) s2).
Proof.
  unfold with_temporary_directory, bind, syscall, emit, finally, ret,
    tempdir_opened.
  cbn [fst snd].
  match goal with
  | |- context [body ?n ?st] => destruct (body n st) as [[a'|e] s2] eqn:Eb
  end; intros [= <- <-]. cbv zeta. exists s2. now split.
Qed.

Lemma backup_container_returns (s s' : State W) u :
  PyDict.get "rsync" (heap s (exes self)) = Some rsync ->
  backup_container self c path prev s = (Ok u, s') ->
  exists lrel prel,
    PyPath.relative_to (_get_loose_folder c) (get_folder c) = Some lrel
    /\ PyPath.relative_to (_get_pack_folder c) (get_folder c) = Some prel
    /\ actions (events s')
       = actions (events s)
           ++ fst (calls_of_a_backup self rsync c path prev lrel prel
                     (world s))
    /\ world s'
       = snd (calls_of_a_backup self rsync c path prev lrel prel (world s)).
Proof.
  intros G H. unfold backup_container in H. cbv zeta in H.
  apply bind_inv in H as [(lrel & s0 & H0 & H) | (e & _ & [=])].
  unfold relative_to, lift_option in H0.
  destruct (PyPath.relative_to (_get_loose_folder c) (get_folder c))
    as [lrel'|] eqn:Elrel; [|discriminate H0].
  injection H0 as -> ->.
  replace (match prev with
           | Some pb => Some (pb // lrel)
           | None => None
           end) with (option_map (fun pb => pb // lrel) prev) in H
    by (now destruct prev).
  apply bind_inv in H as [(u1 & s1 & H1 & H) | (e & _ & [=])].
  apply call_rsync_returns in H1 as [_ ->]; [|exact G].
  apply bind_inv in H as [(u2 & s2 & H2 & H) | (e & _ & [=])].
  injection H2 as _ <-.
  apply bind_inv in H as [(u3 & s3 & H3 & H) | (e & _ & [=])].
  apply with_temporary_directory_returns in H3 as (t2 & Hb & ->).
  apply bind_inv in Hb as [(v1 & b1 & B1 & Hb) | (e & _ & [=])].
  apply sqlite_backup_returns in B1 as ->.
  apply bind_inv in Hb as [(isf & b2 & B2 & Hb) | (e & _ & [=])].
  injection B2 as _ <-.
  apply bind_inv in Hb as [(v3 & b3 & B3 & Hb) | (e & _ & [=])].
  destruct isf; [|discriminate B3]. injection B3 as _ <-.
  apply bind_inv in Hb as [(v4 & b4 & B4 & Hb) | (e & _ & [=])].
  apply call_rsync_returns in B4 as [_ ->]; [|exact G].
  injection Hb as _ <-.
  apply bind_inv in H as [(prel & s4 & H4 & H) | (e & _ & [=])].
  unfold relative_to, lift_option in H4.
  destruct (PyPath.relative_to (_get_pack_folder c) (get_folder c))
    as [prel'|] eqn:Eprel; [|discriminate H4].
  injection H4 as -> <-.
  apply bind_inv in H as [(u5 & s5 & H5 & H) | (e & _ & [=])].
  apply call_rsync_returns in H5 as [_ ->]; [|exact G].
  apply bind_inv in H as [(u6 & s6 & H6 & H) | (e & _ & [=])].
  injection H6 as _ <-.
  apply call_rsync_returns in H as [_ ->]; [|exact G].
  exists lrel, prel. split; [reflexivity|]. split; [reflexivity|].
  unfold calls_of_a_backup, tempdir_opened, add_event, set_world.
  cbn [world heap next_ref events fst snd].
  split; [|reflexivity].
  rewrite !actions_app. cbn [actions filter]. rewrite ?app_nil_r.
  rewrite <- !app_assoc. reflexivity.
Qed.

End ContainerCalls.

(** The temporary directory is removed when the block is left, whatever the
    body did: the index is dumped to a transient location. *)
Lemma with_temporary_directory_cleans
    {W} {os : OS W} {A} (body : string -> M W A) (s : State W) :
  exists evs,
    events (snd (with_temporary_directory body s))
    = evs ++ [EvTempDirCleanup (fst (mkdtemp (world s)))].
Proof.
  unfold with_temporary_directory, bind, syscall, emit, finally, ret,
    add_event, set_world.
  cbn [world heap next_ref events fst snd].
  match goal with
  | |- context [body ?n ?st] => destruct (body n st) as [[a|e] s2]
  end; cbn [snd events]; eexists; reflexivity.
Qed.

(** C1. With rsync registered, the steps of [backup_container] that move
    data are, in this order: the transfer of the loose folder, with link
    reference the loose folder of the previous backup when there is one and
    none otherwise; the snapshot of the sqlite index, by
    [Connection.backup], into [packs.idx] in a temporary directory; the
    transfer of that file, then of the pack folder, both with link reference
    the previous backup; the transfer of the contents of the container
    folder, with link reference the previous backup and the three excludes.
    A run that raises has made the first ones of these steps, in this order,
    and nothing else.  A run that returns has made the five steps, and what
    it has done to the system is exactly this, each call made in the world
    the one before has left: rsync on the loose folder; the creation of the
    temporary directory; the sqlite calls of the snapshot (both connections
    opened, the backup, its commit, both connections closed); rsync on the
    dumped file; the removal of the temporary directory; rsync on the pack
    folder; rsync on the container folder. *)
Theorem backup_container_order
    {W} {os : OS W} (self : BackupManager) (c : Container) (path : Path)
    (prev : option Path) (s : State W) (rsync : string) :
  PyDict.get "rsync" (heap s (exes self)) = Some rsync ->
  let r := backup_container self c path prev s in
  exists w done,
    let tmp := fst (mkdtemp w) in
    steps (events (snd r)) = steps (events s) ++ done
    /\ (forall i st, nth_error done i = Some st ->
                     step_ok self rsync c path prev tmp i st)
    /\ (fst r = Ok tt ->
        length done = 5
        /\ exists lrel prel,
             PyPath.relative_to (_get_loose_folder c) (get_folder c)
             = Some lrel
             /\ PyPath.relative_to (_get_pack_folder c) (get_folder c)
                = Some prel
             /\ let calls := calls_of_a_backup self rsync c path prev
                               lrel prel (world s) in
                actions (events (snd r)) = actions (events s) ++ fst calls
                /\ world (snd r) = snd calls).
Proof.
  intros G r. subst r.
  destruct (backup_container self c path prev s) as [r s'] eqn:E.
  destruct (backup_container_steps self c path prev rsync s s' r G E)
    as (w & done & S1 & S2 & S3).
  exists w, done. cbv zeta. split; [exact S1|]. split; [exact S2|].
  cbn [fst snd]. intros ->. split; [now apply S3|].
  exact (backup_container_returns self c path prev rsync s s' tt G E).
Qed.

Example backup_container_run :
  steps (events (snd (backup_container (local_manager 1) a_container
      (PyPath.of_string "/srv/backups/live-backup")
      (Some (PyPath.of_string "/srv/backups/backup_20240101000000_ab12"))
      (fake_state (mkFake [] [])))))
  = [Transfer ["rsync"; "-azh"; "-vv"; "--no-whole-file";
       "--link-dest=/srv/backups/backup_20240101000000_ab12/loose";
       "/data/container/loose"; "/srv/backups/live-backup"];
     Snapshot "/data/container/packs.idx" "/tmp/tmpab12cd/packs.idx";
     Transfer ["rsync"; "-azh"; "-vv"; "--no-whole-file";
       "--link-dest=/srv/backups/backup_20240101000000_ab12";
       "/tmp/tmpab12cd/packs.idx"; "/srv/backups/live-backup"];
     Transfer ["rsync"; "-azh"; "-vv"; "--no-whole-file";
       "--link-dest=/srv/backups/backup_20240101000000_ab12";
       "/data/container/packs"; "/srv/backups/live-backup"];
     Transfer ["rsync"; "-azh"; "-vv"; "--no-whole-file";
       "--exclude"; "loose"; "--exclude"; "packs.idx"; "--exclude"; "packs";
       "--link-dest=/srv/backups/backup_20240101000000_ab12";
       "/data/container/"; "/srv/backups/live-backup"]].
Proof. vm_compute. reflexivity. Qed.

Lemma backup_container_order_witness :
  let s := mkState (@nil string) (fun _ => [("rsync", "rsync")]) 1 [] in
  let r := backup_container (os:=JournalOS) (local_manager 1) a_container
             (PyPath.of_string "/srv/backups/live-backup")
             (Some (PyPath.of_string "/srv/backups/backup_20240101000000_ab12"))
             s in
  length (steps (events (snd r))) = 5
  /\ world (snd r)
     = ["rsync -azh -vv --no-whole-file --link-dest=/srv/backups/backup_20240101000000_ab12/loose /data/container/loose /srv/backups/live-backup";
        "mkdtemp";
        "connect /data/container/packs.idx";
        "connect /tmp/tmpab12cd/packs.idx";
        "backup /data/container/packs.idx /tmp/tmpab12cd/packs.idx";
        "commit /tmp/tmpab12cd/packs.idx";
        "close /tmp/tmpab12cd/packs.idx";
        "close /data/container/packs.idx";
        "rsync -azh -vv --no-whole-file --link-dest=/srv/backups/backup_20240101000000_ab12 /tmp/tmpab12cd/packs.idx /srv/backups/live-backup";
        "rmtree /tmp/tmpab12cd";
        "rsync -azh -vv --no-whole-file --link-dest=/srv/backups/backup_20240101000000_ab12 /data/container/packs /srv/backups/live-backup";
        "rsync -azh -vv --no-whole-file --exclude loose --exclude packs.idx --exclude packs --link-dest=/srv/backups/backup_20240101000000_ab12 /data/container/ /srv/backups/live-backup"].
Proof.
  intros s r.
  destruct (backup_container_order (os:=JournalOS) (local_manager 1)
              a_container (PyPath.of_string "/srv/backups/live-backup")
              (Some (PyPath.of_string
                       "/srv/backups/backup_20240101000000_ab12"))
              s "rsync" eq_refl)
    as (w & done & E & _ & L).
  destruct L as (L & lrel & prel & Hl & Hp & _ & Hw);
    [vm_compute; reflexivity|].
  fold r in E, Hw. split.
  - rewrite E. exact L.
  - rewrite Hw. vm_compute in Hl, Hp.
    injection Hl as <-. injection Hp as <-. vm_compute. reflexivity.
Defined.

(** * Further properties of the module *)

(** ** More on the construction of a manager *)

Section ConstructionCases.

Context {W : Type} {os : OS W}.

(** The loop over the registry looks, and changes nothing. *)
Lemma check_exes_state d (s s' : State W) r :
  for_each d check_exe s = (r, s') -> s' = s.
Proof.
  revert s s' r. induction d as [|[k p] d IH]; intros s s' r H.
  - now injection H as _ <-.
  - simpl in H. unfold bind at 1 in H.
    unfold check_exe, bind, is_exe_found, observe in H.
    destruct (which p (world s)); simpl in H.
    + now apply IH in H.
    + now injection H as _ <-.
Qed.

(** It stops at the first executable that is not found. *)
Lemma check_exes_missing pre k p post (s : State W) :
  executables_found pre (world s) ->
  which p (world s) = None ->
  for_each (pre ++ (k, p) :: post) check_exe s
  = (Raise (ValueError ("Input validation failed: " ++ p
                          ++ " not accessible.")), s).
Proof.
  induction pre as [|[k' p'] pre IH]; intros F N.
  - simpl. unfold bind at 1. unfold check_exe, bind, is_exe_found, observe.
    now rewrite N.
  - simpl. unfold bind at 1. unfold check_exe at 1.
    unfold bind, is_exe_found, observe.
    destruct (which p' (world s)) eqn:Ew.
    + simpl. apply IH; [|exact N].
      intros k0 p0 Hin. apply (F k0 p0). now right.
    + exfalso. apply (F k' p'); [now left | exact Ew].
Qed.

Lemma remote_checked_world self (s : State W) :
  world (remote_checked self s)
  = world_after_remote_check (remote self) (world s).
Proof.
  unfold remote_checked, world_after_remote_check.
  now destruct (PyStr.opt_truthy (remote self)).
Qed.

Lemma remote_checked_heap self (s : State W) :
  heap (remote_checked self s) = heap s.
Proof.
  unfold remote_checked. now destruct (PyStr.opt_truthy (remote self)).
Qed.

Lemma remote_checked_commands self (s : State W) :
  commands (events (remote_checked self s))
  = commands (events s)
      ++ (if PyStr.opt_truthy (remote self)
          then [cmd_argv self ["exit"]] else []).
Proof.
  unfold remote_checked.
  destruct (PyStr.opt_truthy (remote self)); [|now rewrite app_nil_r].
  cbv zeta. rewrite commands_add_log, commands_after_cmd, commands_add_log.
  reflexivity.
Qed.

(** A failed check of the remote host ends the validation. *)
Lemma validate_remote_fails self (s : State W) h :
  (0 <= keep self)%Z ->
  remote self = Some h -> PyStr.truthy h = true ->
  returncode (fst (subprocess_run ["ssh"; h; "exit"] (world s))) <> 0%Z ->
  exists s',
    validate self s
    = (Raise (BackupError ("Remote '" ++ h ++ "' is not accessible!")), s')
    /\ commands (events s') = commands (events s) ++ [["ssh"; h; "exit"]]
    /\ world s' = snd (subprocess_run ["ssh"; h; "exit"] (world s)).
Proof.
  intros K R T N. unfold validate. unfold bind at 1.
  destruct (Z.ltb_spec (keep self) 0) as [L | _]; [lia|].
  unfold ret at 1. unfold bind at 1.
  rewrite R. cbn [PyStr.opt_truthy]. rewrite T.
  unfold check_if_remote_accessible. rewrite R.
  unfold bind at 1. unfold log at 1, emit at 1.
  unfold bind at 1. rewrite run_cmd_spec.
  assert (A : cmd_argv self ["exit"] = ["ssh"; h; "exit"])
    by (unfold cmd_argv, remote_argv; now rewrite R, T).
  unfold cmd_reply. rewrite A. cbn [add_event world].
  apply Z.eqb_neq in N. rewrite N. cbn [negb]. cbv iota.
  unfold bind at 1. unfold raise at 1.
  eexists. split; [reflexivity|]. split.
  - rewrite commands_after_cmd, A. unfold add_event. cbn [events].
    rewrite commands_app. cbn. now rewrite app_nil_r.
  - unfold after_cmd. cbn [world]. now rewrite A.
Qed.

(** The validation from the check of the executables on, once [keep] and
    the remote host have passed. *)
Lemma validate_after_remote self (s : State W) :
  (0 <= keep self)%Z ->
  (PyStr.opt_truthy (remote self) = true ->
   returncode (fst (subprocess_run (remote_argv (remote self) ["exit"])
                      (world s))) = 0%Z) ->
  validate self s
  = let s1 := remote_checked self s in
    match for_each (heap s (exes self)) check_exe s1 with
    | (Raise e, s2) => (Raise e, s2)
    | (Ok _, s2) =>
        let test := ["["; "-e"; str (path self); "]"] in
        let mkdir := ["mkdir"; str (path self)] in
        if (returncode (cmd_reply self test s2) =? 0)%Z
        then (Ok self, after_cmd self test s2)
        else if (returncode (cmd_reply self mkdir (after_cmd self test s2))
                 =? 0)%Z
             then (Ok self, after_cmd self mkdir (after_cmd self test s2))
             else (Raise (ValueError
                     ("Input validation failed: Couldn't access/create '"
                        ++ str (path self) ++ "'!")),
                   after_cmd self mkdir (after_cmd self test s2))
    end.
Proof.
  intros K H. unfold validate. unfold bind at 1.
  destruct (Z.ltb_spec (keep self) 0) as [L | _]; [lia|].
  unfold ret at 1. unfold bind at 1.
  assert (R : (if PyStr.opt_truthy (remote self)
               then check_if_remote_accessible self
               else ret tt) s = (Ok tt, remote_checked self s)).
  { unfold remote_checked.
    destruct (PyStr.opt_truthy (remote self)); [|reflexivity].
    specialize (H eq_refl). unfold check_if_remote_accessible.
    unfold bind at 1. unfold log at 1, emit at 1.
    unfold bind at 1. rewrite run_cmd_spec.
    unfold cmd_reply, cmd_argv. cbn [add_event world].
    rewrite H. reflexivity. }
  rewrite R. cbv zeta.
  unfold bind at 1. unfold deref at 1. unfold bind at 1.
  rewrite remote_checked_heap.
  assert (L : (if PyDict.truthy (heap s (exes self))
               then for_each (heap s (exes self)) check_exe
               else ret tt) (remote_checked self s)
              = for_each (heap s (exes self)) check_exe
                  (remote_checked self s))
    by (now destruct (heap s (exes self))).
  rewrite L.
  destruct (for_each (heap s (exes self)) check_exe (remote_checked self s))
    as [[u|e] s2]; [|reflexivity].
  unfold check_path_exists, bind, ret. rewrite run_cmd_spec.
  destruct (returncode (cmd_reply self ["["; "-e"; str (path self); "]"] s2)
            =? 0)%Z; cbn [negb]; cbv beta iota; [reflexivity|].
  rewrite run_cmd_spec.
  now destruct (returncode _ =? 0)%Z.
Qed.

(** [__init__] puts the registry in place and touches no other dict. *)
Lemma init_registry_heap dest keep exes remote path (s : State W) :
  split_remote_and_path dest = Ok (remote, path) ->
  exists s0,
    world s0 = world s /\ events s0 = events s
    /\ (forall r, heap s0 r = if (r =? registry_ref exes s)%nat
                              then registry exes s else heap s r)
    /\ __init__ dest keep exes s
       = validate (mkManager dest keep remote path (registry_ref exes s)) s0.
Proof.
  intros E. unfold __init__. rewrite E.
  destruct exes as [r|]; unfold registry, registry_ref.
  - unfold bind at 1. unfold ret at 1. unfold bind at 1. unfold deref at 1.
    unfold bind at 1.
    destruct (PyDict.mem "rsync" (heap s r)) eqn:Em; cbn [negb]; cbv iota.
    + exists s. split; [reflexivity|]. split; [reflexivity|].
      split; [|reflexivity]. intros r0.
      destruct (Nat.eqb_spec r0 r) as [-> |]; reflexivity.
    + eexists. split; [|split; [|split]]; [| | | reflexivity];
        simpl; reflexivity.
  - unfold bind at 1. unfold new_dict at 1. unfold bind at 1.
    unfold deref at 1. cbn [heap next_ref]. rewrite Nat.eqb_refl.
    unfold bind at 1. cbn [negb PyDict.mem PyDict.get]. cbv iota.
    eexists. split; [|split; [|split]]; [| | | reflexivity];
      simpl; try reflexivity. intros r0. rewrite Nat.eqb_refl.
    destruct (Nat.eqb_spec r0 (next_ref s)) as [-> |]; reflexivity.
Qed.

(** The commands of a validation that passes. *)
Lemma validate_commands self (s s' : State W) m :
  validate self s = (Ok m, s') ->
  let w1 := world_after_remote_check (remote self) (world s) in
  let test := cmd_argv self ["["; "-e"; str (path self); "]"] in
  commands (events s')
  = commands (events s)
      ++ (if PyStr.opt_truthy (remote self)
          then [cmd_argv self ["exit"]] else [])
      ++ test
      :: (if (returncode (fst (subprocess_run test w1)) =? 0)%Z then []
          else [cmd_argv self ["mkdir"; str (path self)]]).
Proof.
  intros H w1 test.
  assert (K : (0 <= keep self)%Z).
  { destruct (Z.ltb_spec (keep self) 0) as [L | G]; [|exact G].
    exfalso. revert H. unfold validate, bind.
    apply Z.ltb_lt in L. rewrite L. discriminate. }
  assert (R : PyStr.opt_truthy (remote self) = true ->
              returncode (fst (subprocess_run
                                 (remote_argv (remote self) ["exit"])
                                 (world s))) = 0%Z).
  { intros T.
    destruct (Z.eq_dec (returncode (fst (subprocess_run
                (remote_argv (remote self) ["exit"]) (world s)))) 0)
      as [Z0 | NZ]; [exact Z0 | exfalso].
    destruct (remote self) as [h|] eqn:Er; [|discriminate T].
    cbn [PyStr.opt_truthy] in T.
    unfold remote_argv in NZ. rewrite T in NZ.
    destruct (validate_remote_fails self s h K Er T NZ) as (s1 & V & _).
    rewrite V in H. discriminate H. }
  rewrite (validate_after_remote self s K R) in H. cbv zeta in H.
  destruct (for_each (heap s (exes self)) check_exe (remote_checked self s))
    as [[u|e] s2] eqn:Ef; [|discriminate H].
  apply check_exes_state in Ef. subst s2.
  unfold cmd_reply in H. rewrite remote_checked_world in H.
  fold w1 in H. fold test in H.
  destruct (returncode (fst (subprocess_run test w1)) =? 0)%Z.
  - injection H as _ <-.
    rewrite commands_after_cmd, remote_checked_commands.
    now rewrite <- app_assoc.
  - destruct (returncode _ =? 0)%Z; [|discriminate H].
    injection H as _ <-.
    rewrite !commands_after_cmd, remote_checked_commands.
    now rewrite <- !app_assoc.
Qed.

(** A path that is not there and cannot be created ends the validation. *)
Lemma validate_mkdir_fails self (s : State W) :
  (0 <= keep self)%Z ->
  (PyStr.opt_truthy (remote self) = true ->
   returncode (fst (subprocess_run (remote_argv (remote self) ["exit"])
                      (world s))) = 0%Z) ->
  let w1 := world_after_remote_check (remote self) (world s) in
  let test := cmd_argv self ["["; "-e"; str (path self); "]"] in
  let mkdir := cmd_argv self ["mkdir"; str (path self)] in
  executables_found (heap s (exes self)) w1 ->
  returncode (fst (subprocess_run test w1)) <> 0%Z ->
  returncode (fst (subprocess_run mkdir (snd (subprocess_run test w1))))
  <> 0%Z ->
  exists s',
    validate self s
    = (Raise (ValueError
                ("Input validation failed: Couldn't access/create '"
                   ++ str (path self) ++ "'!")), s').
Proof.
  intros K R w1 test mkdir F N1 N2.
  rewrite validate_after_remote by assumption. cbv zeta.
  rewrite check_exes_found by (rewrite remote_checked_world; exact F).
  unfold cmd_reply, after_cmd. cbn [world].
  rewrite remote_checked_world. fold w1. fold test. fold mkdir.
  apply Z.eqb_neq in N1, N2. rewrite N1, N2.
  eexists. reflexivity.
Qed.

End ConstructionCases.

Lemma get_set_other k k' v d :
  k <> k' -> PyDict.get k (PyDict.set k' v d) = PyDict.get k d.
Proof.
  intros N. induction d as [|[k0 v0] d IH]; simpl.
  - destruct (String.eqb_spec k' k); [congruence | reflexivity].
  - destruct (String.eqb_spec k0 k') as [-> | N0]; simpl.
    + destruct (String.eqb_spec k' k); [congruence | reflexivity].
    + destruct (String.eqb_spec k0 k); [reflexivity | exact IH].
Qed.

(** X1. With [keep >= 0] and a destination [host:path], when [ssh host exit]
    fails, [__init__] raises the [BackupError] for an inaccessible remote;
    that command is the only one it has run: no executable has been looked
    for and the path has been neither tested nor created. *)
Theorem init_unreachable_remote
    {W} {os : OS W} (dest : string) (keep : Z) (exes : option nat)
    (s : State W) (h : string) (path : Path) :
  split_remote_and_path dest = Ok (Some h, path) ->
  PyStr.truthy h = true ->
  (0 <= keep)%Z ->
  returncode (fst (subprocess_run ["ssh"; h; "exit"] (world s))) <> 0%Z ->
  exists s',
    __init__ dest keep exes s
    = (Raise (BackupError ("Remote '" ++ h ++ "' is not accessible!")), s')
    /\ commands (events s') = commands (events s) ++ [["ssh"; h; "exit"]]
    /\ world s' = snd (subprocess_run ["ssh"; h; "exit"] (world s)).
Proof.
  intros E T K N.
  destruct (init_registry dest keep exes (Some h) path s E)
    as (s0 & W0 & E0 & _ & ->).
  rewrite <- W0, <- E0.
  apply validate_remote_fails; simpl; try assumption; try reflexivity.
  now rewrite W0.
Qed.

Lemma init_unreachable_remote_witness :
  exists s',
    __init__ "host:backups" 1 None (initial_state (mkFake [exit_failed] []))
    = (Raise (BackupError "Remote 'host' is not accessible!"), s')
    /\ commands (events s') = [["ssh"; "host"; "exit"]].
Proof.
  destruct (init_unreachable_remote "host:backups" 1 None
              (initial_state (mkFake [exit_failed] [])) "host"
              (PyPath.of_string "backups"))
    as (s' & H & C & _).
  - reflexivity.
  - reflexivity.
  - lia.
  - vm_compute. discriminate.
  - exists s'. split; [exact H | exact C].
Defined.

(** X2. With [keep >= 0], a destination that parses and a remote host, if
    any, that answers: when an executable of the registry is not on the
    PATH, [__init__] raises the [ValueError] that names the first such
    executable in the order of the registry, and the path of the
    destination has been neither tested nor created. *)
Theorem init_missing_executable
    {W} {os : OS W} (dest : string) (keep : Z) (exes : option nat)
    (s : State W) (remote : option string) (path : Path)
    (pre post : PyDict.t) (k p : string) :
  split_remote_and_path dest = Ok (remote, path) ->
  (0 <= keep)%Z ->
  (PyStr.opt_truthy remote = true ->
   returncode (fst (subprocess_run (remote_argv remote ["exit"]) (world s)))
   = 0%Z) ->
  registry exes s = pre ++ (k, p) :: post ->
  executables_found pre (world_after_remote_check remote (world s)) ->
  which p (world_after_remote_check remote (world s)) = None ->
  exists s',
    __init__ dest keep exes s
    = (Raise (ValueError ("Input validation failed: " ++ p
                            ++ " not accessible.")), s')
    /\ world s' = world_after_remote_check remote (world s)
    /\ commands (events s')
       = commands (events s)
           ++ (if PyStr.opt_truthy remote
               then [remote_argv remote ["exit"]] else []).
Proof.
  intros E K R Hreg F N.
  destruct (init_registry dest keep exes remote path s E)
    as (s0 & W0 & E0 & H0 & ->).
  set (self := mkManager dest keep remote path (registry_ref exes s)).
  rewrite validate_after_remote; [| exact K | simpl; now rewrite W0].
  cbv zeta.
  match goal with
  | |- context [heap s0 ?r] => change r with (registry_ref exes s)
  end.
  rewrite H0, Hreg.
  rewrite check_exes_missing;
    [| rewrite remote_checked_world, W0; exact F
     | rewrite remote_checked_world, W0; exact N].
  eexists. split; [reflexivity|]. split.
  - now rewrite remote_checked_world, W0.
  - now rewrite remote_checked_commands, E0.
Qed.

Lemma init_missing_executable_witness :
  exists s',
    __init__ "/srv/backups" 1 None (initial_state (mkFake [] ["rsync"]))
    = (Raise (ValueError "Input validation failed: rsync not accessible."),
       s')
    /\ commands (events s') = [].
Proof.
  destruct (init_missing_executable "/srv/backups" 1 None
              (initial_state (mkFake [] ["rsync"])) None
              (PyPath.of_string "/srv/backups") [] [] "rsync" "rsync")
    as (s' & H & _ & C).
  - reflexivity.
  - lia.
  - discriminate.
  - reflexivity.
  - intros k p [].
  - reflexivity.
  - exists s'. split; [exact H | exact C].
Defined.

(** X3. When [__init__] returns a manager, the commands it has run are: the
    check of the remote host, when there is one; the test that the path of
    the destination exists; and [mkdir] of that path exactly when the test
    failed.  An existing destination is never created again. *)
Theorem init_creates_path_on_demand
    {W} {os : OS W} (dest : string) (keep : Z) (exes : option nat)
    (s s' : State W) (m : BackupManager) :
  __init__ dest keep exes s = (Ok m, s') ->
  let w1 := world_after_remote_check (remote m) (world s) in
  let test := cmd_argv m ["["; "-e"; str (path m); "]"] in
  commands (events s')
  = commands (events s)
      ++ (if PyStr.opt_truthy (remote m) then [cmd_argv m ["exit"]] else [])
      ++ test
      :: (if (returncode (fst (subprocess_run test w1)) =? 0)%Z then []
          else [cmd_argv m ["mkdir"; str (path m)]]).
Proof.
  intros H.
  destruct (split_remote_and_path dest) as [[remote path]|e] eqn:E;
    [| unfold __init__ in H; rewrite E in H; discriminate H].
  destruct (init_registry dest keep exes remote path s E)
    as (s0 & W0 & E0 & H0 & Hv).
  rewrite Hv in H. clear Hv.
  pose proof (validate_returns_self _ _ _ _ H) as ->.
  apply validate_commands in H. rewrite W0, E0 in H. exact H.
Qed.

Lemma init_creates_path_on_demand_witness :
  commands (events (snd (__init__ "host:backups" 1 None
     (initial_state (mkFake [exit_ok; exit_failed; exit_ok] [])))))
  = [["ssh"; "host"; "exit"];
     ["ssh"; "host"; "["; "-e"; "backups"; "]"];
     ["ssh"; "host"; "mkdir"; "backups"]]
  /\ commands (events (snd (__init__ "host:backups" 1 None
     (initial_state (mkFake [exit_ok; exit_ok] [])))))
  = [["ssh"; "host"; "exit"];
     ["ssh"; "host"; "["; "-e"; "backups"; "]"]].
Proof.
  split.
  - rewrite (init_creates_path_on_demand "host:backups" 1 None
               (initial_state (mkFake [exit_ok; exit_failed; exit_ok] []))
               _ (mkManager "host:backups" 1 (Some "host")
                    (PyPath.of_string "backups") 0))
      by (vm_compute; reflexivity).
    reflexivity.
  - rewrite (init_creates_path_on_demand "host:backups" 1 None
               (initial_state (mkFake [exit_ok; exit_ok] []))
               _ (mkManager "host:backups" 1 (Some "host")
                    (PyPath.of_string "backups") 0))
      by (vm_compute; reflexivity).
    reflexivity.
Defined.

(** X4. With [keep >= 0], a destination that parses, a remote host, if
    any, that answers and every executable of the registry on the PATH:
    when the test of the path fails and [mkdir] fails too, [__init__]
    raises the [ValueError] that names the path. *)
Theorem init_mkdir_fails
    {W} {os : OS W} (dest : string) (keep : Z) (exes : option nat)
    (s : State W) (remote : option string) (path : Path) :
  split_remote_and_path dest = Ok (remote, path) ->
  (0 <= keep)%Z ->
  (PyStr.opt_truthy remote = true ->
   returncode (fst (subprocess_run (remote_argv remote ["exit"]) (world s)))
   = 0%Z) ->
  let w1 := world_after_remote_check remote (world s) in
  let test := remote_argv remote ["["; "-e"; str path; "]"] in
  let mkdir := remote_argv remote ["mkdir"; str path] in
  executables_found (registry exes s) w1 ->
  returncode (fst (subprocess_run test w1)) <> 0%Z ->
  returncode (fst (subprocess_run mkdir (snd (subprocess_run test w1))))
  <> 0%Z ->
  exists s',
    __init__ dest keep exes s
    = (Raise (ValueError
                ("Input validation failed: Couldn't access/create '"
                   ++ str path ++ "'!")), s').
Proof.
  intros E K R w1 test mkdir F N1 N2.
  destruct (init_registry dest keep exes remote path s E)
    as (s0 & W0 & E0 & H0 & ->).
  apply validate_mkdir_fails; simpl; rewrite ?W0, ?H0; assumption.
Qed.

Lemma init_mkdir_fails_witness :
  exists s',
    __init__ "/srv/backups" 1 None
      (initial_state (mkFake [exit_failed; exit_failed] []))
    = (Raise (ValueError
         "Input validation failed: Couldn't access/create '/srv/backups'!"),
       s').
Proof.
  apply (init_mkdir_fails "/srv/backups" 1 None
           (initial_state (mkFake [exit_failed; exit_failed] [])) None
           (PyPath.of_string "/srv/backups")).
  - reflexivity.
  - lia.
  - discriminate.
  - intros k p [E | []]. injection E as _ <-. discriminate.
  - vm_compute. discriminate.
  - vm_compute. discriminate.
Defined.

(** X5. [__init__] works on the dict it is given, not on a copy.  Whenever
    the destination parses, and whatever the outcome of the validation, the
    caller's dict holds rsync afterwards: an entry for rsync the caller had
    put there is kept and the dict is unchanged, otherwise rsync is added
    and every other key keeps its value; no other dict is touched. *)
Theorem init_updates_callers_dict
    {W} {os : OS W} (dest : string) (keep : Z) (r : nat)
    (s : State W) (remote : option string) (path : Path) :
  split_remote_and_path dest = Ok (remote, path) ->
  let s' := snd (__init__ dest keep (Some r) s) in
  PyDict.mem "rsync" (heap s' r) = true
  /\ (PyDict.mem "rsync" (heap s r) = true -> heap s' r = heap s r)
  /\ (forall k, k <> "rsync" ->
                PyDict.get k (heap s' r) = PyDict.get k (heap s r))
  /\ (forall r', r' <> r -> heap s' r' = heap s r').
Proof.
  intros E s'. subst s'.
  destruct (init_registry_heap dest keep (Some r) remote path s E)
    as (s0 & _ & _ & H0 & ->).
  destruct (quiet_validate (mkManager dest keep remote path
                              (registry_ref (Some r) s)) s0) as [_ Hq].
  rewrite Hq. cbn [registry_ref] in H0.
  split; [| split; [| split]].
  - rewrite H0, Nat.eqb_refl. apply registry_has_rsync.
  - intros M. rewrite H0, Nat.eqb_refl. unfold registry. now rewrite M.
  - intros k N. rewrite H0, Nat.eqb_refl. unfold registry. cbv zeta.
    destruct (PyDict.mem "rsync" (heap s r)); [reflexivity|].
    now apply get_set_other.
  - intros r' N. rewrite H0.
    destruct (Nat.eqb_spec r' r); [contradiction | reflexivity].
Qed.

Lemma init_updates_callers_dict_witness :
  let s := mkState (mkFake [] []) (fun _ => [("ssh", "/opt/bin/ssh")]) 1 [] in
  heap (snd (__init__ "/srv/backups" (-1) (Some 0) s)) 0
  = [("ssh", "/opt/bin/ssh"); ("rsync", "rsync")]
  /\ PyDict.mem "rsync"
       (heap (snd (__init__ "/srv/backups" (-1) (Some 0) s)) 0) = true.
Proof.
  intros s. split; [reflexivity|].
  apply (init_updates_callers_dict "/srv/backups" (-1) 0 s None
           (PyPath.of_string "/srv/backups")).
  reflexivity.
Defined.

(** X6. A destination that starts with a colon gives a manager with the
    empty host, and such a manager works locally: [run_cmd] runs the very
    command it is given, not through ssh, and [call_rsync] runs rsync with
    the link reference resolved and with the bare path as its target. *)
Theorem empty_host_is_local
    {W} {os : OS W} (t : string) (keep : Z) (given : option nat)
    (s s' : State W) (m : BackupManager) :
  __init__ (String ":" t) keep given s = (Ok m, s') ->
  remote m = Some ""
  /\ path m = PyPath.of_string t
  /\ (forall args (st : State W),
        let res := fst (subprocess_run args (world st)) in
        run_cmd m args st
        = (Ok ((returncode res =? 0)%Z, stdout res),
           mkState (snd (subprocess_run args (world st))) (heap st)
             (next_ref st)
             (events st ++ [EvRun args res;
                            EvLog DEBUG (CommandTrace args res)])))
  /\ (forall src dst ld sts dts extra (st : State W) rsync,
        PyDict.get "rsync" (heap st (exes m)) = Some rsync ->
        commands (events (snd (call_rsync m src dst (Some ld) sts dts extra
                                 st)))
        = commands (events st)
            ++ [[rsync; "-azh"; "-vv"; "--no-whole-file"]
                  ++ match extra with Some l => l | None => [] end
                  ++ [("--link-dest=" ++ str (resolve ld (world st)))%string;
                      if sts then (str src ++ "/")%string else str src;
                      if dts then (str dst ++ "/")%string else str dst]]).
Proof.
  intros H.
  destruct (split_remote_and_path (String ":" t)) as [[remote path]|e] eqn:E;
    [| unfold __init__ in H; rewrite E in H; discriminate H].
  destruct (init_registry (String ":" t) keep given remote path s E)
    as (s0 & _ & _ & _ & Hv).
  rewrite Hv in H. apply validate_returns_self in H. subst m.
  assert (R : remote = Some "" /\ path = PyPath.of_string t).
  { revert E. unfold split_remote_and_path. simpl.
    pose proof (split_length ":" t) as L.
    pose proof (split_no_sep ":" t) as S0.
    destruct (PyStr.split ":" t) as [|x [|y l]]; try discriminate.
    intros [= <- <-]. split; [reflexivity|].
    f_equal. simpl in L. assert (C : PyStr.count ":" t = 0) by lia.
    specialize (S0 C). now injection S0 as ->. }
  destruct R as [-> ->]. split; [reflexivity|]. split; [reflexivity|]. split.
  - intros args st res. rewrite run_cmd_spec. reflexivity.
  - intros src dst ld sts dts extra st rsync G.
    rewrite call_rsync_spec.
    simpl in G. simpl. rewrite G. cbv zeta. cbn [snd events].
    rewrite commands_app. cbn [commands flat_map app]. reflexivity.
Qed.

Lemma empty_host_is_local_witness :
  let m := mkManager ":backups" 1 (Some "") (PyPath.of_string "backups") 0 in
  commands (events (snd (run_cmd m ["rm"; "-rf"; "backups/old"]
                           (initial_state (mkFake [] [])))))
  = [["rm"; "-rf"; "backups/old"]].
Proof.
  intros m.
  destruct (empty_host_is_local "backups" 1 None
              (initial_state (mkFake [] []))
              (snd (__init__ ":backups" 1 None
                      (initial_state (mkFake [] []))))
              m) as (_ & _ & C & _).
  - vm_compute. reflexivity.
  - rewrite C. vm_compute. reflexivity.
Defined.

(** ** More on the transfers and on the listing of the folders *)

(** X7. A call of [call_rsync] without rsync in the registry fails its
    assertion and runs nothing.  With rsync registered it runs one command;
    it returns when rsync exits with status 0 and raises the [BackupError]
    that names the source and the destination otherwise. *)
Theorem call_rsync_outcome
    {W} {os : OS W} (self : BackupManager) (src dest : Path)
    (link_dest : option Path) (sts dts : bool)
    (extra : option (list string)) (s : State W) :
  let r := call_rsync self src dest link_dest sts dts extra s in
  (PyDict.mem "rsync" (heap s (exes self)) = false ->
   r = (Raise AssertionError, s))
  /\ (forall rsync,
        PyDict.get "rsync" (heap s (exes self)) = Some rsync ->
        let argv := rsync_argv self rsync src dest
                      (link_reference self link_dest (world s))
                      sts dts extra in
        let rc := returncode (fst (subprocess_run argv (world s))) in
        commands (events (snd r)) = commands (events s) ++ [argv]
        /\ world (snd r) = snd (subprocess_run argv (world s))
        /\ (rc = 0%Z -> fst r = Ok tt)
        /\ (rc <> 0%Z ->
            fst r = Raise (BackupError ("rsync failed for: " ++ str src
                                          ++ " to " ++ str dest)))).
Proof.
  intros r. subst r. rewrite call_rsync_spec. split.
  - unfold PyDict.mem.
    destruct (PyDict.get "rsync" (heap s (exes self))); [discriminate|].
    reflexivity.
  - intros rsync G. rewrite G. cbv zeta. cbn [fst snd events world].
    rewrite commands_app. cbn [commands flat_map app].
    split; [reflexivity|]. split; [reflexivity|]. split.
    + intros Z0. now rewrite Z0.
    + intros NZ. apply Z.eqb_neq in NZ. now rewrite NZ.
Qed.

Lemma call_rsync_outcome_witness :
  call_rsync (local_manager 1) (PyPath.of_string "/data/container/loose")
    (PyPath.of_string "/srv/backups/live-backup") None false false None
    (initial_state (mkFake [] []))
  = (Raise AssertionError, initial_state (mkFake [] []))
  /\ fst (call_rsync (local_manager 1)
            (PyPath.of_string "/data/container/loose")
            (PyPath.of_string "/srv/backups/live-backup") None false false
            None (fake_state (mkFake [exit_failed] [])))
     = Raise (BackupError
         "rsync failed for: /data/container/loose to /srv/backups/live-backup").
Proof.
  split.
  - apply (proj1 (call_rsync_outcome (local_manager 1)
                    (PyPath.of_string "/data/container/loose")
                    (PyPath.of_string "/srv/backups/live-backup")
                    None false false None (initial_state (mkFake [] [])))).
    reflexivity.
  - destruct (proj2 (call_rsync_outcome (local_manager 1)
                       (PyPath.of_string "/data/container/loose")
                       (PyPath.of_string "/srv/backups/live-backup")
                       None false false None
                       (fake_state (mkFake [exit_failed] [])))
                    "rsync" eq_refl) as (_ & _ & _ & H).
    apply H. vm_compute. discriminate.
Defined.

Lemma splitlines_line name rest :
  one_line name = true ->
  PyStr.splitlines (name ++ String PyStr.LF rest)
  = name :: PyStr.splitlines rest.
Proof.
  induction name as [|c n IH]; intros H.
  - simpl. destruct rest; reflexivity.
  - simpl in H. apply andb_true_iff in H as [Hc Hn].
    apply negb_true_iff in Hc.
    change (String c n ++ String PyStr.LF rest)%string
      with (String c (n ++ String PyStr.LF rest)).
    cbn [PyStr.splitlines]. rewrite Hc, (IH Hn). reflexivity.
Qed.

Lemma listing_cons name l :
  listing (name :: l) = (name ++ String PyStr.LF (listing l))%string.
Proof.
  unfold listing. destruct l as [|n l]; [reflexivity|].
  cbn [map String.concat].
  induction name as [|c name IH]; [reflexivity|].
  cbn [String.append]. f_equal. exact IH.
Qed.

Lemma splitlines_listing l :
  forallb one_line l = true -> PyStr.splitlines (listing l) = l.
Proof.
  induction l as [|name l IH]; intros H; [reflexivity|].
  simpl in H. apply andb_true_iff in H as [Hn Hl].
  rewrite listing_cons, splitlines_line by exact Hn.
  f_equal. apply IH, Hl.
Qed.

(** X8. When [find] succeeds and prints one folder per line, each ended by
    a newline, [get_existing_backup_folders] returns exactly these folders,
    in the order printed, provided no folder name has a line boundary
    (newline, carriage return and the like) in it. *)
Theorem get_existing_backup_folders_decodes_listing
    {W} {os : OS W} (self : BackupManager) (s : State W) (l : list string) :
  forallb one_line l = true ->
  returncode (cmd_reply self (find_args self) s) = 0%Z ->
  stdout (cmd_reply self (find_args self) s) = listing l ->
  get_existing_backup_folders self s
  = (Ok l, after_cmd self (find_args self) s).
Proof.
  intros L R O. rewrite get_existing_backup_folders_spec, R, O.
  cbn [Z.eqb]. now rewrite splitlines_listing.
Qed.

Lemma get_existing_backup_folders_decodes_listing_witness :
  fst (get_existing_backup_folders (local_manager 1)
         (initial_state world_with_five))
  = Ok five_shuffled.
Proof.
  rewrite (get_existing_backup_folders_decodes_listing (local_manager 1)
             (initial_state world_with_five) five_shuffled);
    reflexivity.
Defined.

(** Two strings of the same length that differ decide the comparison of
    whatever extends them. *)
Lemma compare_app_decided a b x y :
  String.length a = String.length b ->
  String.compare a b <> Eq ->
  String.compare (a ++ x) (b ++ y) = String.compare a b.
Proof.
  revert b. induction a as [|c a IH]; intros [|d b] L N; simpl in *;
    try discriminate; try congruence.
  destruct (Ascii.compare c d); try reflexivity.
  apply IH; [lia | exact N].
Qed.

Lemma folder_name_order dir ts ts' rand rand' :
  String.length ts' = String.length ts ->
  str_le (folder_name dir ts' rand') (folder_name dir ts rand) ->
  str_le ts' ts.
Proof.
  unfold str_le, String.leb, folder_name. intros L.
  rewrite !compare_common_prefix.
  destruct (String.compare ts' ts) eqn:C; try reflexivity.
  rewrite compare_app_decided by (congruence || exact L).
  now rewrite C.
Qed.

(** X9. The order of the names is the order of the timestamps: when the
    folders listed are named [backup_<timestamp>_<random>] below one
    directory, with timestamps of one length, [get_last_backup_folder]
    returns a folder whose timestamp is the greatest, whatever the random
    suffixes. *)
Theorem get_last_backup_folder_latest_timestamp
    {W} {os : OS W} (self : BackupManager) (s s1 : State W) (dir : string)
    (entries : list (string * string)) (n : nat) :
  entries <> [] ->
  Forall (fun e => String.length (fst e) = n) entries ->
  get_existing_backup_folders self s
  = (Ok (map (fun e => folder_name dir (fst e) (snd e)) entries), s1) ->
  exists ts rand,
    In (ts, rand) entries
    /\ get_last_backup_folder self s
       = (Ok (Some (PyPath.of_string (folder_name dir ts rand))), s1)
    /\ forall ts' rand', In (ts', rand') entries -> str_le ts' ts.
Proof.
  intros NE F E.
  set (l := map (fun e => folder_name dir (fst e) (snd e)) entries) in *.
  assert (Nl : l <> []) by (destruct entries; [congruence | discriminate]).
  assert (Ns : sorted l <> []).
  { intros H. apply (f_equal (@length _)) in H.
    rewrite sorted_length in H. destruct l; [congruence | discriminate]. }
  pose proof (last_in (sorted l) "" Ns) as Hin.
  apply (proj1 (sorted_in l _)) in Hin.
  apply in_map_iff in Hin as ([ts rand] & Hm & He). cbn [fst snd] in Hm.
  exists ts, rand. split; [exact He|]. split.
  - unfold get_last_backup_folder, bind. rewrite E.
    destruct l as [|a l'] eqn:El; [congruence|].
    cbn [PyList.truthy]. rewrite (index_last _ "" Ns). cbn [lift_option].
    unfold ret. now rewrite <- Hm.
  - intros ts' rand' He'.
    rewrite Forall_forall in F.
    apply (folder_name_order dir ts ts' rand rand').
    + pose proof (F _ He) as L1. pose proof (F _ He') as L2.
      cbn [fst] in L1, L2. congruence.
    + rewrite Hm. apply strongly_sorted_last; [apply sorted_strongly|].
      apply (proj2 (sorted_in l _)). apply in_map_iff.
      exists (ts', rand'). now split.
Qed.

Lemma get_last_backup_folder_latest_timestamp_witness :
  exists ts rand,
    In (ts, rand) [("20240102030405", "aaaa"); ("20240102030406", "0000")]
    /\ fst (get_last_backup_folder (local_manager 1)
              (initial_state
                 (mkFake [mkCP 0 (listing
                    [folder_name "/srv/backups/" "20240102030405" "aaaa";
                     folder_name "/srv/backups/" "20240102030406" "0000"])
                    ""] [])))
       = Ok (Some (PyPath.of_string
                     (folder_name "/srv/backups/" ts rand)))
    /\ str_le "20240102030405" ts.
Proof.
  destruct (get_last_backup_folder_latest_timestamp (local_manager 1)
              (initial_state
                 (mkFake [mkCP 0 (listing
                    [folder_name "/srv/backups/" "20240102030405" "aaaa";
                     folder_name "/srv/backups/" "20240102030406" "0000"])
                    ""] []))
              (snd (get_existing_backup_folders (local_manager 1)
                 (initial_state
                   (mkFake [mkCP 0 (listing
                     [folder_name "/srv/backups/" "20240102030405" "aaaa";
                      folder_name "/srv/backups/" "20240102030406" "0000"])
                     ""] []))))
              "/srv/backups/"
              [("20240102030405", "aaaa"); ("20240102030406", "0000")] 14)
    as (ts & rand & I & H & M).
  - discriminate.
  - repeat constructor.
  - vm_compute. reflexivity.
  - exists ts, rand. split; [exact I|]. split; [now rewrite H|].
    apply (M "20240102030405" "aaaa"). now left.
Defined.

(** X10. When [find] fails, [delete_old_backups] raises the [BackupError]
    for the listing and deletes nothing: [find] is the only command it has
    run. *)
Theorem delete_old_backups_listing_fails
    {W} {os : OS W} (self : BackupManager) (s : State W) :
  returncode (cmd_reply self (find_args self) s) <> 0%Z ->
  exists s',
    delete_old_backups self s
    = (Raise (BackupError "Existing backups determination failed."), s')
    /\ commands (events s')
       = commands (events s) ++ [cmd_argv self (find_args self)].
Proof.
  intros N. rewrite delete_old_backups_unfold. unfold bind.
  rewrite get_existing_backup_folders_spec.
  apply Z.eqb_neq in N. rewrite N.
  eexists. split; [reflexivity | apply commands_after_cmd].
Qed.

Lemma delete_old_backups_listing_fails_witness :
  exists s',
    delete_old_backups (local_manager 1)
      (initial_state (mkFake [exit_failed] []))
    = (Raise (BackupError "Existing backups determination failed."), s')
    /\ commands (events s') = [find_args (local_manager 1)].
Proof.
  apply (delete_old_backups_listing_fails (local_manager 1)
           (initial_state (mkFake [exit_failed] []))).
  vm_compute. discriminate.
Defined.

(** X11. When [find] fails at the start of a cycle, the cycle raises the
    [BackupError] for the listing and the producer is not called: whatever
    the producer is, the cycle ends in the state left by [find]. *)
Theorem cycle_listing_fails
    {W} {os : OS W} (self : BackupManager)
    (backup_func : Path -> option Path -> M W unit) (s : State W) :
  returncode (cmd_reply self (find_args self) s) <> 0%Z ->
  backup_auto_folders self backup_func s
  = (Raise (BackupError "Existing backups determination failed."),
     after_cmd self (find_args self) s).
Proof.
  intros N. unfold backup_auto_folders. unfold bind at 1.
  unfold get_last_backup_folder. unfold bind at 1.
  rewrite get_existing_backup_folders_spec.
  apply Z.eqb_neq in N. now rewrite N.
Qed.

Lemma cycle_listing_fails_witness :
  fst (backup_auto_folders (local_manager 1)
         (backup_container (local_manager 1) a_container)
         (fake_state (mkFake [exit_failed] [])))
  = Raise (BackupError "Existing backups determination failed.").
Proof.
  rewrite (cycle_listing_fails (local_manager 1)
             (backup_container (local_manager 1) a_container)
             (fake_state (mkFake [exit_failed] [])))
    by (vm_compute; discriminate).
  reflexivity.
Defined.

(** X12. When the producer returns and the move of the staging folder
    fails, the cycle raises the [BackupError] for the move; [mv] is the
    last command it has run: the link is not updated and no old backup is
    deleted. *)
Theorem promotion_failure_aborts_cycle
    {W} {os : OS W} (self : BackupManager)
    (backup_func : Path -> option Path -> M W unit)
    (s s1 s2 : State W) (last : option Path) :
  get_last_backup_folder self s = (Ok last, s1) ->
  backup_func (live_folder self) last (announced last s1) = (Ok tt, s2) ->
  let fn := new_folder_name (world s2) in
  returncode (cmd_reply self (mv_args self fn) (named s2)) <> 0%Z ->
  exists s',
    backup_auto_folders self backup_func s
    = (Raise (BackupError
                ("Failed to move '" ++ str (live_folder self) ++ "' to '"
                   ++ str (path self // PyPath.of_string fn) ++ "'")), s')
    /\ commands (events s')
       = commands (events s2) ++ [cmd_argv self (mv_args self fn)].
Proof.
  intros E P fn N.
  rewrite (backup_auto_folders_produce self backup_func s _ last E), P.
  cbv zeta. fold fn. apply Z.eqb_neq in N. rewrite N.
  eexists. split; [reflexivity|].
  rewrite commands_after_cmd. reflexivity.
Qed.

Lemma promotion_failure_aborts_cycle_witness :
  exists s',
    backup_auto_folders (local_manager 1)
      (backup_container (local_manager 1) a_container)
      (fake_state world_mv_fails)
    = (Raise (BackupError
         ("Failed to move '/srv/backups/live-backup' to "
            ++ "'/srv/backups/backup_20240229120000_abcd'")), s').
Proof.
  destruct (promotion_failure_aborts_cycle (local_manager 1)
              (backup_container (local_manager 1) a_container)
              (fake_state world_mv_fails)
              (snd (get_last_backup_folder (local_manager 1)
                      (fake_state world_mv_fails)))
              (snd (backup_container (local_manager 1) a_container
                      (live_folder (local_manager 1)) None
                      (announced None
                         (snd (get_last_backup_folder (local_manager 1)
                                 (fake_state world_mv_fails))))))
              None) as (s' & H & _).
  - vm_compute; reflexivity.
  - vm_compute; reflexivity.
  - vm_compute; discriminate.
  - exists s'. exact H.
Defined.

(** ** The temporary directory of a container backup *)

Lemma tempdir_events_app a b :
  tempdir_events (a ++ b) = tempdir_events a ++ tempdir_events b.
Proof. apply flat_map_app. Qed.

Section TempDir.

Context {W : Type} {os : OS W}.

Lemma tidy_ret {A} (a : A) : tidy (W:=W) (ret a).
Proof. now intros s r s' [= _ <-]. Qed.

Lemma tidy_raise {A} e : tidy (@raise W A e).
Proof. now intros s r s' [= _ <-]. Qed.

Lemma tidy_log lvl msg : tidy (W:=W) (log lvl msg).
Proof.
  intros s r s' [= _ <-]. unfold add_event. cbn [events].
  rewrite tempdir_events_app. cbn. now rewrite app_nil_r.
Qed.

Lemma tidy_syscall {A} (f : W -> A * W) : tidy (syscall f).
Proof. now intros s r s' [= _ <-]. Qed.

Lemma tidy_observe {A} (f : W -> A) : tidy (observe f).
Proof. now intros s r s' [= _ <-]. Qed.

Lemma tidy_bind {A B} (c : M W A) (k : A -> M W B) :
  tidy c -> (forall a, tidy (k a)) -> tidy (bind c k).
Proof.
  intros Hc Hk s r s' H.
  apply bind_inv in H as [(a & s1 & H1 & H2) | (e & H1 & _)].
  - rewrite (Hk a _ _ _ H2). exact (Hc _ _ _ H1).
  - exact (Hc _ _ _ H1).
Qed.

Lemma tidy_relative_to p q : tidy (relative_to (W:=W) p q).
Proof.
  unfold relative_to, lift_option.
  destruct (PyPath.relative_to p q); [apply tidy_ret | apply tidy_raise].
Qed.

Lemma tidy_call_rsync self src dest ld sts dts extra :
  tidy (W:=W) (call_rsync self src dest ld sts dts extra).
Proof.
  intros s r s'. rewrite call_rsync_spec.
  destruct (PyDict.get "rsync" (heap s (exes self)));
    intros [= _ <-]; [|reflexivity].
  cbn [events]. rewrite tempdir_events_app. cbn. now rewrite app_nil_r.
Qed.

Lemma tidy_sqlite_backup src dst : tidy (W:=W) (_sqlite_backup src dst).
Proof.
  intros s r s'.
  unfold _sqlite_backup, with_connection, bind, syscall_exn, syscall, emit,
    ret, add_event, set_world.
  cbn [world heap next_ref events fst snd].
  repeat match goal with
         | |- context [match fst (?f ?w) with _ => _ end] =>
             destruct (fst (f w))
         end;
    intros [= _ <-]; cbn [events];
    rewrite ?tempdir_events_app; cbn; now rewrite ?app_nil_r.
Qed.

Lemma tidy_dump_and_transfer_index self c path prev tmp :
  tidy (W:=W) (dump_and_transfer_index self c path prev tmp).
Proof.
  unfold dump_and_transfer_index. cbv zeta.
  apply tidy_bind; [apply tidy_sqlite_backup|]. intros _.
  apply tidy_bind; [apply tidy_observe|]. intros isf.
  apply tidy_bind;
    [destruct isf; [apply tidy_log | apply tidy_raise]|]. intros _.
  apply tidy_bind; [apply tidy_call_rsync|]. intros _. apply tidy_log.
Qed.

(** A [with] block whose body is tidy creates its directory and removes
    it, whatever the body returns or raises. *)
Lemma with_temporary_directory_tempdir {A} (body : string -> M W A)
    (s s' : State W) r :
  (forall name, tidy (body name)) ->
  with_temporary_directory body s = (r, s') ->
  tempdir_events (events s')
  = tempdir_events (events s)
      ++ [Created (fst (mkdtemp (world s)));
          Removed (fst (mkdtemp (world s)))].
Proof.
  intros T.
  unfold with_temporary_directory, bind, syscall, emit, finally, ret,
    add_event, set_world.
  cbn [world heap next_ref events fst snd].
  match goal with
  | |- context [body ?n ?st] =>
      destruct (body n st) as [[a|e] s2] eqn:Eb;
      apply (T n) in Eb
  end; intros [= _ <-]; cbn [events] in *;
    rewrite tempdir_events_app, Eb, tempdir_events_app;
    cbn; now rewrite <- app_assoc.
Qed.

End TempDir.

(** X13. A container backup leaves no temporary directory behind: either
    it has created none, or it has created one and removed it afterwards,
    also when the dump of the index or a transfer has failed.  A backup
    that returns has created one and removed it. *)
Theorem backup_container_removes_tempdir
    {W} {os : OS W} (self : BackupManager) (c : Container) (path : Path)
    (prev : option Path) (s : State W) :
  let r := backup_container self c path prev s in
  (tempdir_events (events (snd r)) = tempdir_events (events s)
   /\ fst r <> Ok tt)
  \/ exists name,
       tempdir_events (events (snd r))
       = tempdir_events (events s) ++ [Created name; Removed name].
Proof.
  intros r. subst r.
  destruct (backup_container self c path prev s) as [r s'] eqn:H.
  cbn [fst snd]. unfold backup_container in H. cbv zeta in H.
  apply bind_inv in H as [(lrel & s0 & H0 & H) | (e & H0 & ->)].
  2:{ left. split; [exact (tidy_relative_to _ _ _ _ _ H0) | discriminate]. }
  apply tidy_relative_to in H0.
  apply bind_inv in H as [(u1 & s1 & H1 & H) | (e & H1 & ->)];
    apply tidy_call_rsync in H1.
  2:{ left. split; [congruence | discriminate]. }
  apply bind_inv in H as [(u2 & s2 & H2 & H) | (e & H2 & _)];
    [|discriminate H2].
  apply tidy_log in H2.
  right. exists (fst (mkdtemp (world s2))).
  apply bind_inv in H as [(u3 & s3 & H3 & H) | (e & H3 & ->)];
    apply with_temporary_directory_tempdir in H3;
    try (intros name;
         apply (tidy_dump_and_transfer_index self c path prev name)).
  2:{ rewrite H3. congruence. }
  assert (T : tidy (W:=W)
                (packs_path_rel <-
                   relative_to (_get_pack_folder c) (get_folder c) ;;
                 call_rsync self (_get_pack_folder c) path prev false false
                   None ;;
                 log INFO (Text ("Transferred " ++ str (_get_pack_folder c)
                                   ++ " to " ++ str path)) ;;
                 call_rsync self (get_folder c) path prev true false
                   (Some ["--exclude"; str lrel; "--exclude"; "packs.idx";
                          "--exclude"; str packs_path_rel]))).
  { apply tidy_bind; [apply tidy_relative_to|]. intros prel.
    apply tidy_bind; [apply tidy_call_rsync|]. intros _.
    apply tidy_bind; [apply tidy_log|]. intros _. apply tidy_call_rsync. }
  rewrite (T _ _ _ H), H3. congruence.
Qed.

Example backup_container_tempdir_run :
  tempdir_events (events (snd (backup_container (local_manager 1) a_container
      (PyPath.of_string "/srv/backups/live-backup") None
      (fake_state (mkFake [exit_ok; exit_failed] [])))))
  = [Created "/tmp/tmpab12cd"; Removed "/tmp/tmpab12cd"].
Proof. vm_compute. reflexivity. Qed.

(** X14. A container whose loose folder is not below its root is refused
    at once: [backup_container] raises the [ValueError] of [relative_to]
    and has run nothing.  A container whose pack folder is not below its
    root is found out only after the transfer of the index: when the loose
    files have been transferred, the index has been dumped and the dumped
    file transferred, the backup raises the [ValueError] of [relative_to]
    in the state these three steps and the removal of the temporary
    directory have left, and transfers nothing more.  With rsync registered
    such a backup never returns, and it makes at most the first three
    steps. *)
Theorem backup_container_foreign_folders
    {W} {os : OS W} (self : BackupManager) (c : Container) (path : Path)
    (prev : option Path) (s : State W) :
  (PyPath.relative_to (_get_loose_folder c) (get_folder c) = None ->
   backup_container self c path prev s
   = (Raise (ValueError (not_in_subpath (_get_loose_folder c)
                           (get_folder c))), s))
  /\ (forall (lrel : Path) (s1 s3 s4 : State W),
      PyPath.relative_to (_get_loose_folder c) (get_folder c) = Some lrel ->
      PyPath.relative_to (_get_pack_folder c) (get_folder c) = None ->
      call_rsync self (_get_loose_folder c) path
        (option_map (fun pb => pb // lrel) prev) false false None s
      = (Ok tt, s1) ->
      let s2 := tempdir_opened
                  (add_event
                     (EvLog INFO (Text ("Transferred "
                                          ++ str (_get_loose_folder c)
                                          ++ " to " ++ str path))) s1) in
      let tmp := fst (mkdtemp (world s1)) in
      _sqlite_backup (_get_pack_index_path c) (temp_index tmp) s2
      = (Ok tt, s3) ->
      is_file (temp_index tmp) (world s3) = true ->
      call_rsync self (temp_index tmp) path prev false false None
        (add_event (EvLog INFO (Text ("Dumped the SQLite database to "
                                        ++ str (temp_index tmp)))) s3)
      = (Ok tt, s4) ->
      let s5 := add_event
                  (EvLog INFO (Text ("Transferred SQLite database to "
                                       ++ str path))) s4 in
      backup_container self c path prev s
      = (Raise (ValueError (not_in_subpath (_get_pack_folder c)
                              (get_folder c))),
         add_event (EvTempDirCleanup tmp)
           (set_world (rmtree tmp (world s5)) s5)))
  /\ (forall rsync,
      PyPath.relative_to (_get_pack_folder c) (get_folder c) = None ->
      PyDict.get "rsync" (heap s (exes self)) = Some rsync ->
      let r := backup_container self c path prev s in
      fst r <> Ok tt
      /\ exists done,
           steps (events (snd r)) = steps (events s) ++ done
           /\ length done <= 3).
Proof.
  split; [|split].
  - intros N. unfold backup_container. cbv zeta.
    unfold relative_to at 1. rewrite N. reflexivity.
  - intros lrel s1 s3 s4 L N R1 s2 tmp D F R3 s5.
    unfold backup_container. cbv zeta.
    unfold relative_to at 1. rewrite L. unfold lift_option at 1.
    unfold bind at 1. unfold ret at 1.
    replace (match prev with
             | Some pb => Some (pb // lrel)
             | None => None
             end) with (option_map (fun pb => pb // lrel) prev)
      by (now destruct prev).
    unfold bind at 1. rewrite R1.
    unfold bind at 1. unfold log at 1, emit at 1.
    unfold bind at 1.
    unfold with_temporary_directory.
    unfold bind at 1. unfold syscall at 1.
    unfold bind at 1. unfold emit at 1.
    unfold finally.
    change (PyPath.of_string
              (fst (mkdtemp (world (add_event
                 (EvLog INFO (Text ("Transferred "
                                      ++ str (_get_loose_folder c)
                                      ++ " to " ++ str path))) s1))))
            // PyPath.of_string "packs.idx")
      with (temp_index tmp).
    unfold bind at 1.
    change (_sqlite_backup (_get_pack_index_path c) (temp_index tmp) _)
      with (_sqlite_backup (_get_pack_index_path c) (temp_index tmp) s2).
    rewrite D.
    unfold bind at 1. unfold observe at 1. rewrite F.
    unfold bind at 1. unfold log at 1, emit at 1.
    unfold bind at 1. rewrite R3.
    unfold log at 1, emit at 1. fold s5.
    unfold bind at 1. unfold syscall at 1. unfold emit at 1.
    cbn [fst snd].
    unfold bind at 1. unfold relative_to at 1. rewrite N. reflexivity.
  - intros rsync N G r. subst r.
    destruct (backup_container self c path prev s) as [r s'] eqn:H.
    cbn [fst snd]. unfold backup_container in H. cbv zeta in H.
    apply bind_inv in H as [(lrel & s0 & H0 & H) | (e & H0 & ->)].
    2:{ split; [discriminate|]. exists [].
        rewrite app_nil_r.
        split; [exact (proj1 (stepless_relative_to _ _ _ _ _ H0)) | simpl; lia]. }
    destruct (stepless_relative_to _ _ _ _ _ H0) as [E0 F0].
    apply bind_inv in H as [(u1 & s1 & H1 & H) | (e & H1 & ->)];
      apply (call_rsync_steps self rsync) in H1
        as (F1 & st1 & T1 & E1); try congruence.
    2:{ split; [discriminate|]. exists [st1].
        split; [congruence | simpl; lia]. }
    apply bind_inv in H as [(u2 & s2 & H2 & H) | (e & H2 & _)];
      [|discriminate H2].
    destruct (stepless_log _ _ _ _ _ H2) as [E2 F2].
    apply bind_inv in H as [(u3 & s3 & H3 & H) | (e & H3 & ->)];
      apply with_temporary_directory_inv in H3
        as (t1 & t2 & Hb & Et1 & Ft1 & Et2 & Ft2);
      apply (dump_and_transfer_index_steps self c path prev rsync) in Hb
        as (Fb & db & Eb & Cb & Lb); try congruence.
    2:{ split; [discriminate|]. exists (st1 :: db). split.
        - rewrite Et2, Eb, Et1, E2, E1, E0, <- app_assoc. reflexivity.
        - destruct Cb as [-> | [-> | (st3 & _ & ->)]]; simpl; lia. }
    assert (Ldb : length db <= 2)
      by (destruct Cb as [-> | [-> | (st3 & _ & ->)]]; simpl; lia).
    apply bind_inv in H as [(prel & s4 & H4 & H) | (e & H4 & ->)].
    + exfalso. unfold relative_to, lift_option in H4. rewrite N in H4.
      discriminate H4.
    + destruct (stepless_relative_to _ _ _ _ _ H4) as [E4 _].
      split; [discriminate|]. exists (st1 :: db). split.
      * rewrite E4, Et2, Eb, Et1, E2, E1, E0, <- app_assoc. reflexivity.
      * simpl. lia.
Qed.

Lemma backup_container_foreign_folders_witness :
  let r := backup_container (local_manager 1) a_split_container
             (PyPath.of_string "/srv/backups/live-backup") None
             (fake_state (mkFake [] [])) in
  fst r
  = Raise (ValueError "'/mnt/packs' is not in the subpath of '/data/container'")
  /\ steps (events (snd r))
     = [Transfer ["rsync"; "-azh"; "-vv"; "--no-whole-file";
                  "/data/container/loose"; "/srv/backups/live-backup"];
        Snapshot "/data/container/packs.idx" "/tmp/tmpab12cd/packs.idx";
        Transfer ["rsync"; "-azh"; "-vv"; "--no-whole-file";
                  "/tmp/tmpab12cd/packs.idx"; "/srv/backups/live-backup"]].
Proof.
  intros r. subst r.
  pose (m := local_manager 1).
  pose (p := PyPath.of_string "/srv/backups/live-backup").
  pose (s := fake_state (mkFake [] [])).
  pose (s1 := snd (call_rsync m (_get_loose_folder a_split_container) p None
                     false false None s)).
  pose (s3 := snd (_sqlite_backup (_get_pack_index_path a_split_container)
                     (temp_index "/tmp/tmpab12cd")
                     (tempdir_opened
                        (add_event
                           (EvLog INFO
                              (Text ("Transferred "
                                       ++ str (_get_loose_folder
                                                 a_split_container)
                                       ++ " to " ++ str p))) s1)))).
  pose (s4 := snd (call_rsync m (temp_index "/tmp/tmpab12cd") p None
                     false false None
                     (add_event
                        (EvLog INFO
                           (Text ("Dumped the SQLite database to "
                                    ++ str (temp_index "/tmp/tmpab12cd"))))
                        s3))).
  rewrite (proj1 (proj2 (backup_container_foreign_folders m
                           a_split_container p None s))
             (mkPath "" ["loose"]) s1 s3 s4)
    by (vm_compute; reflexivity).
  split; vm_compute; reflexivity.
Defined.

(** ** Pruning after a new backup *)


Section Pruning.

Context {W : Type} {os : OS W}.


End Pruning.





(** ** A dump that leaves no file *)

(** X17. When the loose files have been transferred, the dump of the index
    returns and the file it should have written is not there, the backup
    raises the [BackupError] that names the file.  It ends in the state the
    dump left, but for the removal of the temporary directory: the index is
    not transferred, and neither is anything after it. *)
Theorem dump_without_file_stops_backup
    {W} {os : OS W} (self : BackupManager) (c : Container) (path : Path)
    (prev : option Path) (lrel : Path) (s s1 s3 : State W) :
  PyPath.relative_to (_get_loose_folder c) (get_folder c) = Some lrel ->
  call_rsync self (_get_loose_folder c) path
    (option_map (fun pb => pb // lrel) prev) false false None s
  = (Ok tt, s1) ->
  let s2 := tempdir_opened
              (add_event
                 (EvLog INFO (Text ("Transferred "
                                      ++ str (_get_loose_folder c)
                                      ++ " to " ++ str path))) s1) in
  let tmp := fst (mkdtemp (world s1)) in
  _sqlite_backup (_get_pack_index_path c) (temp_index tmp) s2 = (Ok tt, s3) ->
  is_file (temp_index tmp) (world s3) = false ->
  backup_container self c path prev s
  = (Raise (BackupError ("'" ++ str (temp_index tmp)
                           ++ "' failed to be created.")),
     add_event (EvTempDirCleanup tmp) (set_world (rmtree tmp (world s3)) s3)).
Proof.
  intros L R1 s2 tmp D F.
  unfold backup_container. cbv zeta.
  unfold relative_to at 1. rewrite L. unfold lift_option.
  unfold bind at 1. unfold ret at 1.
  replace (match prev with
           | Some pb => Some (pb // lrel)
           | None => None
           end) with (option_map (fun pb => pb // lrel) prev)
    by (now destruct prev).
  unfold bind at 1. rewrite R1.
  unfold bind at 1. unfold log at 1, emit at 1.
  unfold bind at 1.
  unfold with_temporary_directory.
  unfold bind at 1. unfold syscall at 1.
  unfold bind at 1. unfold emit at 1.
  unfold finally.
  change (PyPath.of_string
            (fst (mkdtemp (world (add_event
               (EvLog INFO (Text ("Transferred "
                                    ++ str (_get_loose_folder c)
                                    ++ " to " ++ str path))) s1))))
          // PyPath.of_string "packs.idx")
    with (temp_index tmp).
  unfold bind at 1.
  change (_sqlite_backup (_get_pack_index_path c) (temp_index tmp) _)
    with (_sqlite_backup (_get_pack_index_path c) (temp_index tmp) s2).
  rewrite D.
  unfold bind at 1. unfold observe at 1. rewrite F.
  unfold bind at 1. unfold raise at 1.
  reflexivity.
Qed.

Lemma dump_without_file_stops_backup_witness :
  let s := mkState tt (fun _ => [("rsync", "rsync")]) 1 [] in
  let r := backup_container (os:=BareOS) (local_manager 1) a_container
             (PyPath.of_string "/srv/backups/live-backup") None s in
  fst r
  = Raise (BackupError "'/tmp/tmpab12cd/packs.idx' failed to be created.")
  /\ steps (events (snd r))
     = [Transfer ["rsync"; "-azh"; "-vv"; "--no-whole-file";
                  "/data/container/loose"; "/srv/backups/live-backup"];
        Snapshot "/data/container/packs.idx" "/tmp/tmpab12cd/packs.idx"].
Proof.
  intros s r. subst r.
  rewrite (dump_without_file_stops_backup (os:=BareOS) (local_manager 1)
             a_container
             (PyPath.of_string "/srv/backups/live-backup") None
             (mkPath "" ["loose"]) s
             (snd (call_rsync (os:=BareOS) (local_manager 1)
                     (_get_loose_folder a_container)
                     (PyPath.of_string "/srv/backups/live-backup") None
                     false false None s))
             (snd (_sqlite_backup (os:=BareOS)
                     (_get_pack_index_path a_container)
                     (temp_index "/tmp/tmpab12cd")
                     (tempdir_opened (os:=BareOS)
                        (add_event
                           (EvLog INFO
                              (Text ("Transferred "
                                       ++ str (_get_loose_folder a_container)
                                       ++ " to "
                                       ++ "/srv/backups/live-backup")))
                           (snd (call_rsync (os:=BareOS) (local_manager 1)
                                   (_get_loose_folder a_container)
                                   (PyPath.of_string
                                      "/srv/backups/live-backup") None
                                   false false None s)))))))
    by (vm_compute; reflexivity).
  split; vm_compute; reflexivity.
Defined.
